(** * Convolution custom calls of the XLA GPU runtime

    A shallow embedding of [xla/service/gpu/runtime/conv.cc]: the attribute
    structs, the descriptor builder [GetConvDescriptor], the per-executor
    runner cache [ConvRunners], and the custom call bodies [DoConv],
    [ConvImpl] and [ConvGraphImpl], followed by the properties of the
    dispatch runtime that are stated about them.

    Conventions.
    - C++ integers are [Z]; every conversion between integer types that can
      change a value is written with [to_int32], [to_int64] or [to_uint64].
    - [absl::Span] and [std::vector] are [list]; an index outside the
      container has no defined behaviour in C++ and is [None] here.
    - [double] values are only ever copied, so they are carried by their
      IEEE-754 binary64 bit pattern.
    - Code that lives outside this translation unit (the device primitive,
      the algorithm picker, the allocator, the stream) is a field of [Env]
      and threads an abstract device [World]. *)

From Stdlib Require Import ZArith Lia.
From stdpp Require Import base option list list_numbers gmap strings.

Local Open Scope Z_scope.

(** ** Machine integers *)

Definition to_uint64 (z : Z) : Z := z mod 2 ^ 64.
Definition to_int32 (z : Z) : Z := (z + 2 ^ 31) mod 2 ^ 32 - 2 ^ 31.
Definition to_int64 (z : Z) : Z := (z + 2 ^ 63) mod 2 ^ 64 - 2 ^ 63.

Definition INT_MAX : Z := 2 ^ 31 - 1.

(** [v[i]] for a container indexed by an integer. *)
Definition at_index {A : Type} (l : list A) (i : Z) : option A :=
  if i <? 0 then None else l !! Z.to_nat i.

(** IEEE-754 binary64, by bit pattern. *)
Definition double : Type := Z.

(** ** Types declared by the runtime and by XLA *)

Inductive PrimitiveType : Type :=
  | PRED | S8 | S32 | S64 | U8 | F16 | BF16 | F32 | F64 | F8E4M3FN | F8E5M2.

Inductive CudnnConvKind : Type :=
  | kForward | kBackwardInput | kBackwardFilter | kForwardActivation
  | kForwardGraph.

Inductive ActivationMode : Type :=
  | kNone | kSigmoid | kRelu | kRelu6 | kReluX | kTanh | kBandPass | kElu
  | kLeakyRelu | kGeluExact.

Inductive MathType : Type := DEFAULT_MATH | TENSOR_OP_MATH.

Module StridedMemrefView.
Record t : Type := mk {
  dtype : PrimitiveType;
  data : Z;
  sizes : list Z;
  strides : list Z }.
End StridedMemrefView.

Module FlatMemrefView.
Record t : Type := mk {
  dtype : PrimitiveType;
  data : Z;
  size_in_bytes : Z }.
End FlatMemrefView.

Module Shape.
Record t : Type := mk {
  element_type : PrimitiveType;
  dimensions : list Z;
  minor_to_major : list Z }.
End Shape.

(** Modelled from the spec: [ShapeUtil::MakeShapeWithDenseLayout] is defined
    outside this file; the operand keeps its element type and extents and is
    laid out by the given minor-to-major ordering. *)
Definition MakeShapeWithDenseLayout
    (ty : PrimitiveType) (dims minor_to_major : list Z) : Shape.t :=
  Shape.mk ty dims minor_to_major.

(** The protobuf message [xla::ConvolutionDimensionNumbers]. *)
Module ConvolutionDimensionNumbers.
Record t : Type := mk {
  input_batch_dimension : Z;
  input_feature_dimension : Z;
  input_spatial_dimensions : list Z;
  kernel_input_feature_dimension : Z;
  kernel_output_feature_dimension : Z;
  kernel_spatial_dimensions : list Z;
  output_batch_dimension : Z;
  output_feature_dimension : Z;
  output_spatial_dimensions : list Z }.
End ConvolutionDimensionNumbers.

(** The protobuf message [xla::WindowDimension]. *)
Module WindowDimension.
Record t : Type := mk {
  size : Z;
  stride : Z;
  padding_low : Z;
  padding_high : Z;
  base_dilation : Z;
  window_dilation : Z;
  window_reversal : bool }.
End WindowDimension.

(** The protobuf message [se::dnn::AlgorithmProto]; [workspace_size] is a
    wrapper message, absent until it is set. *)
Module AlgorithmProto.
Record t : Type := mk {
  algo_id : Z;
  math_type : MathType;
  is_cudnn_frontend : bool;
  workspace_size : option Z;
  tuning_knobs : gmap Z Z }.
End AlgorithmProto.

(** The protobuf message [CudnnConvBackendConfig]. *)
Module CudnnConvBackendConfig.
Record t : Type := mk {
  conv_result_scale : double;
  reordered_int8_nchw_vect : bool;
  algorithm : AlgorithmProto.t;
  activation_mode : ActivationMode;
  leakyrelu_alpha : double;
  side_input_scale : double;
  serialized_graph : option string }.
End CudnnConvBackendConfig.

Module GpuConvDescriptor.
Record t : Type := mk {
  kind : CudnnConvKind;
  backend_config : CudnnConvBackendConfig.t;
  operand0_shape : Shape.t;
  operand1_shape : Shape.t;
  result_shape : Shape.t;
  scratch_size : Z;
  window : list WindowDimension.t;
  dnums : ConvolutionDimensionNumbers.t;
  feature_group_count : Z }.

(** [descriptor.backend_config.set_serialized_graph(g)]. *)
Definition set_serialized_graph (g : string) (d : t) : t :=
  let c := backend_config d in
  mk (kind d)
     (CudnnConvBackendConfig.mk
        (CudnnConvBackendConfig.conv_result_scale c)
        (CudnnConvBackendConfig.reordered_int8_nchw_vect c)
        (CudnnConvBackendConfig.algorithm c)
        (CudnnConvBackendConfig.activation_mode c)
        (CudnnConvBackendConfig.leakyrelu_alpha c)
        (CudnnConvBackendConfig.side_input_scale c)
        (Some g))
     (operand0_shape d) (operand1_shape d) (result_shape d)
     (scratch_size d) (window d) (dnums d) (feature_group_count d).
End GpuConvDescriptor.

(** ** Structs for encoding convolution attributes *)

Module ConvDimensionNumbers.
Record t : Type := mk {
  input_batch_dim : Z;
  input_feature_dim : Z;
  input_spatial_dims : list Z;
  kernel_in_feature_dim : Z;
  kernel_out_feature_dim : Z;
  kernel_spatial_dims : list Z;
  output_batch_dim : Z;
  output_feature_dim : Z;
  output_spatial_dims : list Z }.
End ConvDimensionNumbers.

Module ConvBackendConfig.
Record t : Type := mk {
  algorithm : Z;
  tensor_ops_enabled : bool;
  is_cudnn_frontend : bool;
  is_cudnn_reordered_int8 : bool;
  knob_ids : list Z;
  knob_values : list Z;
  operand_0_layout : list Z;
  operand_1_layout : list Z;
  result_layout : list Z;
  workspace_size : Z }.

(** [backend_config.algorithm = a] on the by-value copy. *)
Definition set_algorithm (a : Z) (b : t) : t :=
  mk a (tensor_ops_enabled b) (is_cudnn_frontend b)
     (is_cudnn_reordered_int8 b) (knob_ids b) (knob_values b)
     (operand_0_layout b) (operand_1_layout b) (result_layout b)
     (workspace_size b).
End ConvBackendConfig.

Module Window.
Record t : Type := mk {
  window_strides : list Z;
  padding : list Z;
  lhs_dilation : list Z;
  rhs_dilation : list Z;
  window_reversal : list Z }.
End Window.

Module ConvAttrs.
Record t : Type := mk { feature_group_count : Z; result_scale : double }.
End ConvAttrs.

Module FusedConvAttrs.
Record t : Type := mk { activation_mode : ActivationMode }.
End FusedConvAttrs.

Module SideInputAttrs.
Record t : Type := mk { side_input_scale : double }.
End SideInputAttrs.

Module LeakyReluAlphaAttrs.
Record t : Type := mk { leaky_relu_alpha : double }.
End LeakyReluAlphaAttrs.

(** ** The descriptor builder *)

(** The lambda [apply_layout].  [ToShape] (declared outside this file) turns
    the memref's [dtype] and [sizes] into the shape's element type and
    dimensions; the layout it recovers from the strides is replaced here. *)
Definition apply_layout
    (memref : StridedMemrefView.t) (minor_to_major : list Z) : Shape.t :=
  MakeShapeWithDenseLayout (StridedMemrefView.dtype memref)
    (StridedMemrefView.sizes memref) minor_to_major.

(** "Set up convolution dimensions numbers": six scalar setters, then the
    three spatial lists appended element by element. *)
Definition make_dnums (dims : ConvDimensionNumbers.t)
    : ConvolutionDimensionNumbers.t :=
  ConvolutionDimensionNumbers.mk
    (ConvDimensionNumbers.input_batch_dim dims)
    (ConvDimensionNumbers.input_feature_dim dims)
    (foldl (fun acc d => acc ++ [d]) []
       (ConvDimensionNumbers.input_spatial_dims dims))
    (ConvDimensionNumbers.kernel_in_feature_dim dims)
    (ConvDimensionNumbers.kernel_out_feature_dim dims)
    (foldl (fun acc d => acc ++ [d]) []
       (ConvDimensionNumbers.kernel_spatial_dims dims))
    (ConvDimensionNumbers.output_batch_dim dims)
    (ConvDimensionNumbers.output_feature_dim dims)
    (foldl (fun acc d => acc ++ [d]) []
       (ConvDimensionNumbers.output_spatial_dims dims)).

(** One iteration of the loop "Put together convolution window config". *)
Definition window_dimension
    (operand0_shape : Shape.t) (dnums : ConvolutionDimensionNumbers.t)
    (w : Window.t) (index : Z) : option WindowDimension.t :=
  d ← at_index (ConvolutionDimensionNumbers.kernel_spatial_dimensions dnums)
        index;
  let kernel_dim := to_int32 d in
  size ← at_index (Shape.dimensions operand0_shape) kernel_dim;
  stride ← at_index (Window.window_strides w) index;
  padding_low ← at_index (Window.padding w) index;
  padding_high ← at_index (Window.padding w) index;
  base_dilation ← at_index (Window.lhs_dilation w) index;
  window_dilation ← at_index (Window.rhs_dilation w) index;
  reversal ← at_index (Window.window_reversal w) index;
  Some (WindowDimension.mk size stride padding_low padding_high
          base_dilation window_dilation (negb (reversal =? 0))).

(** The whole loop over [llvm::seq<int>(0, w.window_strides.size())]: the
    end of the range is the span length converted to [int]; a negative end
    is not a range. *)
Definition build_window
    (operand0_shape : Shape.t) (dnums : ConvolutionDimensionNumbers.t)
    (w : Window.t) : option (list WindowDimension.t) :=
  let n := to_int32 (Z.of_nat (length (Window.window_strides w))) in
  if n <? 0 then None
  else mapM (window_dimension operand0_shape dnums w) (seqZ 0 n).

(** [tuning_knobs()->insert({id, value})]: a protobuf map insert keeps an
    entry that is already present. *)
Definition knob_insert (k v : Z) (m : gmap Z Z) : gmap Z Z :=
  match m !! k with
  | Some _ => m
  | None => <[k := v]> m
  end.

(** The loop [for (unsigned i = 0; i < b.knob_ids.size(); ++i)].  The
    counter is 32 bits wide, so it can only reach a bound below [2^32]. *)
Definition build_knobs (b : ConvBackendConfig.t) : option (gmap Z Z) :=
  let n := Z.of_nat (length (ConvBackendConfig.knob_ids b)) in
  if 2 ^ 32 <=? n then None
  else
    foldl (fun acc i =>
             m ← acc;
             k ← at_index (ConvBackendConfig.knob_ids b) i;
             v ← at_index (ConvBackendConfig.knob_values b) i;
             Some (knob_insert k v m))
          (Some ∅) (seqZ 0 n).

(** "Set up convolution algorigthm", up to the knobs. *)
Definition make_algorithm (b : ConvBackendConfig.t) (knobs : gmap Z Z)
    : AlgorithmProto.t :=
  AlgorithmProto.mk
    (ConvBackendConfig.algorithm b)
    (if ConvBackendConfig.tensor_ops_enabled b
     then TENSOR_OP_MATH else DEFAULT_MATH)
    (ConvBackendConfig.is_cudnn_frontend b)
    (if 0 <=? ConvBackendConfig.workspace_size b
     then Some (ConvBackendConfig.workspace_size b) else None)
    knobs.

Definition GetConvDescriptor
    (kind : CudnnConvKind)
    (operand0 operand1 output : StridedMemrefView.t)
    (scratch : FlatMemrefView.t)
    (dims : ConvDimensionNumbers.t) (w : Window.t)
    (b : ConvBackendConfig.t) (attrs : ConvAttrs.t)
    (fused : option FusedConvAttrs.t)
    (side_input : option SideInputAttrs.t)
    (leakyrelu_alpha : option LeakyReluAlphaAttrs.t)
    : option GpuConvDescriptor.t :=
  let operand0_shape :=
    apply_layout operand0 (ConvBackendConfig.operand_0_layout b) in
  let operand1_shape :=
    apply_layout operand1 (ConvBackendConfig.operand_1_layout b) in
  let result_shape :=
    apply_layout output (ConvBackendConfig.result_layout b) in
  let dnums := make_dnums dims in
  window ← build_window operand0_shape dnums w;
  knobs ← build_knobs b;
  Some (GpuConvDescriptor.mk kind
          (CudnnConvBackendConfig.mk
             (ConvAttrs.result_scale attrs)
             (ConvBackendConfig.is_cudnn_reordered_int8 b)
             (make_algorithm b knobs)
             (from_option FusedConvAttrs.activation_mode kNone fused)
             (from_option LeakyReluAlphaAttrs.leaky_relu_alpha 0
                leakyrelu_alpha)
             (from_option SideInputAttrs.side_input_scale 0 side_input)
             None)
          operand0_shape operand1_shape result_shape
          (FlatMemrefView.size_in_bytes scratch)
          window dnums
          (ConvAttrs.feature_group_count attrs)).

(** ** Device memory, statuses and the runner state *)

Module DeviceMemoryBase.
Record t : Type := mk { opaque : Z; size : Z }.
End DeviceMemoryBase.

(** [se::OwningDeviceMemory], the handle that [Allocate] returns, is declared
    outside this file.  [wrapped] is the device memory that the handle
    owns; [ptr] is the pointer that the accessor [ptr()] returns, as the
    [void*] that the constructor of [se::DeviceMemoryBase] takes.  How the
    two are related is a matter of the declaration: nothing is assumed
    about it, the allocator of the environment decides both. *)
Module OwningDeviceMemory.
Record t : Type := mk { wrapped : DeviceMemoryBase.t; ptr : Z }.
End OwningDeviceMemory.

Inductive StatusCode : Type :=
  | kInternal | kInvalidArgument | kNotFound | kResourceExhausted
  | kUnimplemented | kUnknown.

(** A non-OK [absl::Status]. *)
Record Status : Type := mkStatus { code : StatusCode; message : string }.

Definition InternalError (msg : string) : Status := mkStatus kInternal msg.

Inductive StatusOr (A : Type) : Type :=
  | OkValue (a : A)
  | NotOk (s : Status).
Arguments OkValue {A} a.
Arguments NotOk {A} s.

(** [se::dnn::AlgorithmDesc] wraps an [AlgorithmProto]; this is its
    two-argument constructor [(algo_id, use_tensor_ops)], which sets the
    id and the math type and nothing else. *)
Definition AlgorithmDesc (algo_id : Z) (use_tensor_ops : bool)
    : AlgorithmProto.t :=
  AlgorithmProto.mk algo_id
    (if use_tensor_ops then TENSOR_OP_MATH else DEFAULT_MATH) false None ∅.

(** Modelled from the spec: [GpuConvConfig] is declared outside this file.
    It holds the algorithm, which [DoConv] overwrites, and the rest of the
    compiled configuration, all of it derived from one descriptor. *)
Module GpuConvConfig.
Record t : Type := mk {
  algorithm : AlgorithmProto.t;
  descriptor : GpuConvDescriptor.t }.
Definition set_algorithm (a : AlgorithmProto.t) (c : t) : t :=
  mk a (descriptor c).
End GpuConvConfig.

(** Modelled from the spec: the compiled handle that a plan owns next to
    its configuration; it is filled in by the device primitive. *)
Inductive GenericConvRunner : Type :=
  | NotCompiled
  | Compiled (handle : Z).

Module ConvRunner.
Record t : Type := mk {
  config : GpuConvConfig.t;
  runner : GenericConvRunner }.
End ConvRunner.

(** The constructor [ConvRunner(GpuConvConfig config)]. *)
Definition new_ConvRunner (config : GpuConvConfig.t) : ConvRunner.t :=
  ConvRunner.mk config NotCompiled.

Module AutotuneResult.
Record t : Type := mk {
  conv_algorithm : Z;
  conv_tensor_ops_enabled : bool;
  scratch_bytes : Z }.
End AutotuneResult.

(** Modelled from the spec: [GetDeviceAddress] on a flat memref is declared
    outside this file; the buffer handle carries the raw device address and
    the byte size supplied by the caller (a [uint64_t]). *)
Definition GetDeviceAddress_flat (m : FlatMemrefView.t)
    : DeviceMemoryBase.t :=
  DeviceMemoryBase.mk (FlatMemrefView.data m)
    (to_uint64 (FlatMemrefView.size_in_bytes m)).

(** ** The environment of a call *)

(** What [run_options], [debug_options] and the build configuration give to
    a call.  Every capability that touches the device threads the [World];
    [ByteSize] is the byte size of the contents of a strided memref, which
    a helper declared outside this file computes. *)
Record Env (World : Type) : Type := mkEnv {
  GOOGLE_CUDA : bool;
  device_ordinal : Z;
  ByteSize : StridedMemrefView.t -> Z;
  GetGpuConvConfig : GpuConvDescriptor.t -> StatusOr GpuConvConfig.t;
  PickBestAlgorithmWithAllocatedBuffer :
    GpuConvConfig.t -> list DeviceMemoryBase.t -> list DeviceMemoryBase.t ->
    World -> StatusOr AutotuneResult.t * World;
  Allocate : Z -> Z -> World -> StatusOr OwningDeviceMemory.t * World;
  RunGpuConv :
    GpuConvConfig.t -> list DeviceMemoryBase.t -> list DeviceMemoryBase.t ->
    DeviceMemoryBase.t -> GenericConvRunner -> World ->
    option Status * GenericConvRunner * World;
  stream_ok : World -> bool }.
Arguments GOOGLE_CUDA {World} _.
Arguments device_ordinal {World} _.
Arguments ByteSize {World} _ _.
Arguments GetGpuConvConfig {World} _ _.
Arguments PickBestAlgorithmWithAllocatedBuffer {World} _ _ _ _ _.
Arguments Allocate {World} _ _ _ _.
Arguments RunGpuConv {World} _ _ _ _ _ _ _.
Arguments stream_ok {World} _ _.

(** [GetDeviceAddress] on a strided memref: the address of the memref and
    the byte size of its contents. *)
Definition GetDeviceAddress {World : Type} (env : Env World)
    (m : StridedMemrefView.t) : DeviceMemoryBase.t :=
  DeviceMemoryBase.mk (StridedMemrefView.data m) (ByteSize env m).

(** Every call of an external capability is recorded, in order; a run of
    the device primitive is recorded with the status it reported. *)
Inductive Event : Type :=
  | EvGetGpuConvConfig (d : GpuConvDescriptor.t)
  | EvPickBestAlgorithm (c : GpuConvConfig.t)
      (buffers result_buffers : list DeviceMemoryBase.t)
  | EvAllocate (ordinal : Z) (bytes : Z)
  | EvRunGpuConv (c : GpuConvConfig.t)
      (buffers result_buffers : list DeviceMemoryBase.t)
      (scratch : DeviceMemoryBase.t) (reported : option Status).

(** [StreamExecutorConvRunners]: the runner states of one stream executor,
    by the [uid] of the call site. *)
Abbreviation StreamExecutorConvRunners := (gmap Z ConvRunner.t).

Record Machine (World : Type) : Type := mkMachine {
  runners : StreamExecutorConvRunners;
  world : World;
  trace : list Event }.
Arguments mkMachine {World} _ _ _.
Arguments runners {World} _.
Arguments world {World} _.
Arguments trace {World} _.

(** ** A state and error monad for the custom call bodies *)

Inductive outcome (World A : Type) : Type :=
  | Done (a : A) (m : Machine World)
  | Fail (e : Status) (m : Machine World)
  | Undef.
Arguments Done {World A} a m.
Arguments Fail {World A} e m.
Arguments Undef {World A}.

Definition M (World A : Type) : Type := Machine World -> outcome World A.

Definition ret {World A : Type} (a : A) : M World A := fun m => Done a m.

Definition bind {World A B : Type} (c : M World A) (k : A -> M World B)
    : M World B :=
  fun m =>
    match c m with
    | Done a m' => k a m'
    | Fail e m' => Fail e m'
    | Undef => Undef
    end.

#[global] Instance M_ret {World : Type} : MRet (M World) :=
  fun A a => ret a.
#[global] Instance M_bind {World : Type} : MBind (M World) :=
  fun A B k c => bind c k.

(** [return status;] with a non-OK status. *)
Definition fail {World A : Type} (e : Status) : M World A :=
  fun m => Fail e m.

Definition undefined {World A : Type} : M World A := fun _ => Undef.

Definition emit {World : Type} (ev : Event) : M World unit :=
  fun m => Done tt (mkMachine (runners m) (world m) (trace m ++ [ev])).

(** A call into the device world. *)
Definition call {World A : Type} (f : World -> A * World) : M World A :=
  fun m => let '(a, w) := f (world m) in
           Done a (mkMachine (runners m) w (trace m)).

Definition peek {World A : Type} (f : World -> A) : M World A :=
  fun m => Done (f (world m)) m.

(** [TF_ASSIGN_OR_RETURN] on a value that is already computed. *)
Definition assign_or_return {World A : Type} (r : StatusOr A) : M World A :=
  match r with
  | OkValue a => ret a
  | NotOk e => fail e
  end.

(** [TF_RETURN_IF_ERROR]. *)
Definition return_if_error {World : Type} (r : option Status)
    : M World unit :=
  match r with
  | None => ret tt
  | Some e => fail e
  end.

(** A [State<ConvRunner>] is bound to the slot of one [uid]. *)
Definition State : Type := Z.

(** Modelled from the spec: [State<T>::GetOrCreate] is declared outside this
    file.  If the slot holds a plan it is returned and the builder is not
    invoked; otherwise the builder runs once, and its plan is installed only
    if it succeeds. *)
Definition GetOrCreate {World : Type} (runner : State)
    (create : M World ConvRunner.t) : M World ConvRunner.t :=
  fun m =>
    match runners m !! runner with
    | Some conv => Done conv m
    | None =>
        match create m with
        | Done conv m' =>
            Done conv
              (mkMachine (<[runner := conv]> (runners m')) (world m')
                 (trace m'))
        | Fail e m' => Fail e m'
        | Undef => Undef
        end
    end.

(** A write through the pointer [conv] returned by [GetOrCreate]. *)
Definition store {World : Type} (runner : State) (conv : ConvRunner.t)
    : M World unit :=
  fun m => Done tt (mkMachine (<[runner := conv]> (runners m)) (world m)
                      (trace m)).

(** ** The custom call bodies *)

Section CustomCalls.
Context {World : Type} (env : Env World).

(** The lambda handed to [GetOrCreate] in [DoConv]: build the descriptor
    from [outputs[0]], attach the serialized graph, and derive the
    configuration of the runner. *)
Definition create_runner
    (kind : CudnnConvKind)
    (operand0 operand1 : StridedMemrefView.t)
    (outputs : list StridedMemrefView.t) (scratch : FlatMemrefView.t)
    (conv_dims : ConvDimensionNumbers.t)
    (window_strides padding lhs_dilation rhs_dilation window_reversal
       : list Z)
    (backend_config : ConvBackendConfig.t)
    (feature_group_count : Z) (result_scale : double)
    (fused_attrs : option FusedConvAttrs.t)
    (side_input_attrs : option SideInputAttrs.t)
    (leakyrelu_alpha_attrs : option LeakyReluAlphaAttrs.t)
    (serialized_graph : option string) : M World ConvRunner.t :=
  match
    output0 ← at_index outputs 0;
    GetConvDescriptor kind operand0 operand1 output0 scratch conv_dims
      (Window.mk window_strides padding lhs_dilation rhs_dilation
         window_reversal)
      backend_config (ConvAttrs.mk feature_group_count result_scale)
      fused_attrs side_input_attrs leakyrelu_alpha_attrs
  with
  | None => undefined
  | Some descriptor =>
      let descriptor :=
        match serialized_graph with
        | Some g => GpuConvDescriptor.set_serialized_graph g descriptor
        | None => descriptor
        end in
      emit (EvGetGpuConvConfig descriptor);;
      conv_config ← assign_or_return (GetGpuConvConfig env descriptor);
      mret (new_ConvRunner conv_config)
  end.

(** The lines that set [runtime_autotuning]: the backend config of the
    call after them, and the flag.  "Set the algorithm back to the default
    algorithm to avoid error from cuDNN." *)
Definition pin_algorithm (backend_config : ConvBackendConfig.t)
    : ConvBackendConfig.t * bool :=
  if ConvBackendConfig.algorithm backend_config =? -1
  then (ConvBackendConfig.set_algorithm 0 backend_config, true)
  else (backend_config, false).

(** The block "Do runtime conv autotuning".  It yields the runner state
    after the write to [conv->config.algorithm] and the new value of
    [scratch_buffer_size]. *)
Definition autotune (runner : State) (conv : ConvRunner.t)
    (buffers result_buffers : list DeviceMemoryBase.t)
    : M World (ConvRunner.t * Z) :=
  if GOOGLE_CUDA env then
    let gpu_conv_config := ConvRunner.config conv in
    emit (EvPickBestAlgorithm gpu_conv_config buffers result_buffers);;
    r ← call (PickBestAlgorithmWithAllocatedBuffer env gpu_conv_config
                buffers result_buffers);
    best_algo ← assign_or_return r;
    let algo_desc :=
      AlgorithmDesc (AutotuneResult.conv_algorithm best_algo)
        (AutotuneResult.conv_tensor_ops_enabled best_algo) in
    let conv :=
      ConvRunner.mk
        (GpuConvConfig.set_algorithm algo_desc (ConvRunner.config conv))
        (ConvRunner.runner conv) in
    store runner conv;;
    mret (conv, AutotuneResult.scratch_bytes best_algo)
  else
    fail (InternalError
            "Failed to run runtime autotuner because CUDA is not enabled").

(** [RunGpuConv(conv->config, ..., opts)] with [opts.runner_cache] pointing
    at [conv->runner], followed by the check of the stream.  The source
    writes these lines once for each scratch buffer. *)
Definition run_conv (runner : State) (conv : ConvRunner.t)
    (buffers result_buffers : list DeviceMemoryBase.t)
    (scratch_buffer : DeviceMemoryBase.t) : M World unit :=
  '(status, cache) ← call (fun w =>
      let '(status, cache, w') :=
        RunGpuConv env (ConvRunner.config conv) buffers result_buffers
          scratch_buffer (ConvRunner.runner conv) w in
      ((status, cache), w'));
  emit (EvRunGpuConv (ConvRunner.config conv) buffers result_buffers
          scratch_buffer status);;
  store runner (ConvRunner.mk (ConvRunner.config conv) cache);;
  return_if_error status;;
  ok ← peek (stream_ok env);
  if ok : bool then mret tt
  else fail (InternalError "run_options stream not ok").

(** [DoConv], from its first line to the end of the autotuning block: the
    runner state, the operand and result buffers, the scratch buffer of the
    caller and [scratch_buffer_size]. *)
Definition DoConv_prepare
    (kind : CudnnConvKind) (runner : State)
    (operand0 operand1 : StridedMemrefView.t)
    (bias : option FlatMemrefView.t)
    (side_input : option StridedMemrefView.t)
    (outputs : list StridedMemrefView.t) (scratch : FlatMemrefView.t)
    (uid : Z)
    (conv_dims : ConvDimensionNumbers.t)
    (window_strides padding lhs_dilation rhs_dilation window_reversal
       : list Z)
    (backend_config : ConvBackendConfig.t)
    (feature_group_count : Z) (result_scale : double)
    (activation_mode : option ActivationMode)
    (side_input_scale leakyrelu_alpha : option double)
    (extra_operands : list StridedMemrefView.t)
    (serialized_graph : option string)
    : M World (ConvRunner.t * list DeviceMemoryBase.t *
               list DeviceMemoryBase.t * DeviceMemoryBase.t * Z) :=
  (* Build config for optional attributes. *)
  let fused_attrs := FusedConvAttrs.mk <$> activation_mode in
  let side_input_attrs := SideInputAttrs.mk <$> side_input_scale in
  let leakyrelu_alpha_attrs := LeakyReluAlphaAttrs.mk <$> leakyrelu_alpha in
  let '(backend_config, runtime_autotuning) :=
    pin_algorithm backend_config in
  (* Get or create the convolution runner state. *)
  conv ← GetOrCreate runner
    (create_runner kind operand0 operand1 outputs scratch conv_dims
       window_strides padding lhs_dilation rhs_dilation window_reversal
       backend_config feature_group_count result_scale fused_attrs
       side_input_attrs leakyrelu_alpha_attrs serialized_graph);
  (* Prepare buffer arguments. *)
  let buffers :=
    [GetDeviceAddress env operand0; GetDeviceAddress env operand1]
    ++ from_option (fun b => [GetDeviceAddress_flat b]) [] bias
    ++ from_option (fun s => [GetDeviceAddress env s]) [] side_input
    ++ (GetDeviceAddress env <$> extra_operands) in
  let result_buffers := GetDeviceAddress env <$> outputs in
  let scratch_buffer := GetDeviceAddress_flat scratch in
  let scratch_buffer_size :=
    to_int64 (DeviceMemoryBase.size scratch_buffer) in
  (* Do runtime conv autotuning. *)
  if runtime_autotuning then
    '(conv, scratch_buffer_size) ← autotune runner conv buffers
                                     result_buffers;
    mret (conv, buffers, result_buffers, scratch_buffer, scratch_buffer_size)
  else
    mret (conv, buffers, result_buffers, scratch_buffer, scratch_buffer_size).

(** [DoConv] from [RunConvOptions opts] to its end.  The comparison of the
    [int64_t] size with the [uint64_t] size of the buffer is unsigned, and
    the allocator and the new buffer take the size as a [uint64_t].  The
    new buffer is made of [allocated_buffer.ptr()] and that size.  The
    owning handle [allocated_buffer] gives the memory back when the call
    returns, after the status has been decided; that is left to the
    allocator. *)
Definition DoConv_execute (runner : State) (conv : ConvRunner.t)
    (buffers result_buffers : list DeviceMemoryBase.t)
    (scratch_buffer : DeviceMemoryBase.t) (scratch_buffer_size : Z)
    : M World unit :=
  if DeviceMemoryBase.size scratch_buffer <? to_uint64 scratch_buffer_size
  then
    (* Need to reallocate scratch buffer. *)
    emit (EvAllocate (device_ordinal env) (to_uint64 scratch_buffer_size));;
    r ← call (Allocate env (device_ordinal env)
                (to_uint64 scratch_buffer_size));
    allocated_buffer ← assign_or_return r;
    let new_scratch_buffer :=
      DeviceMemoryBase.mk (OwningDeviceMemory.ptr allocated_buffer)
        (to_uint64 scratch_buffer_size) in
    (* Run the convolution using the new scratch buffer. *)
    run_conv runner conv buffers result_buffers new_scratch_buffer
  else
    (* Run the convolution. *)
    run_conv runner conv buffers result_buffers scratch_buffer.

Definition DoConv
    (kind : CudnnConvKind) (runner : State)
    (operand0 operand1 : StridedMemrefView.t)
    (bias : option FlatMemrefView.t)
    (side_input : option StridedMemrefView.t)
    (outputs : list StridedMemrefView.t) (scratch : FlatMemrefView.t)
    (uid : Z)
    (conv_dims : ConvDimensionNumbers.t)
    (window_strides padding lhs_dilation rhs_dilation window_reversal
       : list Z)
    (backend_config : ConvBackendConfig.t)
    (feature_group_count : Z) (result_scale : double)
    (activation_mode : option ActivationMode)
    (side_input_scale leakyrelu_alpha : option double)
    (extra_operands : list StridedMemrefView.t)
    (serialized_graph : option string) : M World unit :=
  '(conv, buffers, result_buffers, scratch_buffer, scratch_buffer_size) ←
    DoConv_prepare kind runner operand0 operand1 bias side_input outputs
      scratch uid conv_dims window_strides padding lhs_dilation rhs_dilation
      window_reversal backend_config feature_group_count result_scale
      activation_mode side_input_scale leakyrelu_alpha extra_operands
      serialized_graph;
  DoConv_execute runner conv buffers result_buffers scratch_buffer
    scratch_buffer_size.

Definition ConvImpl
    (kind : CudnnConvKind) (runner : State)
    (operand0 operand1 : StridedMemrefView.t)
    (bias : option FlatMemrefView.t)
    (side_input : option StridedMemrefView.t)
    (output : StridedMemrefView.t) (scratch : FlatMemrefView.t)
    (uid : Z)
    (conv_dims : ConvDimensionNumbers.t)
    (window_strides padding lhs_dilation rhs_dilation window_reversal
       : list Z)
    (backend_config : ConvBackendConfig.t)
    (feature_group_count : Z) (result_scale : double)
    (activation_mode : option ActivationMode)
    (side_input_scale leakyrelu_alpha : option double) : M World unit :=
  DoConv kind runner operand0 operand1 bias side_input [output] scratch uid
    conv_dims window_strides padding lhs_dilation rhs_dilation
    window_reversal backend_config feature_group_count result_scale
    activation_mode side_input_scale leakyrelu_alpha [] None.

End CustomCalls.

(** ** The graph variant and its remaining arguments *)

(** An encoded argument of the call, by what it decodes to. *)
Module EncodedArg.
Record t : Type := mk {
  as_strided : option StridedMemrefView.t;
  as_flat : option FlatMemrefView.t }.
End EncodedArg.

(** Modelled from the spec: [CustomCall::RemainingArgs] is declared outside
    this file.  [size] is the number of remaining arguments, a [size_t];
    [get<T>(index)] fails when the entry at [index] cannot be resolved as a
    [T], which includes an [index] with no entry behind it. *)
Module RemainingArgs.
Abbreviation t := (list EncodedArg.t) (only parsing).
Definition size (args : t) : Z := Z.of_nat (length args).
Definition get_strided (args : t) (index : Z)
    : option StridedMemrefView.t :=
  at_index args index ≫= EncodedArg.as_strided.
Definition get_flat (args : t) (index : Z) : option FlatMemrefView.t :=
  at_index args index ≫= EncodedArg.as_flat.
End RemainingArgs.

(** The two loops of [ConvGraphImpl] have one shape,
    [for (int i = start; i < bound; i++)] with [bound] a [size_t], so that
    [i] is compared as a [size_t]; they differ in [start], in [bound] and in
    the message.  [None] stands for an overflow of the [int] counter, or for
    a loop that has not ended when the fuel has. *)
Fixpoint get_memrefs (msg : string) (args : RemainingArgs.t) (bound : Z)
    (fuel : nat) (i : Z) (acc : list StridedMemrefView.t)
    : option (StatusOr (list StridedMemrefView.t)) :=
  match fuel with
  | O => None
  | S fuel' =>
      if to_uint64 i <? bound then
        match RemainingArgs.get_strided args (to_uint64 i) with
        | None => Some (NotOk (InternalError msg))
        | Some arg =>
            if i =? INT_MAX then None
            else get_memrefs msg args bound fuel' (i + 1) (acc ++ [arg])
        end
      else Some (OkValue acc)
  end.

Section GraphCall.
Context {World : Type} (env : Env World).

Definition ConvGraphImpl
    (kind : CudnnConvKind) (runner : State)
    (operand0 operand1 : StridedMemrefView.t)
    (args : RemainingArgs.t) (uid : Z)
    (conv_dims : ConvDimensionNumbers.t)
    (window_strides padding lhs_dilation rhs_dilation window_reversal
       : list Z)
    (backend_config : ConvBackendConfig.t)
    (feature_group_count : Z) (result_scale : double)
    (n_aux_outputs : Z) (serialized_graph : string) : M World unit :=
  let fuel := S (length args) in
  (* args.size() - n_aux_outputs - 2, in size_t arithmetic *)
  let n_operands :=
    to_uint64 (RemainingArgs.size args - n_aux_outputs - 2) in
  match
    get_memrefs "Failed to get operand buffer for convolution graph"
      args n_operands fuel 0 []
  with
  | None => undefined
  | Some (NotOk e) => fail e
  | Some (OkValue extra_operands) =>
      match
        get_memrefs "Failed to get output buffer for convolution graph"
          args (to_uint64 (RemainingArgs.size args - 1)) fuel
          (to_int32 n_operands) []
      with
      | None => undefined
      | Some (NotOk e) => fail e
      | Some (OkValue outputs) =>
          match
            RemainingArgs.get_flat args
              (to_uint64 (RemainingArgs.size args - 1))
          with
          | None =>
              fail (InternalError
                      "Failed to get scratch buffer for convolution graph")
          | Some scratch =>
              DoConv env kind runner operand0 operand1 None None outputs
                scratch uid conv_dims window_strides padding lhs_dilation
                rhs_dilation window_reversal backend_config
                feature_group_count result_scale None None None
                extra_operands (Some serialized_graph)
          end
      end
  end.

End GraphCall.

(** ** Convolution runners caching *)

(** A [se::StreamExecutor*], by the address of the executor. *)
Abbreviation StreamExecutor := Z (only parsing).

(** Modelled from the spec: the members of [ConvRunners] are declared
    outside this file.  [runners_] maps an execution context, the stream
    executor, to the plans of its call sites; the mutex has no part in a
    sequential run.  The entries of the map never move, so a pointer to one
    is the key it is stored under. *)
Module ConvRunners.
Abbreviation t := (gmap StreamExecutor StreamExecutorConvRunners).

(** [operator()]: [&runners_[executor]], which makes an empty entry for an
    executor that has none. *)
Definition call (executor : StreamExecutor) (runners_ : t)
    : StreamExecutor * t :=
  match runners_ !! executor with
  | Some _ => (executor, runners_)
  | None => (executor, <[executor := ∅]> runners_)
  end.

(** Reading through a pointer returned by [operator()]. *)
Definition deref (p : StreamExecutor) (runners_ : t)
    : StreamExecutorConvRunners :=
  default ∅ (runners_ !! p).

(** Writing through a pointer returned by [operator()]. *)
Definition update (p : StreamExecutor)
    (f : StreamExecutorConvRunners -> StreamExecutorConvRunners)
    (runners_ : t) : t :=
  <[p := f (deref p runners_)]> runners_.
End ConvRunners.

(** ** The custom calls bound to the implementations *)

(** The handlers that [XLA_RUNTIME_DEFINE_CUSTOM_CALL] defines.  The runtime
    decodes the arguments and attributes; a handler is the implementation
    applied to them, in the order of the binding: [State<ConvRunner>("uid")]
    is the state of the call site [uid], [Arg] is the next argument, [Attr]
    the attribute of that name, and [Value] the constant that is written
    there. *)
Section Handlers.
Context {World : Type} (env : Env World).

(** [Conv<kind>], registered for the forward and the two backward
    convolutions. *)
Definition Conv (kind : CudnnConvKind)
    (operand0 operand1 output : StridedMemrefView.t)
    (scratch : FlatMemrefView.t) (uid : Z)
    (conv_dims : ConvDimensionNumbers.t)
    (window_strides padding lhs_dilation rhs_dilation window_reversal
       : list Z)
    (backend_config : ConvBackendConfig.t)
    (feature_group_count : Z) (result_scale : double) : M World unit :=
  ConvImpl env kind uid operand0 operand1 None None output scratch uid
    conv_dims window_strides padding lhs_dilation rhs_dilation
    window_reversal backend_config feature_group_count result_scale
    None None None.

Definition ConvFused
    (operand0 operand1 : StridedMemrefView.t) (bias : FlatMemrefView.t)
    (output : StridedMemrefView.t) (scratch : FlatMemrefView.t) (uid : Z)
    (conv_dims : ConvDimensionNumbers.t)
    (window_strides padding lhs_dilation rhs_dilation window_reversal
       : list Z)
    (backend_config : ConvBackendConfig.t)
    (feature_group_count : Z) (result_scale : double)
    (activation_mode : ActivationMode) (leakyrelu_alpha : double)
    : M World unit :=
  ConvImpl env kForwardActivation uid operand0 operand1 (Some bias) None
    output scratch uid conv_dims window_strides padding lhs_dilation
    rhs_dilation window_reversal backend_config feature_group_count
    result_scale (Some activation_mode) None (Some leakyrelu_alpha).

Definition ConvFusedSideInput
    (operand0 operand1 : StridedMemrefView.t) (bias : FlatMemrefView.t)
    (side_input output : StridedMemrefView.t) (scratch : FlatMemrefView.t)
    (uid : Z) (conv_dims : ConvDimensionNumbers.t)
    (window_strides padding lhs_dilation rhs_dilation window_reversal
       : list Z)
    (backend_config : ConvBackendConfig.t)
    (feature_group_count : Z) (result_scale : double)
    (activation_mode : ActivationMode) (side_input_scale : double)
    : M World unit :=
  ConvImpl env kForwardActivation uid operand0 operand1 (Some bias)
    (Some side_input) output scratch uid conv_dims window_strides padding
    lhs_dilation rhs_dilation window_reversal backend_config
    feature_group_count result_scale (Some activation_mode)
    (Some side_input_scale) None.

Definition ConvForwardGraph
    (operand0 operand1 : StridedMemrefView.t) (args : RemainingArgs.t)
    (uid : Z) (conv_dims : ConvDimensionNumbers.t)
    (window_strides padding lhs_dilation rhs_dilation window_reversal
       : list Z)
    (backend_config : ConvBackendConfig.t)
    (feature_group_count : Z) (result_scale : double)
    (n_aux_outputs : Z) (serialized_graph : string) : M World unit :=
  ConvGraphImpl env kForwardGraph uid operand0 operand1 args uid conv_dims
    window_strides padding lhs_dilation rhs_dilation window_reversal
    backend_config feature_group_count result_scale n_aux_outputs
    serialized_graph.

End Handlers.

(** ** What a call hands to the device *)

(** The vector [buffers] of [DoConv]: the two operands, then the bias, the
    side input and the extra operands that the call has. *)
Definition operand_buffers {World : Type} (env : Env World)
    (operand0 operand1 : StridedMemrefView.t)
    (bias : option FlatMemrefView.t)
    (side_input : option StridedMemrefView.t)
    (extra_operands : list StridedMemrefView.t) : list DeviceMemoryBase.t :=
  [GetDeviceAddress env operand0; GetDeviceAddress env operand1]
  ++ from_option (fun b => [GetDeviceAddress_flat b]) [] bias
  ++ from_option (fun s => [GetDeviceAddress env s]) [] side_input
  ++ (GetDeviceAddress env <$> extra_operands).

(** The descriptor that the builder of a call makes, before it is handed to
    [GetGpuConvConfig]. *)
Definition call_descriptor
    (kind : CudnnConvKind) (operand0 operand1 : StridedMemrefView.t)
    (outputs : list StridedMemrefView.t) (scratch : FlatMemrefView.t)
    (conv_dims : ConvDimensionNumbers.t)
    (window_strides padding lhs_dilation rhs_dilation window_reversal
       : list Z)
    (backend_config : ConvBackendConfig.t)
    (feature_group_count : Z) (result_scale : double)
    (activation_mode : option ActivationMode)
    (side_input_scale leakyrelu_alpha : option double)
    (serialized_graph : option string) : option GpuConvDescriptor.t :=
  output0 ← at_index outputs 0;
  descriptor ←
    GetConvDescriptor kind operand0 operand1 output0 scratch conv_dims
      (Window.mk window_strides padding lhs_dilation rhs_dilation
         window_reversal)
      (pin_algorithm backend_config).1
      (ConvAttrs.mk feature_group_count result_scale)
      (FusedConvAttrs.mk <$> activation_mode)
      (SideInputAttrs.mk <$> side_input_scale)
      (LeakyReluAlphaAttrs.mk <$> leakyrelu_alpha);
  Some match serialized_graph with
       | Some g => GpuConvDescriptor.set_serialized_graph g descriptor
       | None => descriptor
       end.

(** The runner state after the autotuning block has stored the choice of
    the picker. *)
Definition tuned_runner (best_algo : AutotuneResult.t) (conv : ConvRunner.t)
    : ConvRunner.t :=
  ConvRunner.mk
    (GpuConvConfig.set_algorithm
       (AlgorithmDesc (AutotuneResult.conv_algorithm best_algo)
          (AutotuneResult.conv_tensor_ops_enabled best_algo))
       (ConvRunner.config conv))
    (ConvRunner.runner conv).

(** ** Observations on a run *)

(** The machine an outcome ends in; undefined behaviour ends in none. *)
Definition final {World A : Type} (o : outcome World A)
    : option (Machine World) :=
  match o with
  | Done _ m => Some m
  | Fail _ m => Some m
  | Undef => None
  end.

(** The status a call returns: [None] is [absl::OkStatus()]. *)
Definition status_of {World A : Type} (o : outcome World A)
    : option (option Status) :=
  match o with
  | Done _ _ => Some None
  | Fail e _ => Some (Some e)
  | Undef => None
  end.

Definition is_search (ev : Event) : bool :=
  match ev with EvPickBestAlgorithm _ _ _ => true | _ => false end.

Definition is_build (ev : Event) : bool :=
  match ev with EvGetGpuConvConfig _ => true | _ => false end.

Definition is_run (ev : Event) : bool :=
  match ev with EvRunGpuConv _ _ _ _ _ => true | _ => false end.

Definition count_events (p : Event -> bool) (tr : list Event) : nat :=
  length (List.filter p tr).

(** The requests made to the allocator: device ordinal and byte count. *)
Definition allocations (tr : list Event) : list (Z * Z) :=
  omap (fun ev => match ev with
                  | EvAllocate ordinal bytes => Some (ordinal, bytes)
                  | _ => None
                  end) tr.

(** The scratch buffers the device primitive was run with. *)
Definition scratch_used (tr : list Event) : list DeviceMemoryBase.t :=
  omap (fun ev => match ev with
                  | EvRunGpuConv _ _ _ scratch _ => Some scratch
                  | _ => None
                  end) tr.

(** The algorithm ids of the descriptors that were built. *)
Definition built_algo_ids (tr : list Event) : list Z :=
  omap (fun ev => match ev with
                  | EvGetGpuConvConfig d =>
                      Some (AlgorithmProto.algo_id
                              (CudnnConvBackendConfig.algorithm
                                 (GpuConvDescriptor.backend_config d)))
                  | _ => None
                  end) tr.

(** [n] invocations of one call, one after the other; a failed invocation
    does not keep the next one from being made. *)
Fixpoint invocations {World : Type} (n : nat) (c : M World unit)
    (m : Machine World) : option (Machine World) :=
  match n with
  | O => Some m
  | S n' =>
      match final (c m) with
      | Some m' => invocations n' c m'
      | None => None
      end
  end.

(** The two errors that [DoConv] makes itself. *)
Definition autotune_error : Status :=
  InternalError "Failed to run runtime autotuner because CUDA is not enabled".

Definition stream_error : Status :=
  InternalError "run_options stream not ok".

Definition descriptor_algo_id (d : GpuConvDescriptor.t) : Z :=
  AlgorithmProto.algo_id
    (CudnnConvBackendConfig.algorithm (GpuConvDescriptor.backend_config d)).

(** The events of the first part of [DoConv]: the build of a descriptor
    with algorithm id [a] unless the plan was [cached], then the search if
    it was made. *)
Definition prepare_events (cached : bool) (a : Z) (searched : bool)
    (delta : list Event) : Prop :=
  exists built search,
    delta = built ++ search /\
    (if cached then built = []
     else exists d, built = [EvGetGpuConvConfig d] /\
                    descriptor_algo_id d = a) /\
    (if searched then exists c b r, search = [EvPickBestAlgorithm c b r]
     else search = []).

(** ** The contract of the caller *)

(** An axis of a shape, as the [int] that [Shape::dimensions] takes. *)
Definition valid_axis (shape : Shape.t) (d : Z) : Prop :=
  0 <= d <= INT_MAX /\ d < Z.of_nat (length (Shape.dimensions shape)).

(** The window arrays are at least as long as [window_strides], whose
    length fits an [int], and the kernel spatial dimensions that the window
    loop reads are axes of [operand0_shape]. *)
Record WindowInputsOk (operand0_shape : Shape.t)
    (kernel_spatial_dims : list Z) (w : Window.t) : Prop := {
  strides_fit_int : Z.of_nat (length (Window.window_strides w)) <= INT_MAX;
  padding_long :
    (length (Window.window_strides w) <= length (Window.padding w))%nat;
  lhs_dilation_long :
    (length (Window.window_strides w) <= length (Window.lhs_dilation w))%nat;
  rhs_dilation_long :
    (length (Window.window_strides w) <= length (Window.rhs_dilation w))%nat;
  window_reversal_long :
    (length (Window.window_strides w)
     <= length (Window.window_reversal w))%nat;
  kernel_dims_long :
    (length (Window.window_strides w) <= length kernel_spatial_dims)%nat;
  kernel_dims_valid :
    Forall (valid_axis operand0_shape)
      (take (length (Window.window_strides w)) kernel_spatial_dims) }.

(** Every knob id has a knob value, and the ids can be counted with an
    [unsigned]. *)
Definition KnobInputsOk (b : ConvBackendConfig.t) : Prop :=
  Z.of_nat (length (ConvBackendConfig.knob_ids b)) < 2 ^ 32 /\
  (length (ConvBackendConfig.knob_ids b)
   <= length (ConvBackendConfig.knob_values b))%nat.

(** What [DoConv] needs of its arguments to build a descriptor. *)
Definition DescriptorInputsOk
    (operand0 : StridedMemrefView.t) (outputs : list StridedMemrefView.t)
    (conv_dims : ConvDimensionNumbers.t)
    (window_strides padding lhs_dilation rhs_dilation window_reversal
       : list Z)
    (backend_config : ConvBackendConfig.t) : Prop :=
  outputs <> [] /\
  WindowInputsOk
    (apply_layout operand0 (ConvBackendConfig.operand_0_layout backend_config))
    (ConvDimensionNumbers.kernel_spatial_dims conv_dims)
    (Window.mk window_strides padding lhs_dilation rhs_dilation
       window_reversal) /\
  KnobInputsOk backend_config.

(** ** The binding of the graph variant, in the words of its comment *)

Definition operand_error : Status :=
  InternalError "Failed to get operand buffer for convolution graph".
Definition output_error : Status :=
  InternalError "Failed to get output buffer for convolution graph".
Definition scratch_error : Status :=
  InternalError "Failed to get scratch buffer for convolution graph".

(** "Let N be the size of 'args'. The first (N - n_aux_outputs - 2) elements
    of 'args' are extra operands [...]. The next (n_aux_outputs + 1)
    elements are the outputs [...]. The last element of 'args' is the
    scratch space."  A group that cannot be resolved is reported by its
    name, the operands first; too few arguments leave the operands
    unresolved. *)
Definition graph_binding_spec (args : RemainingArgs.t) (n_aux_outputs : Z)
    : StatusOr (list StridedMemrefView.t * list StridedMemrefView.t *
                FlatMemrefView.t) :=
  let N := Z.of_nat (length args) in
  if N <? n_aux_outputs + 2 then NotOk operand_error
  else
    let n_operands := Z.to_nat (N - n_aux_outputs - 2) in
    match mapM EncodedArg.as_strided (take n_operands args) with
    | None => NotOk operand_error
    | Some extra_operands =>
        match
          mapM EncodedArg.as_strided
            (take (Z.to_nat (n_aux_outputs + 1)) (drop n_operands args))
        with
        | None => NotOk output_error
        | Some outputs =>
            match last args ≫= EncodedArg.as_flat with
            | None => NotOk scratch_error
            | Some scratch => OkValue (extra_operands, outputs, scratch)
            end
        end
    end.

(** What the window loop stores at [index], read off the arrays. *)
Definition window_dimension_at (operand0_shape : Shape.t)
    (kernel_spatial_dims : list Z) (w : Window.t) (i : nat)
    : option WindowDimension.t :=
  d ← kernel_spatial_dims !! i;
  size ← Shape.dimensions operand0_shape !! Z.to_nat d;
  stride ← Window.window_strides w !! i;
  pad ← Window.padding w !! i;
  lhs ← Window.lhs_dilation w !! i;
  rhs ← Window.rhs_dilation w !! i;
  rev ← Window.window_reversal w !! i;
  Some (WindowDimension.mk size stride pad pad lhs rhs (negb (rev =? 0))).

(** ** A forward convolution used in the examples *)

Module Example.
Definition input : StridedMemrefView.t :=
  StridedMemrefView.mk F32 4096 [1; 1; 8; 8] [64; 64; 8; 1].
Definition kernel : StridedMemrefView.t :=
  StridedMemrefView.mk F32 8192 [4; 1; 3; 3] [9; 9; 3; 1].
Definition output : StridedMemrefView.t :=
  StridedMemrefView.mk F32 12288 [1; 4; 6; 6] [144; 36; 6; 1].
Definition scratch : FlatMemrefView.t := FlatMemrefView.mk U8 16384 1024.
Definition conv_dims : ConvDimensionNumbers.t :=
  ConvDimensionNumbers.mk 0 1 [2; 3] 1 0 [2; 3] 0 1 [2; 3].
Definition window : Window.t :=
  Window.mk [1; 1] [0; 0] [1; 1] [1; 1] [0; 0].
Definition backend (algorithm workspace_size : Z) : ConvBackendConfig.t :=
  ConvBackendConfig.mk algorithm false true false [5; 6] [1; 2]
    [3; 2; 1; 0] [3; 2; 1; 0] [3; 2; 1; 0] workspace_size.

(** A backend config in which knob id [5] occurs twice. *)
Definition repeated_knobs : ConvBackendConfig.t :=
  ConvBackendConfig.mk 3 false true false [5; 6; 5] [1; 2; 9]
    [3; 2; 1; 0] [3; 2; 1; 0] [3; 2; 1; 0] (-1).

(** The device world of the examples is the number of primitives that
    have been run.  The picker chooses algorithm 7 and asks for
    [scratch_bytes]; the allocator hands out the bytes asked for at the
    device address [65536], in a handle whose [ptr()] is the host address
    [140737488351232]; the stream is healthy iff [healthy]; the primitive
    reports [reported]. *)
Definition allocator (bytes : Z) : OwningDeviceMemory.t :=
  OwningDeviceMemory.mk (DeviceMemoryBase.mk 65536 bytes) 140737488351232.

Definition env (cuda healthy : bool) (reported : option Status)
    (scratch_bytes : Z) : Env nat :=
  mkEnv nat cuda 0
    (fun m => 4 * foldr Z.mul 1 (StridedMemrefView.sizes m))
    (fun d =>
       OkValue (GpuConvConfig.mk
                  (CudnnConvBackendConfig.algorithm
                     (GpuConvDescriptor.backend_config d)) d))
    (fun _ _ _ w => (OkValue (AutotuneResult.mk 7 true scratch_bytes), w))
    (fun _ bytes w => (OkValue (allocator bytes), w))
    (fun _ _ _ _ _ w => (reported, Compiled 1, S w))
    (fun _ => healthy).

Definition start : Machine nat := mkMachine ∅ 0%nat [].

(** The runners of a process in which executor [2] has a tuned plan for
    call site [42]. *)
Definition tuned : ConvRunners.t :=
  {[ 2 := {[ 42 := new_ConvRunner
                     (GpuConvConfig.mk (AlgorithmDesc 7 true)
                        (GpuConvDescriptor.mk kForward
                           (CudnnConvBackendConfig.mk 0 false
                              (AlgorithmDesc 0 false) kNone 0 0 None)
                           (apply_layout input [3; 2; 1; 0])
                           (apply_layout kernel [3; 2; 1; 0])
                           (apply_layout output [3; 2; 1; 0])
                           1024 [] (make_dnums conv_dims) 1)) ]} ]}.

(** Seven remaining arguments of a graph call with two auxiliary outputs:
    three extra operands, the result and the two auxiliary results, and the
    scratch buffer. *)
Definition strided_arg (v : StridedMemrefView.t) : EncodedArg.t :=
  EncodedArg.mk (Some v) None.
Definition flat_arg (v : FlatMemrefView.t) : EncodedArg.t :=
  EncodedArg.mk None (Some v).
Definition graph_args : RemainingArgs.t :=
  [strided_arg input; strided_arg kernel; strided_arg kernel;
   strided_arg output; strided_arg output; strided_arg output;
   flat_arg scratch].

(** A machine in which call site [42] has a plan with algorithm [7]. *)
Definition plan : ConvRunner.t :=
  new_ConvRunner
    (GpuConvConfig.mk (AlgorithmDesc 7 true)
       (GpuConvDescriptor.mk kForward
          (CudnnConvBackendConfig.mk 0 false (AlgorithmDesc 0 false) kNone
             0 0 None)
          (apply_layout input [3; 2; 1; 0])
          (apply_layout kernel [3; 2; 1; 0])
          (apply_layout output [3; 2; 1; 0])
          1024 [] (make_dnums conv_dims) 1)).
Definition built : Machine nat := mkMachine {[ 42 := plan ]} 0%nat [].

(** An environment in which no configuration can be derived. *)
Definition refusing : Env nat :=
  mkEnv nat true 0
    (fun m => 4 * foldr Z.mul 1 (StridedMemrefView.sizes m))
    (fun _ => NotOk (mkStatus kUnimplemented "unsupported layout"))
    (fun _ _ _ w => (OkValue (AutotuneResult.mk 7 true 0), w))
    (fun _ bytes w => (OkValue (allocator bytes), w))
    (fun _ _ _ _ _ w => (None, Compiled 1, S w))
    (fun _ => true).

(** An environment in which the picker finds no algorithm. *)
Definition failing_search : Env nat :=
  mkEnv nat true 0
    (fun m => 4 * foldr Z.mul 1 (StridedMemrefView.sizes m))
    (fun d =>
       OkValue (GpuConvConfig.mk
                  (CudnnConvBackendConfig.algorithm
                     (GpuConvDescriptor.backend_config d)) d))
    (fun _ _ _ w => (NotOk (mkStatus kNotFound "no algorithm"), w))
    (fun _ bytes w => (OkValue (allocator bytes), w))
    (fun _ _ _ _ _ w => (None, Compiled 1, S w))
    (fun _ => true).

(** The forward convolution with call site [uid = 42]. *)
Definition conv (e : Env nat) (b : ConvBackendConfig.t) : M nat unit :=
  ConvImpl e kForward 42 input kernel None None output scratch 42 conv_dims
    [1; 1] [0; 0] [1; 1] [1; 1] [0; 0] b 1 0 None None None.
End Example.

(** ** Proof steps that recur *)

Ltac unfold_monad :=
  unfold mbind, M_bind, mret, M_ret, bind, ret, emit, call, store, fail,
    undefined, peek, assign_or_return, return_if_error in *.

Ltac elem_cases H :=
  repeat first
    [ apply elem_of_nil in H; destruct H
    | apply elem_of_cons in H as [H | H]; [try discriminate H |] ].

(** ** Machine integers and indexing *)

Lemma to_int32_small (z : Z) : - 2 ^ 31 <= z <= INT_MAX -> to_int32 z = z.
Proof.
  unfold to_int32, INT_MAX. intros Hz.
  rewrite Z.mod_small by lia. lia.
Qed.

Lemma to_uint64_small (z : Z) : 0 <= z < 2 ^ 64 -> to_uint64 z = z.
Proof. unfold to_uint64. intros Hz. by rewrite Z.mod_small. Qed.

Lemma to_uint64_range (z : Z) : 0 <= to_uint64 z < 2 ^ 64.
Proof. unfold to_uint64. apply Z.mod_pos_bound. lia. Qed.

Lemma at_index_lookup {A : Type} (l : list A) (i : nat) :
  at_index l (Z.of_nat i) = l !! i.
Proof.
  unfold at_index. destruct (Z.ltb_spec (Z.of_nat i) 0); [lia |].
  by rewrite Nat2Z.id.
Qed.

Lemma at_index_nonneg {A : Type} (l : list A) (i : Z) :
  0 <= i -> at_index l i = l !! Z.to_nat i.
Proof. unfold at_index. intros Hi. by destruct (Z.ltb_spec i 0); [lia |]. Qed.

Lemma at_index_is_Some {A : Type} (l : list A) (i : nat) :
  (i < length l)%nat -> is_Some (at_index l (Z.of_nat i)).
Proof. rewrite at_index_lookup. apply lookup_lt_is_Some_2. Qed.

Lemma append_each {A : Type} (l acc : list A) :
  foldl (fun acc d => acc ++ [d]) acc l = acc ++ l.
Proof.
  revert acc. induction l as [| x l IH]; intros acc; simpl.
  - by rewrite app_nil_r.
  - rewrite IH. by rewrite <- app_assoc.
Qed.

Lemma make_dnums_kernel_spatial (dims : ConvDimensionNumbers.t) :
  ConvolutionDimensionNumbers.kernel_spatial_dimensions (make_dnums dims)
  = ConvDimensionNumbers.kernel_spatial_dims dims.
Proof. unfold make_dnums. simpl. apply append_each. Qed.

(** ** The window loop *)

Lemma window_dimension_defined (operand0_shape : Shape.t)
    (dnums : ConvolutionDimensionNumbers.t) (w : Window.t) (i : nat) :
  WindowInputsOk operand0_shape
    (ConvolutionDimensionNumbers.kernel_spatial_dimensions dnums) w ->
  (i < length (Window.window_strides w))%nat ->
  exists wd,
    window_dimension operand0_shape dnums w (Z.of_nat i) = Some wd /\
    window_dimension_at operand0_shape
      (ConvolutionDimensionNumbers.kernel_spatial_dimensions dnums) w i
    = Some wd.
Proof.
  intros [Hfit Hpad Hlhs Hrhs Hrev Hk Hvalid] Hi.
  unfold window_dimension, window_dimension_at.
  rewrite !at_index_lookup.
  destruct (lookup_lt_is_Some_2
              (ConvolutionDimensionNumbers.kernel_spatial_dimensions dnums) i)
    as [d Hd]; [lia |].
  rewrite Hd. simpl.
  assert (Hax : valid_axis operand0_shape d).
  { rewrite Forall_lookup in Hvalid. apply (Hvalid i).
    rewrite lookup_take_lt by lia. done. }
  destruct Hax as [Hrange Hrank].
  rewrite to_int32_small by (unfold INT_MAX in *; lia).
  rewrite at_index_nonneg by lia.
  destruct (lookup_lt_is_Some_2 (Shape.dimensions operand0_shape)
              (Z.to_nat d)) as [size ->]; [lia |].
  destruct (lookup_lt_is_Some_2 (Window.window_strides w) i)
    as [stride ->]; [lia |].
  destruct (lookup_lt_is_Some_2 (Window.padding w) i) as [pad ->]; [lia |].
  destruct (lookup_lt_is_Some_2 (Window.lhs_dilation w) i)
    as [lhs ->]; [lia |].
  destruct (lookup_lt_is_Some_2 (Window.rhs_dilation w) i)
    as [rhs ->]; [lia |].
  destruct (lookup_lt_is_Some_2 (Window.window_reversal w) i)
    as [rev ->]; [lia |].
  simpl. eauto.
Qed.

Lemma build_window_defined (operand0_shape : Shape.t)
    (dnums : ConvolutionDimensionNumbers.t) (w : Window.t) :
  WindowInputsOk operand0_shape
    (ConvolutionDimensionNumbers.kernel_spatial_dimensions dnums) w ->
  exists ws,
    build_window operand0_shape dnums w = Some ws /\
    length ws = length (Window.window_strides w) /\
    forall i, (i < length (Window.window_strides w))%nat ->
      ws !! i = window_dimension_at operand0_shape
                  (ConvolutionDimensionNumbers.kernel_spatial_dimensions
                     dnums) w i /\
      is_Some (ws !! i).
Proof.
  intros Hok. pose proof (strides_fit_int _ _ _ Hok) as Hfit.
  unfold build_window.
  set (n := length (Window.window_strides w)) in *.
  rewrite to_int32_small by (unfold INT_MAX in *; lia).
  destruct (Z.ltb_spec (Z.of_nat n) 0) as [| _]; [lia |].
  destruct (mapM (window_dimension operand0_shape dnums w)
              (seqZ 0 (Z.of_nat n))) as [ws |] eqn:Hmap.
  - exists ws. apply mapM_Some in Hmap.
    pose proof (Forall2_length _ _ _ Hmap) as Hlen.
    rewrite length_seqZ, Nat2Z.id in Hlen.
    split; [done |]. split; [done |]. intros i Hi.
    destruct (window_dimension_defined operand0_shape dnums w i Hok Hi)
      as (wd & Hwd & Hat).
    destruct (lookup_lt_is_Some_2 ws i) as [wd' Hwd']; [lia |].
    assert (Hseq : seqZ 0 (Z.of_nat n) !! i = Some (Z.of_nat i)).
    { by rewrite lookup_seqZ_lt by lia. }
    pose proof (Forall2_lookup_lr _ _ _ _ _ _ Hmap Hseq Hwd') as Heq.
    simpl in Heq. rewrite Hwd', Hat. split; [congruence | eauto].
  - exfalso. apply mapM_None in Hmap. apply Exists_exists in Hmap.
    destruct Hmap as (x & Hin & Hnone).
    apply elem_of_seqZ in Hin.
    destruct (window_dimension_defined operand0_shape dnums w (Z.to_nat x)
                Hok) as (wd & Hwd & _); [lia |].
    rewrite Z2Nat.id in Hwd by lia. congruence.
Qed.

(** ** The knob loop *)

Lemma foldl_option_defined {A B : Type} (f : option A -> B -> option A)
    (l : list B) (a : A) :
  (forall x a', x ∈ l -> is_Some (f (Some a') x)) ->
  is_Some (foldl f (Some a) l).
Proof.
  revert a. induction l as [| x l IH]; intros a Hf; simpl; [eauto |].
  destruct (Hf x a) as [a' Ha']; [left |].
  rewrite Ha'. apply IH. intros y a'' Hy. apply Hf. by right.
Qed.

Lemma build_knobs_defined (b : ConvBackendConfig.t) :
  KnobInputsOk b -> is_Some (build_knobs b).
Proof.
  intros [Hsmall Hlen]. unfold build_knobs.
  destruct (Z.leb_spec (2 ^ 32)
              (Z.of_nat (length (ConvBackendConfig.knob_ids b))));
    [lia |].
  apply foldl_option_defined. intros i m Hi. simpl.
  apply elem_of_seqZ in Hi.
  rewrite !at_index_nonneg by lia.
  destruct (lookup_lt_is_Some_2 (ConvBackendConfig.knob_ids b) (Z.to_nat i))
    as [k ->]; [lia |].
  destruct (lookup_lt_is_Some_2 (ConvBackendConfig.knob_values b)
              (Z.to_nat i)) as [v ->]; [lia |].
  simpl. eauto.
Qed.

(** ** The descriptor *)

Lemma GetConvDescriptor_defined
    (kind : CudnnConvKind) (operand0 operand1 output : StridedMemrefView.t)
    (scratch : FlatMemrefView.t) (dims : ConvDimensionNumbers.t)
    (w : Window.t) (b : ConvBackendConfig.t) (attrs : ConvAttrs.t)
    (fused : option FusedConvAttrs.t) (side_input : option SideInputAttrs.t)
    (leakyrelu_alpha : option LeakyReluAlphaAttrs.t) :
  WindowInputsOk (apply_layout operand0 (ConvBackendConfig.operand_0_layout b))
    (ConvDimensionNumbers.kernel_spatial_dims dims) w ->
  KnobInputsOk b ->
  is_Some (GetConvDescriptor kind operand0 operand1 output scratch dims w b
             attrs fused side_input leakyrelu_alpha).
Proof.
  intros Hw Hk. unfold GetConvDescriptor.
  rewrite <- (make_dnums_kernel_spatial dims) in Hw.
  destruct (build_window_defined _ _ _ Hw) as (ws & -> & _).
  destruct (build_knobs_defined b Hk) as [knobs ->].
  simpl. eauto.
Qed.

Lemma GetConvDescriptor_fields
    (kind : CudnnConvKind) (operand0 operand1 output : StridedMemrefView.t)
    (scratch : FlatMemrefView.t) (dims : ConvDimensionNumbers.t)
    (w : Window.t) (b : ConvBackendConfig.t) (attrs : ConvAttrs.t)
    (fused : option FusedConvAttrs.t) (side_input : option SideInputAttrs.t)
    (leakyrelu_alpha : option LeakyReluAlphaAttrs.t)
    (d : GpuConvDescriptor.t) :
  GetConvDescriptor kind operand0 operand1 output scratch dims w b attrs
    fused side_input leakyrelu_alpha = Some d ->
  build_window (apply_layout operand0 (ConvBackendConfig.operand_0_layout b))
    (make_dnums dims) w = Some (GpuConvDescriptor.window d) /\
  exists knobs,
    build_knobs b = Some knobs /\
    CudnnConvBackendConfig.algorithm (GpuConvDescriptor.backend_config d)
    = make_algorithm b knobs.
Proof.
  unfold GetConvDescriptor. intros H.
  destruct (build_window _ _ w) as [ws |]; [| done].
  destruct (build_knobs b) as [knobs |]; [| done].
  simpl in H. injection H as <-. simpl. eauto.
Qed.

(** C10.  The window loop runs once for each entry of [window_strides] and
    reads [padding], [lhs_dilation], [rhs_dilation], [window_reversal] and
    the kernel spatial dimensions at the index of the iteration.  When each
    of those arrays is at least as long as [window_strides] and each kernel
    spatial dimension that is read is an axis of the operand0 shape, every
    access is in bounds: the loop yields exactly [len(window_strides)]
    window dimensions, the [i]-th one read off the arrays at [i], and this
    is the window of any descriptor that is built. *)
Theorem window_rank_follows_window_strides
    (operand0 : StridedMemrefView.t) (dims : ConvDimensionNumbers.t)
    (w : Window.t) (b : ConvBackendConfig.t) :
  WindowInputsOk (apply_layout operand0 (ConvBackendConfig.operand_0_layout b))
    (ConvDimensionNumbers.kernel_spatial_dims dims) w ->
  exists ws,
    build_window
      (apply_layout operand0 (ConvBackendConfig.operand_0_layout b))
      (make_dnums dims) w = Some ws /\
    length ws = length (Window.window_strides w) /\
    (forall i, (i < length (Window.window_strides w))%nat ->
       is_Some (ws !! i) /\
       ws !! i = window_dimension_at
                   (apply_layout operand0
                      (ConvBackendConfig.operand_0_layout b))
                   (ConvDimensionNumbers.kernel_spatial_dims dims) w i) /\
    (forall kind operand1 output scratch attrs fused side_input
            leakyrelu_alpha d,
       GetConvDescriptor kind operand0 operand1 output scratch dims w b
         attrs fused side_input leakyrelu_alpha = Some d ->
       GpuConvDescriptor.window d = ws).
Proof.
  intros Hok.
  rewrite <- (make_dnums_kernel_spatial dims) in Hok.
  destruct (build_window_defined _ _ _ Hok) as (ws & Hws & Hlen & Hat).
  exists ws. split; [done |]. split; [done |]. split.
  - intros i Hi. destruct (Hat i Hi) as [Heq Hsome].
    rewrite make_dnums_kernel_spatial in Heq. done.
  - intros kind operand1 output scratch attrs fused side_input
      leakyrelu_alpha d Hd.
    apply GetConvDescriptor_fields in Hd as [Hw _]. congruence.
Qed.

Lemma Example_window_inputs_ok (b : ConvBackendConfig.t) :
  WindowInputsOk
    (apply_layout Example.input (ConvBackendConfig.operand_0_layout b))
    (ConvDimensionNumbers.kernel_spatial_dims Example.conv_dims)
    Example.window.
Proof.
  constructor; simpl; unfold INT_MAX; try lia.
  repeat first [apply List.Forall_nil | apply List.Forall_cons];
    unfold valid_axis, INT_MAX; simpl; lia.
Defined.

Lemma window_rank_follows_window_strides_witness :
  exists ws,
    build_window
      (apply_layout Example.input
         (ConvBackendConfig.operand_0_layout (Example.backend 0 (-1))))
      (make_dnums Example.conv_dims) Example.window = Some ws /\
    length ws = 2%nat.
Proof.
  destruct (window_rank_follows_window_strides Example.input
              Example.conv_dims Example.window (Example.backend 0 (-1))
              (Example_window_inputs_ok _)) as (ws & Hws & Hlen & _).
  exists ws. split; [exact Hws | exact Hlen].
Defined.

(** C9.  A workspace size of the backend config that is not negative is
    the explicit workspace budget of the built descriptor's algorithm; a
    negative one leaves the workspace field of the algorithm unset. *)
Theorem workspace_size_set_iff_nonnegative
    (kind : CudnnConvKind) (operand0 operand1 output : StridedMemrefView.t)
    (scratch : FlatMemrefView.t) (dims : ConvDimensionNumbers.t)
    (w : Window.t) (b : ConvBackendConfig.t) (attrs : ConvAttrs.t)
    (fused : option FusedConvAttrs.t) (side_input : option SideInputAttrs.t)
    (leakyrelu_alpha : option LeakyReluAlphaAttrs.t)
    (d : GpuConvDescriptor.t) :
  GetConvDescriptor kind operand0 operand1 output scratch dims w b attrs
    fused side_input leakyrelu_alpha = Some d ->
  let algo :=
    CudnnConvBackendConfig.algorithm (GpuConvDescriptor.backend_config d) in
  (0 <= ConvBackendConfig.workspace_size b ->
   AlgorithmProto.workspace_size algo
   = Some (ConvBackendConfig.workspace_size b)) /\
  (ConvBackendConfig.workspace_size b < 0 ->
   AlgorithmProto.workspace_size algo = None).
Proof.
  intros Hd algo. subst algo.
  apply GetConvDescriptor_fields in Hd as (_ & knobs & _ & ->).
  unfold make_algorithm. simpl.
  destruct (Z.leb_spec 0 (ConvBackendConfig.workspace_size b));
    split; intros; (done || lia).
Qed.

Lemma workspace_size_set_iff_nonnegative_witness :
  exists d,
    GetConvDescriptor kForward Example.input Example.kernel Example.output
      Example.scratch Example.conv_dims Example.window
      (Example.backend 3 2048) (ConvAttrs.mk 1 0) None None None = Some d /\
    AlgorithmProto.workspace_size
      (CudnnConvBackendConfig.algorithm (GpuConvDescriptor.backend_config d))
    = Some 2048.
Proof.
  eexists. split; [vm_compute; reflexivity |].
  apply (workspace_size_set_iff_nonnegative kForward Example.input
           Example.kernel Example.output Example.scratch Example.conv_dims
           Example.window (Example.backend 3 2048) (ConvAttrs.mk 1 0)
           None None None _ eq_refl).
  simpl. lia.
Defined.

(** C1.  The window loop takes the size of each window dimension from
    [operand0_shape], although its comment names [operand1_shape] as the
    kernel: for an 8x8 input and a 3x3 kernel the built window is 8x8,
    while the kernel's extents at the kernel spatial axes are 3 and 3. *)
Lemma window_size_read_from_operand0 :
  (fmap WindowDimension.size ∘ GpuConvDescriptor.window) <$>
    GetConvDescriptor kForward Example.input Example.kernel Example.output
      Example.scratch Example.conv_dims Example.window
      (Example.backend 0 (-1)) (ConvAttrs.mk 1 0) None None None
  = Some [8; 8] /\
  (fun d => (fun axis => Shape.dimensions
                           (GpuConvDescriptor.operand1_shape d)
                         !! Z.to_nat axis) <$>
            ConvolutionDimensionNumbers.kernel_spatial_dimensions
              (GpuConvDescriptor.dnums d)) <$>
    GetConvDescriptor kForward Example.input Example.kernel Example.output
      Example.scratch Example.conv_dims Example.window
      (Example.backend 0 (-1)) (ConvAttrs.mk 1 0) None None None
  = Some [Some 3; Some 3].
Proof. split; vm_compute; reflexivity. Qed.

(** ** The steps of [DoConv] *)

Section Steps.
Context {World : Type} (env : Env World).

Lemma pin_algorithm_spec (b : ConvBackendConfig.t) :
  (snd (pin_algorithm b) = true <-> ConvBackendConfig.algorithm b = -1) /\
  ConvBackendConfig.algorithm (fst (pin_algorithm b))
  = (if ConvBackendConfig.algorithm b =? -1 then 0
     else ConvBackendConfig.algorithm b) /\
  ConvBackendConfig.algorithm (fst (pin_algorithm b)) <> -1.
Proof.
  unfold pin_algorithm.
  destruct (Z.eqb_spec (ConvBackendConfig.algorithm b) (-1)) as [He | Hne];
    simpl; repeat split; intros; (done || lia).
Qed.

Lemma pin_algorithm_inputs (b : ConvBackendConfig.t) :
  ConvBackendConfig.operand_0_layout (fst (pin_algorithm b))
  = ConvBackendConfig.operand_0_layout b /\
  ConvBackendConfig.knob_ids (fst (pin_algorithm b))
  = ConvBackendConfig.knob_ids b /\
  ConvBackendConfig.knob_values (fst (pin_algorithm b))
  = ConvBackendConfig.knob_values b.
Proof.
  unfold pin_algorithm.
  by destruct (ConvBackendConfig.algorithm b =? -1).
Qed.

Lemma GetConvDescriptor_algo_id
    (kind : CudnnConvKind) (operand0 operand1 output : StridedMemrefView.t)
    (scratch : FlatMemrefView.t) (dims : ConvDimensionNumbers.t)
    (w : Window.t) (b : ConvBackendConfig.t) (attrs : ConvAttrs.t)
    (fused : option FusedConvAttrs.t) (side_input : option SideInputAttrs.t)
    (leakyrelu_alpha : option LeakyReluAlphaAttrs.t)
    (d : GpuConvDescriptor.t) :
  GetConvDescriptor kind operand0 operand1 output scratch dims w b attrs
    fused side_input leakyrelu_alpha = Some d ->
  descriptor_algo_id d = ConvBackendConfig.algorithm b.
Proof.
  intros Hd. apply GetConvDescriptor_fields in Hd as (_ & knobs & _ & Ha).
  unfold descriptor_algo_id. by rewrite Ha.
Qed.

Lemma set_serialized_graph_algo_id (g : string) (d : GpuConvDescriptor.t) :
  descriptor_algo_id (GpuConvDescriptor.set_serialized_graph g d)
  = descriptor_algo_id d.
Proof. done. Qed.

(** The plan of a call site: fetched from its slot, or built once. *)
Lemma GetOrCreate_create_runner
    (kind : CudnnConvKind) (runner : State)
    (operand0 operand1 : StridedMemrefView.t)
    (outputs : list StridedMemrefView.t) (scratch : FlatMemrefView.t)
    (conv_dims : ConvDimensionNumbers.t)
    (window_strides padding lhs_dilation rhs_dilation window_reversal
       : list Z)
    (b : ConvBackendConfig.t) (feature_group_count : Z)
    (result_scale : double)
    (fused_attrs : option FusedConvAttrs.t)
    (side_input_attrs : option SideInputAttrs.t)
    (leakyrelu_alpha_attrs : option LeakyReluAlphaAttrs.t)
    (serialized_graph : option string) (m : Machine World) :
  match
    GetOrCreate runner
      (create_runner env kind operand0 operand1 outputs scratch conv_dims
         window_strides padding lhs_dilation rhs_dilation window_reversal
         b feature_group_count result_scale fused_attrs side_input_attrs
         leakyrelu_alpha_attrs serialized_graph) m
  with
  | Done conv m1 =>
      runners m1 !! runner = Some conv /\ world m1 = world m /\
      ((runners m !! runner = Some conv /\ m1 = m) \/
       (runners m !! runner = None /\
        runners m1 = <[runner := conv]> (runners m) /\
        exists d,
          descriptor_algo_id d = ConvBackendConfig.algorithm b /\
          trace m1 = trace m ++ [EvGetGpuConvConfig d]))
  | Fail e m1 =>
      runners m !! runner = None /\ runners m1 = runners m /\
      world m1 = world m /\
      exists d,
        descriptor_algo_id d = ConvBackendConfig.algorithm b /\
        GetGpuConvConfig env d = NotOk e /\
        trace m1 = trace m ++ [EvGetGpuConvConfig d]
  | Undef =>
      runners m !! runner = None /\
      (outputs = [] \/
       exists output0, at_index outputs 0 = Some output0 /\
         GetConvDescriptor kind operand0 operand1 output0 scratch conv_dims
           (Window.mk window_strides padding lhs_dilation rhs_dilation
              window_reversal)
           b (ConvAttrs.mk feature_group_count result_scale) fused_attrs
           side_input_attrs leakyrelu_alpha_attrs = None)
  end.
Proof.
  unfold GetOrCreate.
  destruct (runners m !! runner) as [conv |] eqn:Hslot.
  { rewrite Hslot. auto. }
  unfold create_runner.
  destruct outputs as [| output0 outs]; [simpl; auto |].
  change (at_index (output0 :: outs) 0) with (Some output0). simpl.
  destruct (GetConvDescriptor kind operand0 operand1 output0 scratch
              conv_dims _ b _ fused_attrs side_input_attrs
              leakyrelu_alpha_attrs) as [d |] eqn:Hd;
    [| unfold undefined; eauto 6].
  apply GetConvDescriptor_algo_id in Hd.
  unfold_monad. simpl.
  set (d' := match serialized_graph with
             | Some g => GpuConvDescriptor.set_serialized_graph g d
             | None => d
             end).
  assert (Hd' : descriptor_algo_id d' = ConvBackendConfig.algorithm b).
  { subst d'. by destruct serialized_graph. }
  destruct (GetGpuConvConfig env d') as [cfg | e] eqn:Hcfg; simpl.
  - rewrite lookup_insert_eq. eauto 10.
  - eauto 10.
Qed.

Lemma autotune_outcome (runner : State) (conv : ConvRunner.t)
    (buffers result_buffers : list DeviceMemoryBase.t) (m : Machine World) :
  match autotune env runner conv buffers result_buffers m with
  | Done (conv', scratch_buffer_size) m2 =>
      GOOGLE_CUDA env = true /\
      runners m2 = <[runner := conv']> (runners m) /\
      trace m2 = trace m ++ [EvPickBestAlgorithm (ConvRunner.config conv)
                               buffers result_buffers] /\
      exists best_algo,
        PickBestAlgorithmWithAllocatedBuffer env (ConvRunner.config conv)
          buffers result_buffers (world m) = (OkValue best_algo, world m2) /\
        scratch_buffer_size = AutotuneResult.scratch_bytes best_algo /\
        GpuConvConfig.algorithm (ConvRunner.config conv')
        = AlgorithmDesc (AutotuneResult.conv_algorithm best_algo)
            (AutotuneResult.conv_tensor_ops_enabled best_algo)
  | Fail e m2 =>
      runners m2 = runners m /\
      ((GOOGLE_CUDA env = false /\ m2 = m /\ e = autotune_error) \/
       (GOOGLE_CUDA env = true /\
        trace m2 = trace m ++ [EvPickBestAlgorithm (ConvRunner.config conv)
                                 buffers result_buffers]))
  | Undef => False
  end.
Proof.
  unfold autotune. destruct (GOOGLE_CUDA env); [| unfold fail; auto].
  unfold_monad. simpl.
  destruct (PickBestAlgorithmWithAllocatedBuffer env (ConvRunner.config conv)
              buffers result_buffers (world m)) as [[best | e] w] eqn:Hpick;
    simpl; eauto 10.
Qed.

Lemma run_conv_eq (runner : State) (conv : ConvRunner.t)
    (buffers result_buffers : list DeviceMemoryBase.t)
    (scratch_buffer : DeviceMemoryBase.t) (m : Machine World) :
  run_conv env runner conv buffers result_buffers scratch_buffer m =
  let '(status, cache, w') :=
    RunGpuConv env (ConvRunner.config conv) buffers result_buffers
      scratch_buffer (ConvRunner.runner conv) (world m) in
  let m' :=
    mkMachine
      (<[runner := ConvRunner.mk (ConvRunner.config conv) cache]> (runners m))
      w'
      (trace m ++ [EvRunGpuConv (ConvRunner.config conv) buffers
                     result_buffers scratch_buffer status]) in
  match status with
  | Some e => Fail e m'
  | None => if stream_ok env w' then Done tt m' else Fail stream_error m'
  end.
Proof.
  unfold run_conv. unfold_monad. simpl.
  destruct (RunGpuConv env (ConvRunner.config conv) buffers result_buffers
              scratch_buffer (ConvRunner.runner conv) (world m))
    as [[[e |] cache] w']; simpl; [done |].
  by destruct (stream_ok env w').
Qed.

Lemma DoConv_execute_eq (runner : State) (conv : ConvRunner.t)
    (buffers result_buffers : list DeviceMemoryBase.t)
    (scratch_buffer : DeviceMemoryBase.t) (scratch_buffer_size : Z)
    (m : Machine World) :
  DoConv_execute env runner conv buffers result_buffers scratch_buffer
    scratch_buffer_size m =
  if DeviceMemoryBase.size scratch_buffer <? to_uint64 scratch_buffer_size
  then
    let '(r, w) :=
      Allocate env (device_ordinal env) (to_uint64 scratch_buffer_size)
        (world m) in
    let m' :=
      mkMachine (runners m) w
        (trace m ++ [EvAllocate (device_ordinal env)
                       (to_uint64 scratch_buffer_size)]) in
    match r with
    | OkValue p =>
        run_conv env runner conv buffers result_buffers
          (DeviceMemoryBase.mk (OwningDeviceMemory.ptr p)
             (to_uint64 scratch_buffer_size)) m'
    | NotOk e => Fail e m'
    end
  else run_conv env runner conv buffers result_buffers scratch_buffer m.
Proof.
  unfold DoConv_execute.
  destruct (DeviceMemoryBase.size scratch_buffer
            <? to_uint64 scratch_buffer_size); [| done].
  unfold_monad. simpl.
  by destruct (Allocate env (device_ordinal env)
                 (to_uint64 scratch_buffer_size) (world m)) as [[p | e] w].
Qed.

(** What the last part of [DoConv] requests, runs and returns. *)
Lemma DoConv_execute_outcome (runner : State) (conv : ConvRunner.t)
    (buffers result_buffers : list DeviceMemoryBase.t)
    (scratch_buffer : DeviceMemoryBase.t) (scratch_buffer_size : Z)
    (m : Machine World) :
  let bytes := to_uint64 scratch_buffer_size in
  let o :=
    DoConv_execute env runner conv buffers result_buffers scratch_buffer
      scratch_buffer_size m in
  exists m' delta,
    final o = Some m' /\
    trace m' = trace m ++ delta /\
    count_events is_search delta = 0%nat /\
    count_events is_build delta = 0%nat /\
    built_algo_ids delta = [] /\
    allocations delta
    = (if DeviceMemoryBase.size scratch_buffer <? bytes
       then [(device_ordinal env, bytes)] else []) /\
    scratch_used delta
    = (if DeviceMemoryBase.size scratch_buffer <? bytes
       then match (Allocate env (device_ordinal env) bytes (world m)).1 with
            | OkValue p =>
                [DeviceMemoryBase.mk (OwningDeviceMemory.ptr p) bytes]
            | NotOk _ => []
            end
       else [scratch_buffer]) /\
    (is_Some (runners m !! runner) -> is_Some (runners m' !! runner)) /\
    (forall c b r s reported,
       EvRunGpuConv c b r s reported ∈ delta ->
       status_of o
       = Some match reported with
              | Some e => Some e
              | None =>
                  if stream_ok env (world m') then None
                  else Some stream_error
              end) /\
    (status_of o = Some None ->
     stream_ok env (world m') = true /\
     exists s,
       EvRunGpuConv (ConvRunner.config conv) buffers result_buffers s None
       ∈ delta).
Proof.
  intros bytes o. subst o. rewrite DoConv_execute_eq. fold bytes.
  destruct (DeviceMemoryBase.size scratch_buffer <? bytes).
  - destruct (Allocate env (device_ordinal env) bytes (world m))
      as [[p | e] w] eqn:Halloc; simpl.
    + rewrite run_conv_eq. simpl.
      destruct (RunGpuConv env (ConvRunner.config conv) buffers
                  result_buffers
                  (DeviceMemoryBase.mk (OwningDeviceMemory.ptr p) bytes)
                  (ConvRunner.runner conv) w) as [[[e |] cache] w'];
        simpl; [| destruct (stream_ok env w') eqn:Hok; simpl];
        (eexists; eexists; split; [reflexivity |]; simpl;
         split; [by rewrite <- app_assoc |];
         repeat split; try done;
         [ intros _; by rewrite lookup_insert_eq
         | intros c b r s reported Hin; elem_cases Hin;
           injection Hin as -> -> -> -> ->; simpl; by rewrite ?Hok
         | .. ]).
      * eexists. apply elem_of_cons. right. apply elem_of_cons. by left.
    + eexists; eexists; split; [reflexivity |]; simpl.
      split; [done |]. repeat split; try done.
      intros c b r s reported Hin. elem_cases Hin.
  - rewrite run_conv_eq.
    destruct (RunGpuConv env (ConvRunner.config conv) buffers result_buffers
                scratch_buffer (ConvRunner.runner conv) (world m))
      as [[[e |] cache] w']; simpl;
      [| destruct (stream_ok env w') eqn:Hok; simpl];
      (eexists; eexists; split; [reflexivity |]; simpl;
       split; [done |];
       repeat split; try done;
       [ intros _; by rewrite lookup_insert_eq
       | intros c b r s reported Hin; elem_cases Hin;
         injection Hin as -> -> -> -> ->; simpl; by rewrite ?Hok
       | .. ]).
    eexists. apply elem_of_cons. by left.
Qed.

Lemma prepare_events_facts (cached : bool) (a : Z) (searched : bool)
    (delta : list Event) :
  prepare_events cached a searched delta ->
  count_events is_search delta = (if searched then 1 else 0)%nat /\
  count_events is_build delta = (if cached then 0 else 1)%nat /\
  built_algo_ids delta = (if cached then [] else [a]) /\
  allocations delta = [] /\
  scratch_used delta = [] /\
  (forall c b r s reported, EvRunGpuConv c b r s reported ∉ delta).
Proof.
  intros (built & search & -> & Hb & Hs).
  destruct cached; [subst built | destruct Hb as (d & -> & Hd)];
    (destruct searched; [destruct Hs as (c & b & r & ->) | subst search]);
    simpl; unfold descriptor_algo_id in *; rewrite ?Hd;
    repeat split; try done;
    intros c' b' r' s' reported Hin; elem_cases Hin.
Qed.

Lemma DoConv_prepare_outcome
    (kind : CudnnConvKind) (runner : State)
    (operand0 operand1 : StridedMemrefView.t)
    (bias : option FlatMemrefView.t)
    (side_input : option StridedMemrefView.t)
    (outputs : list StridedMemrefView.t) (scratch : FlatMemrefView.t)
    (uid : Z) (conv_dims : ConvDimensionNumbers.t)
    (window_strides padding lhs_dilation rhs_dilation window_reversal
       : list Z)
    (b : ConvBackendConfig.t) (feature_group_count : Z)
    (result_scale : double) (activation_mode : option ActivationMode)
    (side_input_scale leakyrelu_alpha : option double)
    (extra_operands : list StridedMemrefView.t)
    (serialized_graph : option string) (m : Machine World) :
  let a := ConvBackendConfig.algorithm (pin_algorithm b).1 in
  let flag := (pin_algorithm b).2 in
  let cached := bool_decide (is_Some (runners m !! runner)) in
  match
    DoConv_prepare env kind runner operand0 operand1 bias side_input outputs
      scratch uid conv_dims window_strides padding lhs_dilation rhs_dilation
      window_reversal b feature_group_count result_scale activation_mode
      side_input_scale leakyrelu_alpha extra_operands serialized_graph m
  with
  | Done (conv, buffers, result_buffers, scratch_buffer, size) m1 =>
      scratch_buffer = GetDeviceAddress_flat scratch /\
      runners m1 !! runner = Some conv /\
      (flag = false -> size = to_int64 (DeviceMemoryBase.size scratch_buffer))
      /\ (flag = true -> GOOGLE_CUDA env = true) /\
      exists delta,
        trace m1 = trace m ++ delta /\ prepare_events cached a flag delta
  | Fail e m1 =>
      exists delta,
        trace m1 = trace m ++ delta /\
        ((runners m !! runner = None /\ runners m1 !! runner = None /\
          prepare_events false a false delta /\
          exists d, GetGpuConvConfig env d = NotOk e) \/
         (is_Some (runners m1 !! runner) /\ flag = true /\
          prepare_events cached a (GOOGLE_CUDA env) delta /\
          (GOOGLE_CUDA env = false -> e = autotune_error)))
  | Undef =>
      runners m !! runner = None /\
      (outputs = [] \/
       exists output0, at_index outputs 0 = Some output0 /\
         GetConvDescriptor kind operand0 operand1 output0 scratch conv_dims
           (Window.mk window_strides padding lhs_dilation rhs_dilation
              window_reversal)
           (pin_algorithm b).1
           (ConvAttrs.mk feature_group_count result_scale)
           (FusedConvAttrs.mk <$> activation_mode)
           (SideInputAttrs.mk <$> side_input_scale)
           (LeakyReluAlphaAttrs.mk <$> leakyrelu_alpha) = None)
  end.
Proof.
  intros a flag cached. unfold DoConv_prepare.
  subst a flag. destruct (pin_algorithm b) as [b' flag]. simpl.
  unfold mbind at 1, M_bind at 1, bind at 1.
  pose proof (GetOrCreate_create_runner kind runner operand0 operand1
                outputs scratch conv_dims window_strides padding
                lhs_dilation rhs_dilation window_reversal b'
                feature_group_count result_scale
                (FusedConvAttrs.mk <$> activation_mode)
                (SideInputAttrs.mk <$> side_input_scale)
                (LeakyReluAlphaAttrs.mk <$> leakyrelu_alpha)
                serialized_graph m) as Hplan.
  destruct (GetOrCreate runner _ m) as [conv m1 | e m1 |]; [| | done].
  - destruct Hplan as (Hslot & Hworld & Hhow).
    assert (Hbuilt : exists built,
      trace m1 = trace m ++ built /\
      (if cached then built = []
       else exists d, built = [EvGetGpuConvConfig d] /\
                      descriptor_algo_id d = ConvBackendConfig.algorithm b')).
    { subst cached.
      destruct Hhow as [[Hm ->] | (Hm & _ & d & Hd & Htr)]; rewrite Hm.
      - exists []. by rewrite app_nil_r.
      - exists [EvGetGpuConvConfig d]. split; [done |].
        rewrite bool_decide_eq_false_2 by (by intros [? ?]). eauto. }
    destruct Hbuilt as (built & Htr & Hbuilt).
    destruct flag.
    + unfold mbind, M_bind, bind.
      set (buffers := GetDeviceAddress env operand0 :: _).
      set (results := _ <$> outputs).
      pose proof (autotune_outcome runner conv buffers results m1) as Hauto.
      destruct (autotune env runner conv buffers results m1)
        as [[conv' size] m2 | e m2 |]; [| | done].
      * destruct Hauto as (Hcuda & Hr & Htr2 & _).
        unfold mret, M_ret, ret. cbn beta iota.
        split; [done |]. split; [by rewrite Hr, lookup_insert_eq |].
        split; [done |]. split; [done |].
        exists (built ++ [EvPickBestAlgorithm (ConvRunner.config conv)
                            buffers results]).
        split; [by rewrite Htr2, Htr, <- app_assoc |].
        exists built, [EvPickBestAlgorithm (ConvRunner.config conv) buffers
                         results]. eauto 10.
      * destruct Hauto as (Hr & [(Hcuda & -> & ->) | (Hcuda & Htr2)]).
        -- exists built. split; [done |]. right. rewrite Hcuda, Hslot.
           split; [eauto |]. split; [done |]. split; [| done].
           exists built, []. by rewrite app_nil_r.
        -- exists (built ++ [EvPickBestAlgorithm (ConvRunner.config conv)
                               buffers results]).
           split; [by rewrite Htr2, Htr, <- app_assoc |].
           right. rewrite Hcuda, Hr, Hslot.
           split; [eauto |]. split; [done |]. split; [| done].
           exists built, [EvPickBestAlgorithm (ConvRunner.config conv)
                            buffers results]. eauto 10.
    + unfold mret, M_ret, ret. cbn beta iota.
      split; [done |]. split; [done |]. split; [done |]. split; [done |].
      exists built. split; [done |]. exists built, [].
      by rewrite app_nil_r.
  - destruct Hplan as (Hm & Hr & _ & d & Hd & Hcfg & Htr).
    exists [EvGetGpuConvConfig d]. split; [done |]. left.
    rewrite Hr. split; [done |]. split; [done |]. split; [| eauto].
    exists [EvGetGpuConvConfig d], []. eauto.
Qed.

Lemma count_events_app (p : Event -> bool) (l k : list Event) :
  count_events p (l ++ k) = (count_events p l + count_events p k)%nat.
Proof. unfold count_events. by rewrite List.filter_app, length_app. Qed.

Lemma allocations_app (l k : list Event) :
  allocations (l ++ k) = allocations l ++ allocations k.
Proof. apply omap_app. Qed.

Lemma scratch_used_app (l k : list Event) :
  scratch_used (l ++ k) = scratch_used l ++ scratch_used k.
Proof. apply omap_app. Qed.

Lemma built_algo_ids_app (l k : list Event) :
  built_algo_ids (l ++ k) = built_algo_ids l ++ built_algo_ids k.
Proof. apply omap_app. Qed.

Section Call.
Variables
  (kind : CudnnConvKind) (runner : State)
  (operand0 operand1 : StridedMemrefView.t)
  (bias : option FlatMemrefView.t)
  (side_input : option StridedMemrefView.t)
  (outputs : list StridedMemrefView.t) (scratch : FlatMemrefView.t)
  (uid : Z) (conv_dims : ConvDimensionNumbers.t)
  (window_strides padding lhs_dilation rhs_dilation window_reversal
     : list Z)
  (backend_config : ConvBackendConfig.t) (feature_group_count : Z)
  (result_scale : double) (activation_mode : option ActivationMode)
  (side_input_scale leakyrelu_alpha : option double)
  (extra_operands : list StridedMemrefView.t)
  (serialized_graph : option string).

Let prepare : M World _ :=
  DoConv_prepare env kind runner operand0 operand1 bias side_input outputs
    scratch uid conv_dims window_strides padding lhs_dilation rhs_dilation
    window_reversal backend_config feature_group_count result_scale
    activation_mode side_input_scale leakyrelu_alpha extra_operands
    serialized_graph.

Let do_conv : M World unit :=
  DoConv env kind runner operand0 operand1 bias side_input outputs
    scratch uid conv_dims window_strides padding lhs_dilation rhs_dilation
    window_reversal backend_config feature_group_count result_scale
    activation_mode side_input_scale leakyrelu_alpha extra_operands
    serialized_graph.

Lemma DoConv_eq (m : Machine World) :
  do_conv m =
  match prepare m with
  | Done (conv, buffers, result_buffers, scratch_buffer, size) m1 =>
      DoConv_execute env runner conv buffers result_buffers scratch_buffer
        size m1
  | Fail e m1 => Fail e m1
  | Undef => Undef
  end.
Proof.
  subst do_conv prepare. unfold DoConv, mbind, M_bind, bind.
  destruct (DoConv_prepare _ _ _ _ _ _ _ _ _ _ _ _ _ _ _ _ _ _ _ _ _ _ _ _ m)
    as [[[[[conv buffers] results] sb] size] m1 | |]; done.
Qed.

Lemma prepare_defined (m : Machine World) :
  DescriptorInputsOk operand0 outputs conv_dims window_strides padding
    lhs_dilation rhs_dilation window_reversal backend_config ->
  prepare m <> Undef.
Proof.
  intros (Hout & Hw & Hk) Hundef.
  pose proof (DoConv_prepare_outcome kind runner operand0 operand1 bias
                side_input outputs scratch uid conv_dims window_strides
                padding lhs_dilation rhs_dilation window_reversal
                backend_config feature_group_count result_scale
                activation_mode side_input_scale leakyrelu_alpha
                extra_operands serialized_graph m) as H.
  fold prepare in H. rewrite Hundef in H. simpl in H.
  destruct H as (_ & [-> | (output0 & _ & Hnone)]); [done |].
  destruct (pin_algorithm_inputs backend_config) as (Hl & Hids & Hvals).
  destruct (GetConvDescriptor_defined kind operand0 operand1 output0 scratch
              conv_dims
              (Window.mk window_strides padding lhs_dilation rhs_dilation
                 window_reversal)
              (pin_algorithm backend_config).1
              (ConvAttrs.mk feature_group_count result_scale)
              (FusedConvAttrs.mk <$> activation_mode)
              (SideInputAttrs.mk <$> side_input_scale)
              (LeakyReluAlphaAttrs.mk <$> leakyrelu_alpha)) as [d Hd].
  - by rewrite Hl.
  - unfold KnobInputsOk. by rewrite Hids, Hvals.
  - congruence.
Qed.

(** The events of a whole call, and what they add up to. *)
Lemma DoConv_outcome (m m' : Machine World) :
  final (do_conv m) = Some m' ->
  let a := ConvBackendConfig.algorithm (pin_algorithm backend_config).1 in
  let flag := (pin_algorithm backend_config).2 in
  let cached := bool_decide (is_Some (runners m !! runner)) in
  let plan := bool_decide (is_Some (runners m' !! runner)) in
  exists delta,
    trace m' = trace m ++ delta /\
    count_events is_search delta
    = (if flag && GOOGLE_CUDA env && plan then 1 else 0)%nat /\
    count_events is_build delta = (if cached then 0 else 1)%nat /\
    built_algo_ids delta = (if cached then [] else [a]) /\
    (plan = true \/ exists d e, GetGpuConvConfig env d = NotOk e).
Proof.
  intros Hfinal a flag cached plan. rewrite DoConv_eq in Hfinal.
  pose proof (DoConv_prepare_outcome kind runner operand0 operand1 bias
                side_input outputs scratch uid conv_dims window_strides
                padding lhs_dilation rhs_dilation window_reversal
                backend_config feature_group_count result_scale
                activation_mode side_input_scale leakyrelu_alpha
                extra_operands serialized_graph m) as Hprep.
  fold prepare in Hprep. simpl in Hprep. fold a flag cached in Hprep.
  destruct (prepare m)
    as [[[[[conv buffers] results] sb] size] m1 | e m1 |]; [| | done].
  - destruct Hprep as (_ & Hslot & _ & Hcuda & delta1 & Htr1 & Hev).
    destruct (DoConv_execute_outcome runner conv buffers results sb size m1)
      as (m2 & delta2 & Hfin & Htr2 & Hs2 & Hb2 & Hids2 & _ & _ & Hkeep & _).
    rewrite Hfinal in Hfin. injection Hfin as <-.
    apply prepare_events_facts in Hev as (Hs1 & Hb1 & Hids1 & _).
    exists (delta1 ++ delta2).
    split; [by rewrite Htr2, Htr1, <- app_assoc |].
    rewrite count_events_app, count_events_app, built_algo_ids_app.
    rewrite Hs1, Hs2, Hb1, Hb2, Hids1, Hids2, app_nil_r.
    subst plan. rewrite bool_decide_eq_true_2 by (apply Hkeep; eauto).
    split; [| split; [lia | auto]].
    destruct flag; [by rewrite Hcuda | done].
  - simpl in Hfinal. injection Hfinal as <-.
    destruct Hprep as (delta & Htr & [(Hm & Hslot & Hev & Hcfg) |
                                      (Hslot & Hflag & Hev & _)]);
      exists delta; (split; [done |]);
      apply prepare_events_facts in Hev as (Hs & Hb & Hids & _);
      rewrite Hs, Hb, Hids; subst plan.
    + rewrite Hslot, bool_decide_eq_false_2 by (by intros [? ?]).
      rewrite andb_false_r.
      assert (cached = false) as ->.
      { subst cached. rewrite Hm. apply bool_decide_eq_false_2.
        by intros [? ?]. }
      destruct Hcfg as [d Hd]. eauto 10.
    + rewrite bool_decide_eq_true_2 by done. rewrite Hflag. simpl.
      rewrite andb_true_r. auto.
Qed.

(** C3.  The flag [runtime_autotuning] is set iff the algorithm of the
    backend config is the sentinel [-1], and then the algorithm is set to
    [0] before the plan is fetched or built: a descriptor built by the call
    carries the pinned algorithm, which is never the sentinel.  With an
    explicit algorithm the picker is not called; with the sentinel it is
    called once, provided the build has CUDA and the call has a plan. *)
Theorem autotuning_iff_sentinel (m m' : Machine World) :
  final (do_conv m) = Some m' ->
  let b := pin_algorithm backend_config in
  (b.2 = true <-> ConvBackendConfig.algorithm backend_config = -1) /\
  ConvBackendConfig.algorithm b.1
  = (if ConvBackendConfig.algorithm backend_config =? -1 then 0
     else ConvBackendConfig.algorithm backend_config) /\
  exists delta,
    trace m' = trace m ++ delta /\
    Forall (fun id : Z =>
              id <> -1 /\ id = ConvBackendConfig.algorithm b.1)
      (built_algo_ids delta) /\
    count_events is_search delta
    = (if (ConvBackendConfig.algorithm backend_config =? -1)%Z
          && GOOGLE_CUDA env
          && bool_decide (is_Some (runners m' !! runner))
       then 1 else 0)%nat.
Proof.
  intros Hfinal b.
  destruct (pin_algorithm_spec backend_config) as (Hflag & Hpin & Hne).
  split; [done |]. split; [done |].
  destruct (DoConv_outcome m m' Hfinal) as (delta & Htr & Hs & _ & Hids & _).
  exists delta. split; [done |]. split.
  - rewrite Hids.
    destruct (bool_decide (is_Some (runners m !! runner)));
      [apply List.Forall_nil
      | apply List.Forall_cons; [split; [exact Hne | done]
                                | apply List.Forall_nil]].
  - rewrite Hs. subst b. unfold pin_algorithm.
    by destruct (ConvBackendConfig.algorithm backend_config =? -1).
Qed.

(** C6.  A call that asks for the sentinel in a build without CUDA fails:
    it returns an error and the device primitive is not run.  When the
    call has a plan the error is the one of the autotuning block. *)
Theorem autotuning_unavailable_is_an_error (m : Machine World) :
  ConvBackendConfig.algorithm backend_config = -1 ->
  GOOGLE_CUDA env = false ->
  DescriptorInputsOk operand0 outputs conv_dims window_strides padding
    lhs_dilation rhs_dilation window_reversal backend_config ->
  exists e m',
    do_conv m = Fail e m' /\
    scratch_used (trace m') = scratch_used (trace m) /\
    count_events is_run (trace m') = count_events is_run (trace m) /\
    (is_Some (runners m' !! runner) -> e = autotune_error).
Proof.
  intros Hsentinel Hcuda Hok.
  pose proof (prepare_defined m Hok) as Hdef.
  rewrite DoConv_eq.
  pose proof (DoConv_prepare_outcome kind runner operand0 operand1 bias
                side_input outputs scratch uid conv_dims window_strides
                padding lhs_dilation rhs_dilation window_reversal
                backend_config feature_group_count result_scale
                activation_mode side_input_scale leakyrelu_alpha
                extra_operands serialized_graph m) as Hprep.
  fold prepare in Hprep. simpl in Hprep.
  destruct (pin_algorithm_spec backend_config) as ([_ Hflag] & _).
  specialize (Hflag Hsentinel).
  destruct (prepare m)
    as [[[[[conv buffers] results] sb] size] m1 | e m1 |]; [| | done].
  - destruct Hprep as (_ & _ & _ & Hc & _). rewrite (Hc Hflag) in Hcuda.
    discriminate.
  - exists e, m1. split; [done |].
    assert (Hquiet : exists delta,
              trace m1 = trace m ++ delta /\ scratch_used delta = [] /\
              count_events is_run delta = 0%nat /\
              (is_Some (runners m1 !! runner) -> e = autotune_error)).
    { destruct Hprep as (delta & Htr & [(_ & Hslot & Hev & _) |
                                        (_ & _ & Hev & He)]);
        exists delta; (split; [done |]);
        destruct Hev as (built & search & -> & Hb & Hs).
      - destruct Hb as (d & -> & _). subst search.
        repeat split; try done. rewrite Hslot. by intros [? ?].
      - rewrite Hcuda in Hs. subst search.
        destruct (bool_decide (is_Some (runners m !! runner)));
          [subst built | destruct Hb as (d & -> & _)];
          repeat split; auto. }
    destruct Hquiet as (delta & -> & Hsc & Hrun & He).
    rewrite scratch_used_app, count_events_app, Hsc, Hrun, app_nil_r.
    split; [done |]. split; [lia | done].
Qed.

(** X17.  Let [size] be the value of [scratch_buffer_size] when the
    convolution is about to be run and [scratch_buffer] the buffer of the
    caller.  If [size] exceeds the size of [scratch_buffer], one request is
    made to the allocator, for the device ordinal of the call and for
    exactly [size] bytes, and the primitive runs with a buffer of [size]
    bytes whose address is [ptr()] of the handle that the allocator
    returned; otherwise no request is made and the primitive runs with
    [scratch_buffer]. *)
Theorem scratch_buffer_grows_on_demand
    (m m1 : Machine World) (conv : ConvRunner.t)
    (buffers result_buffers : list DeviceMemoryBase.t)
    (scratch_buffer : DeviceMemoryBase.t) (size : Z) :
  prepare m
  = Done (conv, buffers, result_buffers, scratch_buffer, size) m1 ->
  let bytes := to_uint64 size in
  let grow := DeviceMemoryBase.size scratch_buffer <? bytes in
  scratch_buffer = GetDeviceAddress_flat scratch /\
  (0 <= size < 2 ^ 64 -> bytes = size) /\
  exists m' delta,
    final (do_conv m) = Some m' /\
    trace m' = trace m1 ++ delta /\
    allocations delta
    = (if grow then [(device_ordinal env, bytes)] else []) /\
    scratch_used delta
    = (if grow
       then match (Allocate env (device_ordinal env) bytes (world m1)).1 with
            | OkValue p =>
                [DeviceMemoryBase.mk (OwningDeviceMemory.ptr p) bytes]
            | NotOk _ => []
            end
       else [scratch_buffer]).
Proof.
  intros Hprep bytes grow.
  pose proof (DoConv_prepare_outcome kind runner operand0 operand1 bias
                side_input outputs scratch uid conv_dims window_strides
                padding lhs_dilation rhs_dilation window_reversal
                backend_config feature_group_count result_scale
                activation_mode side_input_scale leakyrelu_alpha
                extra_operands serialized_graph m) as Hout.
  fold prepare in Hout. rewrite Hprep in Hout. simpl in Hout.
  destruct Hout as (Hsb & _).
  split; [done |]. split; [apply to_uint64_small |].
  rewrite DoConv_eq, Hprep.
  destruct (DoConv_execute_outcome runner conv buffers result_buffers
              scratch_buffer size m1)
    as (m' & delta & Hfin & Htr & _ & _ & _ & Halloc & Hused & _).
  exists m', delta. done.
Qed.

(** C7.  Whenever the device primitive has been run, the status of the call
    is the error the primitive reported, or else the stream error if the
    stream is not ok after the run, or else ok.  The call is ok only if the
    primitive was run, reported no error, and left the stream ok. *)
Theorem status_is_primitive_then_stream (m m' : Machine World) :
  final (do_conv m) = Some m' ->
  exists delta,
    trace m' = trace m ++ delta /\
    (forall c b r s reported,
       EvRunGpuConv c b r s reported ∈ delta ->
       status_of (do_conv m)
       = Some match reported with
              | Some e => Some e
              | None =>
                  if stream_ok env (world m') then None
                  else Some stream_error
              end) /\
    (status_of (do_conv m) = Some None ->
     stream_ok env (world m') = true /\
     exists c b r s, EvRunGpuConv c b r s None ∈ delta).
Proof.
  intros Hfinal. rewrite DoConv_eq in *.
  pose proof (DoConv_prepare_outcome kind runner operand0 operand1 bias
                side_input outputs scratch uid conv_dims window_strides
                padding lhs_dilation rhs_dilation window_reversal
                backend_config feature_group_count result_scale
                activation_mode side_input_scale leakyrelu_alpha
                extra_operands serialized_graph m) as Hprep.
  fold prepare in Hprep. simpl in Hprep.
  destruct (prepare m)
    as [[[[[conv buffers] results] sb] size] m1 | e m1 |]; [| | done].
  - destruct Hprep as (_ & _ & _ & _ & delta1 & Htr1 & Hev).
    apply prepare_events_facts in Hev as (_ & _ & _ & _ & _ & Hnorun).
    destruct (DoConv_execute_outcome runner conv buffers results sb size m1)
      as (m2 & delta2 & Hfin & Htr2 & _ & _ & _ & _ & _ & _ & Hrun & Hok).
    rewrite Hfinal in Hfin. injection Hfin as <-.
    exists (delta1 ++ delta2).
    split; [by rewrite Htr2, Htr1, <- app_assoc |]. split.
    + intros c b r s reported Hin. apply elem_of_app in Hin as [Hin | Hin].
      * by apply Hnorun in Hin.
      * by apply (Hrun c b r s).
    + intros Hst. destruct (Hok Hst) as (Hstream & s & Hin).
      split; [done |]. do 4 eexists. apply elem_of_app. right. exact Hin.
  - simpl in Hfinal. injection Hfinal as <-.
    destruct Hprep as (delta & Htr & Hcase).
    exists delta. split; [done |].
    assert (Hnorun : forall c b r s reported,
              EvRunGpuConv c b r s reported ∉ delta).
    { destruct Hcase as [(_ & _ & Hev & _) | (_ & _ & Hev & _)];
        by apply prepare_events_facts in Hev as (_ & _ & _ & _ & _ & Hnorun). }
    split; [| done].
    intros c b r s reported Hin. by apply Hnorun in Hin.
Qed.



End Call.
End Steps.

(** ** The example call satisfies the hypotheses *)

Lemma Example_descriptor_inputs_ok (algorithm workspace_size : Z) :
  DescriptorInputsOk Example.input [Example.output] Example.conv_dims
    [1; 1] [0; 0] [1; 1] [1; 1] [0; 0]
    (Example.backend algorithm workspace_size).
Proof.
  split; [done |]. split; [apply Example_window_inputs_ok |].
  split; simpl; lia.
Defined.

Lemma autotuning_iff_sentinel_witness :
  exists m',
    final (Example.conv (Example.env true true None 4096)
             (Example.backend (-1) (-1)) Example.start) = Some m' /\
    ((pin_algorithm (Example.backend (-1) (-1))).2 = true <->
     ConvBackendConfig.algorithm (Example.backend (-1) (-1)) = -1).
Proof.
  assert (H : exists m',
            final (Example.conv (Example.env true true None 4096)
                     (Example.backend (-1) (-1)) Example.start) = Some m').
  { eexists. vm_compute. reflexivity. }
  destruct H as [m' H]. exists m'. split; [exact H |].
  exact (proj1 (autotuning_iff_sentinel _ _ _ _ _ _ _ _ _ _ _ _ _ _ _ _ _ _
                  _ _ _ _ _ _ _ _ H)).
Defined.

Lemma autotuning_unavailable_is_an_error_witness :
  exists e m',
    Example.conv (Example.env false true None 4096)
      (Example.backend (-1) (-1)) Example.start = Fail e m'.
Proof.
  destruct (autotuning_unavailable_is_an_error
              (Example.env false true None 4096) kForward 42 Example.input
              Example.kernel None None [Example.output] Example.scratch 42
              Example.conv_dims [1; 1] [0; 0] [1; 1] [1; 1] [0; 0]
              (Example.backend (-1) (-1)) 1 0 None None None [] None
              Example.start eq_refl eq_refl
              (Example_descriptor_inputs_ok (-1) (-1)))
    as (e & m' & H & _).
  exists e, m'. exact H.
Defined.

Lemma scratch_buffer_grows_on_demand_witness :
  exists conv buffers result_buffers scratch_buffer size m1,
    DoConv_prepare (Example.env true true None 4096) kForward 42
      Example.input Example.kernel None None [Example.output]
      Example.scratch 42 Example.conv_dims [1; 1] [0; 0] [1; 1] [1; 1]
      [0; 0] (Example.backend (-1) (-1)) 1 0 None None None [] None
      Example.start
    = Done (conv, buffers, result_buffers, scratch_buffer, size) m1 /\
    scratch_buffer = GetDeviceAddress_flat Example.scratch.
Proof.
  assert (H : exists x m1,
            DoConv_prepare (Example.env true true None 4096) kForward 42
              Example.input Example.kernel None None [Example.output]
              Example.scratch 42 Example.conv_dims [1; 1] [0; 0] [1; 1]
              [1; 1] [0; 0] (Example.backend (-1) (-1)) 1 0 None None None
              [] None Example.start = Done x m1).
  { do 2 eexists. vm_compute. reflexivity. }
  destruct H as ([[[[conv buffers] results] sb] size] & m1 & H).
  exists conv, buffers, results, sb, size, m1. split; [exact H |].
  exact (proj1 (scratch_buffer_grows_on_demand _ _ _ _ _ _ _ _ _ _ _ _ _ _
                  _ _ _ _ _ _ _ _ _ _ _ _ _ _ _ _ _ H)).
Defined.

(** C5.  The forward convolution of the examples with the sentinel
    algorithm: the caller supplies a scratch buffer of 1024 bytes and the
    picker asks for 4096.  One request is made to the allocator, for the
    device ordinal of the call and for exactly 4096 bytes, and the buffer
    of the caller is not used.  The allocator hands out 4096 bytes of
    device memory at address 65536, but the buffer that the primitive runs
    with has the address [ptr()] of the owning handle: [DoConv] passes
    [allocated_buffer.ptr()] where the address of the memory that the
    handle owns is meant, although its comment says that the convolution
    runs with the new scratch buffer.  The fresh allocation is requested
    and is not the memory that the primitive is given. *)
Lemma grown_scratch_is_addressed_by_the_handle :
  let env := Example.env true true None 4096 in
  exists m' handle,
    Example.conv env (Example.backend (-1) (-1)) Example.start
    = Done tt m' /\
    DeviceMemoryBase.size (GetDeviceAddress_flat Example.scratch) = 1024 /\
    allocations (trace m') = [(device_ordinal env, 4096)] /\
    Allocate env (device_ordinal env) 4096 0%nat
    = (OkValue handle, 0%nat) /\
    OwningDeviceMemory.wrapped handle = DeviceMemoryBase.mk 65536 4096 /\
    scratch_used (trace m')
    = [DeviceMemoryBase.mk (OwningDeviceMemory.ptr handle) 4096] /\
    scratch_used (trace m') <> [OwningDeviceMemory.wrapped handle] /\
    scratch_used (trace m') <> [GetDeviceAddress_flat Example.scratch].
Proof.
  intros env. do 2 eexists.
  split; [vm_compute; reflexivity |].
  repeat split; try (vm_compute; reflexivity);
    intros H; vm_compute in H; discriminate H.
Qed.

Lemma status_is_primitive_then_stream_witness :
  exists m' delta,
    final (Example.conv (Example.env true false None 4096)
             (Example.backend 3 (-1)) Example.start) = Some m' /\
    trace m' = trace Example.start ++ delta.
Proof.
  assert (H : exists m',
            final (Example.conv (Example.env true false None 4096)
                     (Example.backend 3 (-1)) Example.start) = Some m').
  { eexists. vm_compute. reflexivity. }
  destruct H as [m' H].
  destruct (status_is_primitive_then_stream _ _ _ _ _ _ _ _ _ _ _ _ _ _ _ _
              _ _ _ _ _ _ _ _ _ _ H) as (delta & Htr & _).
  exists m', delta. split; [exact H | exact Htr].
Defined.



(** ** The runners of distinct executors *)

(** C8.  The entries that [ConvRunners::operator()] returns for two
    distinct stream executors are distinct entries of [runners_]: fetching
    the entry of one leaves the entry of the other as it was, and whatever
    is written through the pointer to one (a plan built or retuned for some
    call site) leaves every plan read through the other unchanged, also
    for the same [uid]. *)
Theorem executors_have_separate_runners
    (e1 e2 : StreamExecutor) (runners_ : ConvRunners.t)
    (f : StreamExecutorConvRunners -> StreamExecutorConvRunners)
    (uid : Z) :
  e1 <> e2 ->
  let p1 := (ConvRunners.call e1 runners_).1 in
  let p2 := (ConvRunners.call e2 (ConvRunners.call e1 runners_).2).1 in
  let rs := (ConvRunners.call e2 (ConvRunners.call e1 runners_).2).2 in
  p1 <> p2 /\
  ConvRunners.deref p2 rs = ConvRunners.deref e2 runners_ /\
  ConvRunners.deref p1 (ConvRunners.update p1 f rs)
  = f (ConvRunners.deref p1 rs) /\
  ConvRunners.deref p2 (ConvRunners.update p1 f rs)
  = ConvRunners.deref p2 rs /\
  ConvRunners.deref p2 (ConvRunners.update p1 f rs) !! uid
  = ConvRunners.deref p2 rs !! uid.
Proof.
  intros Hne p1 p2 rs.
  assert (Hp1 : p1 = e1).
  { subst p1. unfold ConvRunners.call. by destruct (runners_ !! e1). }
  assert (Hp2 : p2 = e2).
  { subst p2. unfold ConvRunners.call.
    by destruct ((_ : ConvRunners.t) !! e2). }
  assert (Hrs : rs !! e2 = Some (ConvRunners.deref e2 runners_)).
  { subst rs. unfold ConvRunners.call, ConvRunners.deref.
    destruct (runners_ !! e1) eqn:H1; simpl.
    - destruct (runners_ !! e2) eqn:H2; simpl; [done |].
      by rewrite lookup_insert_eq.
    - rewrite lookup_insert_ne by done.
      destruct (runners_ !! e2) eqn:H2; simpl.
      + by rewrite lookup_insert_ne.
      + by rewrite lookup_insert_eq. }
  rewrite Hp1, Hp2.
  assert (Hother : ConvRunners.deref e2 (ConvRunners.update e1 f rs)
                   = ConvRunners.deref e2 rs).
  { unfold ConvRunners.deref, ConvRunners.update.
    by rewrite lookup_insert_ne. }
  split; [done |]. split; [| split; [| split]].
  - unfold ConvRunners.deref at 1. by rewrite Hrs.
  - unfold ConvRunners.update.
    unfold ConvRunners.deref at 1. by rewrite lookup_insert_eq.
  - done.
  - by rewrite Hother.
Qed.

Lemma executors_have_separate_runners_witness :
  ConvRunners.deref
    (ConvRunners.call 2 (ConvRunners.call 1 Example.tuned).2).1
    (ConvRunners.update (ConvRunners.call 1 Example.tuned).1
       (fun _ => ∅)
       (ConvRunners.call 2 (ConvRunners.call 1 Example.tuned).2).2) !! 42
  = ConvRunners.deref
      (ConvRunners.call 2 (ConvRunners.call 1 Example.tuned).2).1
      (ConvRunners.call 2 (ConvRunners.call 1 Example.tuned).2).2 !! 42.
Proof.
  refine (proj2 (proj2 (proj2 (proj2
            (executors_have_separate_runners 1 2 Example.tuned
               (fun _ => ∅) 42 _))))).
  discriminate.
Defined.

(** ** The argument loops of the graph variant *)

(** A loop whose bound lies within the arguments resolves the entries from
    [i] up to the bound, or reports the first one that does not resolve. *)
Lemma get_memrefs_within (msg : string) (args : RemainingArgs.t) (bound : Z)
    (fuel : nat) :
  forall (i : Z) (acc : list StridedMemrefView.t),
    0 <= i <= bound ->
    bound <= Z.of_nat (length args) ->
    Z.of_nat (length args) <= INT_MAX ->
    (Z.to_nat (bound - i) < fuel)%nat ->
    get_memrefs msg args bound fuel i acc
    = Some match
             mapM EncodedArg.as_strided
               (take (Z.to_nat (bound - i)) (drop (Z.to_nat i) args))
           with
           | Some memrefs => OkValue (acc ++ memrefs)
           | None => NotOk (InternalError msg)
           end.
Proof.
  unfold INT_MAX.
  induction fuel as [| fuel IH]; intros i acc Hi Hbound Hlen Hfuel; [lia |].
  simpl. rewrite to_uint64_small by lia.
  destruct (Z.ltb_spec i bound) as [Hlt | Hge].
  - unfold RemainingArgs.get_strided. rewrite at_index_nonneg by lia.
    destruct (lookup_lt_is_Some_2 args (Z.to_nat i)) as [arg Harg]; [lia |].
    rewrite Harg, (drop_S _ _ _ Harg). simpl.
    replace (Z.to_nat (bound - i)) with (S (Z.to_nat (bound - (i + 1))))
      by lia.
    simpl. destruct (EncodedArg.as_strided arg) as [memref |];
      cbn [mbind option_bind]; [| done].
    destruct (Z.eqb_spec i INT_MAX) as [-> | _]; [unfold INT_MAX in *; lia |].
    rewrite IH by lia.
    replace (Z.to_nat (i + 1)) with (S (Z.to_nat i)) by lia.
    destruct (mapM EncodedArg.as_strided _) as [memrefs |];
      cbn [mbind option_bind mret option_ret]; [| done].
    by rewrite <- app_assoc.
  - replace (bound - i) with 0 by lia. simpl. by rewrite app_nil_r.
Qed.

(** A loop whose bound lies beyond the arguments ends with an error. *)
Lemma get_memrefs_beyond (msg : string) (args : RemainingArgs.t) (bound : Z)
    (fuel : nat) :
  forall (i : Z) (acc : list StridedMemrefView.t),
    0 <= i <= Z.of_nat (length args) ->
    Z.of_nat (length args) < bound ->
    Z.of_nat (length args) <= INT_MAX ->
    (length args - Z.to_nat i < fuel)%nat ->
    get_memrefs msg args bound fuel i acc = Some (NotOk (InternalError msg)).
Proof.
  unfold INT_MAX.
  induction fuel as [| fuel IH]; intros i acc Hi Hbound Hlen Hfuel; [lia |].
  simpl. rewrite to_uint64_small by lia.
  destruct (Z.ltb_spec i bound) as [_ | Hge]; [| lia].
  unfold RemainingArgs.get_strided. rewrite at_index_nonneg by lia.
  destruct (args !! Z.to_nat i) as [arg |] eqn:Harg;
    cbn [mbind option_bind]; [| done].
  apply lookup_lt_Some in Harg.
  destruct (EncodedArg.as_strided arg) as [memref |]; [| done].
  destruct (Z.eqb_spec i INT_MAX) as [-> | _]; [unfold INT_MAX in *; lia |].
  apply IH; lia.
Qed.

Section GraphBinding.
Context {World : Type} (env : Env World).

(** C4.  With [N] arguments and [n_aux_outputs] auxiliary outputs, the
    graph variant resolves the first [N - n_aux_outputs - 2] arguments as
    extra operands, the next [n_aux_outputs + 1] as outputs and the last
    one as the scratch buffer, and runs [DoConv] on them.  If an argument
    of a group does not resolve, or if there are fewer than
    [n_aux_outputs + 2] arguments, the call returns the internal error of
    the operands, of the outputs or of the scratch buffer and leaves the
    machine as it was. *)
Theorem graph_arguments_are_bound_by_position
    (kind : CudnnConvKind) (runner : State)
    (operand0 operand1 : StridedMemrefView.t)
    (args : RemainingArgs.t) (uid : Z)
    (conv_dims : ConvDimensionNumbers.t)
    (window_strides padding lhs_dilation rhs_dilation window_reversal
       : list Z)
    (backend_config : ConvBackendConfig.t)
    (feature_group_count : Z) (result_scale : double)
    (n_aux_outputs : Z) (serialized_graph : string) (m : Machine World) :
  0 <= n_aux_outputs <= INT_MAX ->
  Z.of_nat (length args) <= INT_MAX ->
  ConvGraphImpl env kind runner operand0 operand1 args uid conv_dims
    window_strides padding lhs_dilation rhs_dilation window_reversal
    backend_config feature_group_count result_scale n_aux_outputs
    serialized_graph m
  = match graph_binding_spec args n_aux_outputs with
    | OkValue (extra_operands, outputs, scratch) =>
        DoConv env kind runner operand0 operand1 None None outputs scratch
          uid conv_dims window_strides padding lhs_dilation rhs_dilation
          window_reversal backend_config feature_group_count result_scale
          None None None extra_operands (Some serialized_graph) m
    | NotOk e => Fail e m
    end /\
  (forall extra_operands outputs scratch,
     graph_binding_spec args n_aux_outputs
     = OkValue (extra_operands, outputs, scratch) ->
     Z.of_nat (length extra_operands)
     = Z.of_nat (length args) - n_aux_outputs - 2 /\
     Z.of_nat (length outputs) = n_aux_outputs + 1) /\
  (forall e,
     graph_binding_spec args n_aux_outputs = NotOk e ->
     e = operand_error \/ e = output_error \/ e = scratch_error) /\
  (Z.of_nat (length args) < n_aux_outputs + 2 ->
   graph_binding_spec args n_aux_outputs = NotOk operand_error).
Proof.
  intros Haux Hlen. unfold INT_MAX in *.
  set (N := Z.of_nat (length args)) in *.
  split; [| split; [| split]].
  - unfold ConvGraphImpl, graph_binding_spec, RemainingArgs.size.
    fold N. destruct (Z.ltb_spec N (n_aux_outputs + 2)) as [Hshort | Hlong].
    + rewrite get_memrefs_beyond; [done | | | done |]; fold N;
        unfold to_uint64, INT_MAX; try lia.
      rewrite <- (Z.mod_add _ 1) by lia. rewrite Z.mod_small; lia.
    + rewrite (to_uint64_small (N - n_aux_outputs - 2)) by lia.
      rewrite (to_uint64_small (N - 1)) by lia.
      rewrite to_int32_small by (unfold INT_MAX; lia).
      rewrite get_memrefs_within; fold N; unfold INT_MAX; try lia.
      rewrite Z.sub_0_r. change (Z.to_nat 0) with 0%nat. rewrite drop_0.
      destruct (mapM EncodedArg.as_strided
                  (take (Z.to_nat (N - n_aux_outputs - 2)) args))
        as [extra_operands |]; [| done].
      rewrite get_memrefs_within; fold N; unfold INT_MAX; try lia.
      replace (N - 1 - (N - n_aux_outputs - 2)) with (n_aux_outputs + 1)
        by lia.
      destruct (mapM EncodedArg.as_strided _) as [outputs |]; [| done].
      unfold RemainingArgs.get_flat. rewrite at_index_nonneg by lia.
      rewrite last_lookup.
      replace (Z.to_nat (N - 1)) with (pred (length args)) by lia.
      simpl. by destruct (_ ≫= EncodedArg.as_flat).
  - intros extra_operands outputs scratch. unfold graph_binding_spec.
    fold N. destruct (Z.ltb_spec N (n_aux_outputs + 2)); [done |].
    destruct (mapM EncodedArg.as_strided
                (take (Z.to_nat (N - n_aux_outputs - 2)) args))
      as [ops |] eqn:Hops; [| done].
    destruct (mapM EncodedArg.as_strided
                (take (Z.to_nat (n_aux_outputs + 1))
                   (drop (Z.to_nat (N - n_aux_outputs - 2)) args)))
      as [outs |] eqn:Houts; [| done].
    destruct (last args ≫= EncodedArg.as_flat); [| done].
    intros [= <- <- <-].
    apply mapM_Some, Forall2_length in Hops, Houts.
    rewrite length_take in Hops. rewrite length_take, length_drop in Houts.
    lia.
  - intros e. unfold graph_binding_spec. fold N.
    destruct (N <? n_aux_outputs + 2); [intros [= <-]; auto |].
    destruct (mapM EncodedArg.as_strided (take _ args));
      [| intros [= <-]; auto].
    destruct (mapM EncodedArg.as_strided (take _ (drop _ args)));
      [| intros [= <-]; auto].
    destruct (last args ≫= EncodedArg.as_flat); [done |].
    intros [= <-]; auto.
  - intros Hshort. unfold graph_binding_spec. fold N.
    by destruct (Z.ltb_spec N (n_aux_outputs + 2)); [| lia].
Qed.

End GraphBinding.

Lemma graph_arguments_are_bound_by_position_witness :
  ConvGraphImpl (Example.env true true None 4096) kForwardGraph 42
    Example.input Example.kernel Example.graph_args 42 Example.conv_dims
    [1; 1] [0; 0] [1; 1] [1; 1] [0; 0] (Example.backend 3 (-1)) 1 0 2
    "graph" Example.start
  = DoConv (Example.env true true None 4096) kForwardGraph 42
      Example.input Example.kernel None None
      [Example.output; Example.output; Example.output] Example.scratch 42
      Example.conv_dims [1; 1] [0; 0] [1; 1] [1; 1] [0; 0]
      (Example.backend 3 (-1)) 1 0 None None None
      [Example.input; Example.kernel; Example.kernel] (Some "graph")
      Example.start.
Proof.
  refine (proj1 (graph_arguments_are_bound_by_position
                   (Example.env true true None 4096) kForwardGraph 42
                   Example.input Example.kernel Example.graph_args 42
                   Example.conv_dims [1; 1] [0; 0] [1; 1] [1; 1] [0; 0]
                   (Example.backend 3 (-1)) 1 0 2 "graph" Example.start
                   _ _));
    unfold INT_MAX; simpl; lia.
Defined.

(** Three arguments are too few for two auxiliary outputs. *)
Example graph_arguments_shortfall :
  ConvGraphImpl (Example.env true true None 4096) kForwardGraph 42
    Example.input Example.kernel
    [Example.strided_arg Example.output; Example.strided_arg Example.output;
     Example.flat_arg Example.scratch]
    42 Example.conv_dims [1; 1] [0; 0] [1; 1] [1; 1] [0; 0]
    (Example.backend 3 (-1)) 1 0 2 "graph" Example.start
  = Fail operand_error Example.start.
Proof. vm_compute. reflexivity. Qed.

(** * Further properties of the code *)

(** ** The tuning knobs of a descriptor *)

Lemma knob_inserts_union (l : list (Z * Z)) (m : gmap Z Z) :
  foldl (fun acc kv => knob_insert kv.1 kv.2 acc) m l = m ∪ list_to_map l.
Proof.
  revert m. induction l as [| [k v] l IH]; intros m; simpl.
  - by rewrite (right_id_L ∅ (∪)).
  - rewrite IH. apply map_eq. intros i. unfold knob_insert.
    rewrite !lookup_union.
    destruct (m !! k) as [v0 |] eqn:Hk.
    + destruct (decide (k = i)) as [<- | Hne].
      * rewrite Hk, lookup_insert_eq. by destruct (list_to_map l !! k).
      * by rewrite lookup_insert_ne.
    + destruct (decide (k = i)) as [<- | Hne].
      * rewrite !lookup_insert_eq, Hk. by destruct (list_to_map l !! k).
      * by rewrite !lookup_insert_ne.
Qed.

(** The knob loop after [k] iterations. *)
Lemma knob_loop_prefix (ids vals : list Z) (k : nat) :
  (k <= length ids)%nat ->
  foldl (fun acc i =>
           m ← acc;
           id ← at_index ids i;
           v ← at_index vals i;
           Some (knob_insert id v m))
        (Some ∅) (seqZ 0 (Z.of_nat k))
  = if decide (k <= length vals)%nat
    then Some (foldl (fun acc kv => knob_insert kv.1 kv.2 acc) ∅
                 (zip (take k ids) (take k vals)))
    else None.
Proof.
  induction k as [| k IH]; intros Hk.
  - destruct (decide (0 <= length vals)%nat); [done | lia].
  - rewrite seqZ_S, foldl_snoc, IH by lia. rewrite Z.add_0_l.
    rewrite !at_index_lookup.
    destruct (lookup_lt_is_Some_2 ids k) as [id Hid]; [lia |].
    destruct (decide (S k <= length vals)%nat) as [Hle | Hgt].
    + rewrite decide_True by lia. cbn [mbind option_bind].
      destruct (lookup_lt_is_Some_2 vals k) as [v Hv]; [lia |].
      rewrite Hid, Hv. cbn [mbind option_bind].
      rewrite (take_S_r _ _ _ Hid), (take_S_r _ _ _ Hv).
      rewrite zip_with_app by (rewrite !length_take; lia).
      change (zip_with pair [id] [v]) with [(id, v)].
      by rewrite foldl_snoc.
    + destruct (decide (k <= length vals)%nat) as [Hle' | Hgt'];
        cbn [mbind option_bind]; [| done].
      rewrite Hid. cbn [mbind option_bind].
      by rewrite (lookup_ge_None_2 vals k) by lia.
Qed.

Lemma build_knobs_result (b : ConvBackendConfig.t) (knobs : gmap Z Z) :
  build_knobs b = Some knobs ->
  (length (ConvBackendConfig.knob_ids b)
   <= length (ConvBackendConfig.knob_values b))%nat /\
  knobs = list_to_map (zip (ConvBackendConfig.knob_ids b)
                         (ConvBackendConfig.knob_values b)).
Proof.
  unfold build_knobs.
  destruct (2 ^ 32 <=? Z.of_nat (length (ConvBackendConfig.knob_ids b)));
    [done |].
  rewrite knob_loop_prefix by lia.
  destruct (decide _) as [Hle | _]; [| done].
  intros [= <-]. split; [done |].
  rewrite knob_inserts_union, (left_id_L ∅ (∪)).
  rewrite take_ge by lia. by rewrite zip_with_take_r.
Qed.

Lemma list_to_map_first_entry (l : list (Z * Z)) (i : nat) (k v : Z) :
  l !! i = Some (k, v) ->
  (forall j v', (j < i)%nat -> l !! j <> Some (k, v')) ->
  (list_to_map l : gmap Z Z) !! k = Some v.
Proof.
  revert i. induction l as [| [k0 v0] l IH]; intros i Hi Hfirst; [done |].
  rewrite list_to_map_cons. destruct i as [| i]; simpl in Hi.
  - injection Hi as -> ->. apply lookup_insert_eq.
  - assert (k0 <> k).
    { intros ->. by apply (Hfirst 0%nat v0); [lia |]. }
    rewrite lookup_insert_ne by done. apply (IH i Hi).
    intros j v' Hj. apply (Hfirst (S j) v'). lia.
Qed.

(** X1.  The tuning knobs of a built descriptor pair each knob id with the
    knob value at the same index; when an id occurs more than once, the
    value at its first occurrence is the one that is kept, and an id that
    does not occur has no knob. *)
Theorem tuning_knobs_keep_first_value
    (kind : CudnnConvKind) (operand0 operand1 output : StridedMemrefView.t)
    (scratch : FlatMemrefView.t) (dims : ConvDimensionNumbers.t)
    (w : Window.t) (b : ConvBackendConfig.t) (attrs : ConvAttrs.t)
    (fused : option FusedConvAttrs.t) (side_input : option SideInputAttrs.t)
    (leakyrelu_alpha : option LeakyReluAlphaAttrs.t)
    (d : GpuConvDescriptor.t) :
  GetConvDescriptor kind operand0 operand1 output scratch dims w b attrs
    fused side_input leakyrelu_alpha = Some d ->
  let knobs :=
    AlgorithmProto.tuning_knobs
      (CudnnConvBackendConfig.algorithm
         (GpuConvDescriptor.backend_config d)) in
  knobs = list_to_map (zip (ConvBackendConfig.knob_ids b)
                         (ConvBackendConfig.knob_values b)) /\
  (forall i id v,
     ConvBackendConfig.knob_ids b !! i = Some id ->
     ConvBackendConfig.knob_values b !! i = Some v ->
     (forall j, (j < i)%nat -> ConvBackendConfig.knob_ids b !! j <> Some id) ->
     knobs !! id = Some v) /\
  (forall id, id ∉ ConvBackendConfig.knob_ids b -> knobs !! id = None).
Proof.
  intros Hd knobs. subst knobs.
  apply GetConvDescriptor_fields in Hd as (_ & knobs & Hknobs & ->).
  apply build_knobs_result in Hknobs as [Hlen ->].
  unfold make_algorithm. simpl. split; [done |]. split.
  - intros i id v Hid Hv Hfirst.
    apply (list_to_map_first_entry _ i).
    + apply lookup_zip_with_Some. eauto.
    + intros j v' Hj Hz. apply lookup_zip_with_Some in Hz
        as (x & y & [= <- <-] & Hx & _).
      by apply (Hfirst j).
  - intros id Hid. apply not_elem_of_list_to_map_1.
    intros Hin. apply Hid. rewrite fst_zip in Hin by done. done.
Qed.

Lemma tuning_knobs_keep_first_value_witness :
  exists d,
    GetConvDescriptor kForward Example.input Example.kernel Example.output
      Example.scratch Example.conv_dims Example.window
      Example.repeated_knobs (ConvAttrs.mk 1 0) None None None = Some d /\
    AlgorithmProto.tuning_knobs
      (CudnnConvBackendConfig.algorithm (GpuConvDescriptor.backend_config d))
    !! 5 = Some 1.
Proof.
  assert (H : exists d,
            GetConvDescriptor kForward Example.input Example.kernel
              Example.output Example.scratch Example.conv_dims
              Example.window Example.repeated_knobs (ConvAttrs.mk 1 0)
              None None None = Some d).
  { eexists. vm_compute. reflexivity. }
  destruct H as [d H]. exists d. split; [exact H |].
  refine (proj1 (proj2 (tuning_knobs_keep_first_value _ _ _ _ _ _ _ _ _ _ _
                          _ _ H)) 0%nat 5 1 eq_refl eq_refl _).
  intros j Hj. lia.
Defined.

(** ** What a built descriptor says about the spans *)

Lemma window_dimension_reads (operand0_shape : Shape.t)
    (dnums : ConvolutionDimensionNumbers.t) (w : Window.t) (i : nat) :
  is_Some (window_dimension operand0_shape dnums w (Z.of_nat i)) ->
  (i < length (Window.window_strides w))%nat /\
  (i < length (Window.padding w))%nat /\
  (i < length (Window.lhs_dilation w))%nat /\
  (i < length (Window.rhs_dilation w))%nat /\
  (i < length (Window.window_reversal w))%nat /\
  exists kd,
    ConvolutionDimensionNumbers.kernel_spatial_dimensions dnums !! i
    = Some kd /\
    0 <= to_int32 kd
    < Z.of_nat (length (Shape.dimensions operand0_shape)).
Proof.
  unfold window_dimension. rewrite !at_index_lookup. intros [wd Hwd].
  destruct (ConvolutionDimensionNumbers.kernel_spatial_dimensions dnums !! i)
    as [kd |] eqn:Hkd; [| done].
  cbn [mbind option_bind] in Hwd.
  destruct (at_index (Shape.dimensions operand0_shape) (to_int32 kd))
    as [size |] eqn:Hsize; [| done].
  cbn [mbind option_bind] in Hwd.
  destruct (Window.window_strides w !! i) eqn:H1; [| done].
  destruct (Window.padding w !! i) eqn:H2; [| done].
  destruct (Window.lhs_dilation w !! i) eqn:H3; [| done].
  destruct (Window.rhs_dilation w !! i) eqn:H4; [| done].
  destruct (Window.window_reversal w !! i) eqn:H5; [| done].
  apply lookup_lt_Some in H1, H2, H3, H4, H5.
  repeat (split; [done |]). exists kd. split; [done |].
  unfold at_index in Hsize.
  destruct (Z.ltb_spec (to_int32 kd) 0); [done |].
  apply lookup_lt_Some in Hsize. lia.
Qed.

Lemma length_from_indices (n len : nat) :
  (forall i, (i < n)%nat -> (i < len)%nat) -> (n <= len)%nat.
Proof.
  intros H. destruct n as [| n]; [lia |]. specialize (H n). lia.
Qed.

(** X2.  A descriptor is built only from spans that the loops can read: if
    [GetConvDescriptor] yields a descriptor, with a [window_strides] whose
    length fits the [int] counter, then [padding], [lhs_dilation],
    [rhs_dilation], [window_reversal] and the kernel spatial dimensions are
    at least as long as [window_strides], every kernel spatial dimension
    that is read names, as an [int], an axis of operand0, and there are at
    least as many knob values as knob ids. *)
Theorem built_descriptor_spans_in_bounds
    (kind : CudnnConvKind) (operand0 operand1 output : StridedMemrefView.t)
    (scratch : FlatMemrefView.t) (dims : ConvDimensionNumbers.t)
    (w : Window.t) (b : ConvBackendConfig.t) (attrs : ConvAttrs.t)
    (fused : option FusedConvAttrs.t) (side_input : option SideInputAttrs.t)
    (leakyrelu_alpha : option LeakyReluAlphaAttrs.t)
    (d : GpuConvDescriptor.t) :
  GetConvDescriptor kind operand0 operand1 output scratch dims w b attrs
    fused side_input leakyrelu_alpha = Some d ->
  Z.of_nat (length (Window.window_strides w)) <= INT_MAX ->
  let n := length (Window.window_strides w) in
  (n <= length (Window.padding w))%nat /\
  (n <= length (Window.lhs_dilation w))%nat /\
  (n <= length (Window.rhs_dilation w))%nat /\
  (n <= length (Window.window_reversal w))%nat /\
  (n <= length (ConvDimensionNumbers.kernel_spatial_dims dims))%nat /\
  Forall (fun kd =>
            0 <= to_int32 kd
            < Z.of_nat (length (StridedMemrefView.sizes operand0)))
    (take n (ConvDimensionNumbers.kernel_spatial_dims dims)) /\
  (length (ConvBackendConfig.knob_ids b)
   <= length (ConvBackendConfig.knob_values b))%nat.
Proof.
  intros Hd Hfit n.
  apply GetConvDescriptor_fields in Hd as (Hw & knobs & Hk & _).
  apply build_knobs_result in Hk as [Hk _].
  unfold build_window in Hw. fold n in Hw.
  rewrite to_int32_small in Hw by (unfold INT_MAX in *; lia).
  destruct (Z.ltb_spec (Z.of_nat n) 0); [lia |].
  assert (Hall : forall i, (i < n)%nat ->
            is_Some (window_dimension
                       (apply_layout operand0
                          (ConvBackendConfig.operand_0_layout b))
                       (make_dnums dims) w (Z.of_nat i))).
  { intros i Hi.
    assert (Hsome : is_Some (mapM (window_dimension
                       (apply_layout operand0
                          (ConvBackendConfig.operand_0_layout b))
                       (make_dnums dims) w) (seqZ 0 (Z.of_nat n))))
      by (rewrite Hw; eauto).
    apply mapM_is_Some in Hsome. rewrite Forall_forall in Hsome.
    apply (Hsome (Z.of_nat i)). apply elem_of_seqZ. lia. }
  assert (Hreads := fun i Hi => window_dimension_reads _ _ _ i (Hall i Hi)).
  rewrite make_dnums_kernel_spatial in Hreads.
  repeat split.
  - apply length_from_indices. intros i Hi. by apply Hreads.
  - apply length_from_indices. intros i Hi. by apply Hreads.
  - apply length_from_indices. intros i Hi. by apply Hreads.
  - apply length_from_indices. intros i Hi. by apply Hreads.
  - apply length_from_indices. intros i Hi.
    destruct (Hreads i Hi) as (_ & _ & _ & _ & _ & kd & Hkd & _).
    by apply lookup_lt_Some in Hkd.
  - apply Forall_lookup. intros i kd Hkd.
    assert (Hi : (i < n)%nat).
    { apply lookup_lt_Some in Hkd. rewrite length_take in Hkd. lia. }
    rewrite lookup_take_lt in Hkd by done.
    destruct (Hreads i Hi) as (_ & _ & _ & _ & _ & kd' & Hkd' & Hrange).
    rewrite Hkd in Hkd'. by injection Hkd' as <-.
  - done.
Qed.

Lemma built_descriptor_spans_in_bounds_witness :
  (length (Window.window_strides Example.window)
   <= length (Window.padding Example.window))%nat.
Proof.
  assert (H : exists d,
            GetConvDescriptor kForward Example.input Example.kernel
              Example.output Example.scratch Example.conv_dims
              Example.window Example.repeated_knobs (ConvAttrs.mk 1 0)
              None None None = Some d).
  { eexists. vm_compute. reflexivity. }
  destruct H as [d H].
  refine (proj1 (built_descriptor_spans_in_bounds _ _ _ _ _ _ _ _ _ _ _ _ _
                   H _)).
  unfold INT_MAX. simpl. lia.
Defined.

(** ** A call, step by step *)

Lemma to_uint64_to_int64 (z : Z) : to_uint64 (to_int64 (to_uint64 z))
                                   = to_uint64 z.
Proof.
  pose proof (to_uint64_range z) as Hr. unfold to_int64.
  set (u := to_uint64 z) in *. unfold to_uint64.
  destruct (Z_lt_le_dec u (2 ^ 63)).
  - rewrite (Z.mod_small (u + 2 ^ 63)) by lia.
    rewrite Z.mod_small; lia.
  - replace (u + 2 ^ 63) with (u - 2 ^ 63 + 1 * 2 ^ 64) by lia.
    rewrite Z.mod_add by lia. rewrite (Z.mod_small (u - 2 ^ 63)) by lia.
    replace (u - 2 ^ 63 - 2 ^ 63) with (u + (-1) * 2 ^ 64) by lia.
    rewrite Z.mod_add by lia. rewrite Z.mod_small; lia.
Qed.

Section MoreSteps.
Context {World : Type} (env : Env World).

Section OneCall.
Variables
  (kind : CudnnConvKind) (runner : State)
  (operand0 operand1 : StridedMemrefView.t)
  (bias : option FlatMemrefView.t)
  (side_input : option StridedMemrefView.t)
  (outputs : list StridedMemrefView.t) (scratch : FlatMemrefView.t)
  (uid : Z) (conv_dims : ConvDimensionNumbers.t)
  (window_strides padding lhs_dilation rhs_dilation window_reversal
     : list Z)
  (backend_config : ConvBackendConfig.t) (feature_group_count : Z)
  (result_scale : double) (activation_mode : option ActivationMode)
  (side_input_scale leakyrelu_alpha : option double)
  (extra_operands : list StridedMemrefView.t)
  (serialized_graph : option string).

Let do_conv : M World unit :=
  DoConv env kind runner operand0 operand1 bias side_input outputs
    scratch uid conv_dims window_strides padding lhs_dilation rhs_dilation
    window_reversal backend_config feature_group_count result_scale
    activation_mode side_input_scale leakyrelu_alpha extra_operands
    serialized_graph.

Let buffers : list DeviceMemoryBase.t :=
  operand_buffers env operand0 operand1 bias side_input extra_operands.

Let results : list DeviceMemoryBase.t := GetDeviceAddress env <$> outputs.

Let scratch_buffer : DeviceMemoryBase.t := GetDeviceAddress_flat scratch.

Let descriptor : option GpuConvDescriptor.t :=
  call_descriptor kind operand0 operand1 outputs scratch conv_dims
    window_strides padding lhs_dilation rhs_dilation window_reversal
    backend_config feature_group_count result_scale activation_mode
    side_input_scale leakyrelu_alpha serialized_graph.

(** The call once it holds the plan [conv] in the machine [m1]. *)
Let with_plan (conv : ConvRunner.t) (m1 : Machine World)
    : outcome World unit :=
  if ConvBackendConfig.algorithm backend_config =? -1 then
    if GOOGLE_CUDA env then
      let '(r, w) :=
        PickBestAlgorithmWithAllocatedBuffer env (ConvRunner.config conv)
          buffers results (world m1) in
      let tr := trace m1 ++ [EvPickBestAlgorithm (ConvRunner.config conv)
                               buffers results] in
      match r with
      | OkValue best_algo =>
          DoConv_execute env runner (tuned_runner best_algo conv) buffers
            results scratch_buffer (AutotuneResult.scratch_bytes best_algo)
            (mkMachine (<[runner := tuned_runner best_algo conv]> (runners m1))
               w tr)
      | NotOk e => Fail e (mkMachine (runners m1) w tr)
      end
    else Fail autotune_error m1
  else
    DoConv_execute env runner conv buffers results scratch_buffer
      (to_int64 (DeviceMemoryBase.size scratch_buffer)) m1.

Lemma DoConv_unfold (m : Machine World) :
  do_conv m =
  match runners m !! runner with
  | Some conv => with_plan conv m
  | None =>
      match descriptor with
      | None => Undef
      | Some d =>
          let tr := trace m ++ [EvGetGpuConvConfig d] in
          match GetGpuConvConfig env d with
          | OkValue cfg =>
              with_plan (new_ConvRunner cfg)
                (mkMachine (<[runner := new_ConvRunner cfg]> (runners m))
                   (world m) tr)
          | NotOk e => Fail e (mkMachine (runners m) (world m) tr)
          end
      end
  end.
Proof.
  subst do_conv with_plan descriptor buffers results scratch_buffer.
  unfold DoConv, DoConv_prepare, call_descriptor, operand_buffers,
    tuned_runner, pin_algorithm, autotune, GetOrCreate, create_runner.
  destruct (ConvBackendConfig.algorithm backend_config =? -1) eqn:Hs;
    cbn [fst snd];
    (destruct (runners m !! runner) as [conv |] eqn:Hslot;
     [| destruct outputs as [| output0 outs];
        [| change (at_index (output0 :: outs) 0) with (Some output0);
           cbn [mbind option_bind];
           destruct (GetConvDescriptor kind operand0 operand1 output0 scratch
                       conv_dims _ _ _ _ _ _) as [d |]]]);
    unfold_monad; cbn [mbind option_bind]; rewrite ?Hslot; try done.
  all: try (destruct (GetGpuConvConfig env _) as [cfg | e]; simpl; try done).
  all: try (destruct (GOOGLE_CUDA env); simpl; try done).
  all: try (destruct (PickBestAlgorithmWithAllocatedBuffer env _ _ _ _)
              as [[best | e] w]; simpl; try done).
Qed.


(** Every way a call can go: the plan is cached, built or refused; the
    search is skipped, unavailable, refused or made; the scratch buffer is
    kept or replaced; the primitive and the stream report. *)
Ltac explore_call m Hfinal :=
  rewrite (DoConv_unfold m) in Hfinal; subst with_plan; cbv beta zeta in Hfinal;
  destruct (runners m !! runner) as [conv0 |] eqn:Hslot;
  [| destruct descriptor as [d0 |] eqn:Hdesc;
     [cbv beta zeta in Hfinal;
      destruct (GetGpuConvConfig env d0) as [cfg0 | e0] eqn:Hcfg |]];
  cbv beta zeta in Hfinal;
  try (destruct (ConvBackendConfig.algorithm backend_config =? -1) eqn:Hs;
       [destruct (GOOGLE_CUDA env) eqn:Hcuda;
        [match type of Hfinal with
         | context [PickBestAlgorithmWithAllocatedBuffer env ?c ?b ?r ?w] =>
             destruct (PickBestAlgorithmWithAllocatedBuffer env c b r w)
               as [[best | epick] wpick] eqn:Hpick
         end |] |]);
  try rewrite DoConv_execute_eq in Hfinal;
  try (match type of Hfinal with
       | context [if ?s <? ?b then _ else _] =>
           destruct (s <? b) eqn:Hgrow;
           [match type of Hfinal with
            | context [Allocate env ?o ?n ?w] =>
                destruct (Allocate env o n w) as [[p | ealloc] walloc]
                  eqn:Halloc
            end |]
       end);
  cbv beta zeta in Hfinal;
  try rewrite run_conv_eq in Hfinal;
  try (match type of Hfinal with
       | context [RunGpuConv env ?c ?b ?r ?s ?k ?w] =>
           destruct (RunGpuConv env c b r s k w)
             as [[[erun |] cache] wrun] eqn:Hrun;
           [| destruct (stream_ok env wrun) eqn:Hstream]
       end);
  cbn [world runners trace ConvRunner.config ConvRunner.runner] in *.

(** X3.  On a call site that has a plan, a call with an explicit algorithm
    does one thing, whatever its attributes and spans are: it runs the
    primitive once, with the cached configuration, the buffers of the call
    and the scratch buffer of the caller.  No descriptor is built, nothing
    is searched or allocated, and the status is that of the primitive and
    the stream. *)
Theorem built_call_site_only_runs (m : Machine World) (conv : ConvRunner.t) :
  runners m !! runner = Some conv ->
  ConvBackendConfig.algorithm backend_config <> -1 ->
  exists status cache w,
    RunGpuConv env (ConvRunner.config conv) buffers results scratch_buffer
      (ConvRunner.runner conv) (world m) = (status, cache, w) /\
    final (do_conv m)
    = Some (mkMachine
              (<[runner := ConvRunner.mk (ConvRunner.config conv) cache]>
                 (runners m))
              w
              (trace m ++ [EvRunGpuConv (ConvRunner.config conv) buffers
                             results scratch_buffer status])) /\
    status_of (do_conv m)
    = Some match status with
           | Some e => Some e
           | None => if stream_ok env w then None else Some stream_error
           end.
Proof.
  intros Hslot Hexplicit.
  rewrite DoConv_unfold, Hslot. subst with_plan. cbv beta zeta.
  destruct (Z.eqb_spec (ConvBackendConfig.algorithm backend_config) (-1));
    [done |].
  rewrite DoConv_execute_eq.
  assert (Hsize : (DeviceMemoryBase.size scratch_buffer
                   <? to_uint64
                        (to_int64 (DeviceMemoryBase.size scratch_buffer)))
                  = false).
  { subst scratch_buffer. unfold GetDeviceAddress_flat. simpl.
    rewrite to_uint64_to_int64. apply Z.ltb_irrefl. }
  rewrite Hsize, run_conv_eq.
  destruct (RunGpuConv env (ConvRunner.config conv) buffers results
              scratch_buffer (ConvRunner.runner conv) (world m))
    as [[[e |] cache] w]; [| destruct (stream_ok env w) eqn:Hok];
    do 3 eexists; (split; [reflexivity |]); simpl; by rewrite ?Hok.
Qed.

Lemma caller_scratch_is_enough :
  (DeviceMemoryBase.size scratch_buffer
   <? to_uint64 (to_int64 (DeviceMemoryBase.size scratch_buffer))) = false.
Proof.
  subst scratch_buffer. unfold GetDeviceAddress_flat. simpl.
  rewrite to_uint64_to_int64. apply Z.ltb_irrefl.
Qed.

(** X4.  A call with an explicit algorithm never asks the allocator for
    memory: whatever workspace size the backend config declares, the
    primitive, if it runs, runs with the scratch buffer of the caller. *)
Theorem explicit_algorithm_keeps_caller_scratch (m m' : Machine World) :
  ConvBackendConfig.algorithm backend_config <> -1 ->
  final (do_conv m) = Some m' ->
  exists delta,
    trace m' = trace m ++ delta /\
    allocations delta = [] /\
    (forall c b r s reported,
       EvRunGpuConv c b r s reported ∈ delta -> s = scratch_buffer).
Proof.
  intros Hexplicit Hfinal.
  pose proof caller_scratch_is_enough as Hsize.
  explore_call m Hfinal; try discriminate Hfinal;
    try (apply Z.eqb_eq in Hs; contradiction);
    try congruence;
    injection Hfinal as <-; simpl;
    rewrite <- ?app_assoc;
    (eexists; split; [reflexivity |]; split; [done |]);
    intros c b r s reported Hin; elem_cases Hin; by injection Hin.
Qed.

Ltac elem_find :=
  repeat first [apply list_elem_of_here | apply list_elem_of_further].

(** X5.  In a call with the sentinel, the primitive runs only after this
    call's search has succeeded, and it runs with the configuration that
    was given to the picker, in which the algorithm is replaced by the one
    the picker chose; that configuration is the one the call site keeps. *)
Theorem tuned_call_runs_with_selected_algorithm (m m' : Machine World) :
  ConvBackendConfig.algorithm backend_config = -1 ->
  final (do_conv m) = Some m' ->
  exists delta,
    trace m' = trace m ++ delta /\
    forall c b r s reported,
      EvRunGpuConv c b r s reported ∈ delta ->
      exists c0 best_algo w cache,
        EvPickBestAlgorithm c0 buffers results ∈ delta /\
        PickBestAlgorithmWithAllocatedBuffer env c0 buffers results (world m)
        = (OkValue best_algo, w) /\
        c = GpuConvConfig.set_algorithm
              (AlgorithmDesc (AutotuneResult.conv_algorithm best_algo)
                 (AutotuneResult.conv_tensor_ops_enabled best_algo)) c0 /\
        runners m' !! runner = Some (ConvRunner.mk c cache).
Proof.
  intros Hsentinel Hfinal.
  explore_call m Hfinal; try discriminate Hfinal;
    try (apply Z.eqb_neq in Hs; contradiction);
    injection Hfinal as <-; simpl;
    rewrite <- ?app_assoc;
    (eexists; split; [first [reflexivity | symmetry; apply app_nil_r] |]);
    intros c b r s reported Hin; elem_cases Hin;
    injection Hin as -> -> -> -> ->;
    do 4 eexists;
    (split; [elem_find |]); (split; [exact Hpick |]);
    (split; [reflexivity |]); simpl; apply lookup_insert_eq.
Qed.

(** X6.  If the picker reports an error, the call returns that error at
    once: nothing is allocated, the primitive is not run, and the call site
    keeps the configuration that was given to the picker. *)
Theorem search_error_ends_the_call (m m' : Machine World) :
  final (do_conv m) = Some m' ->
  exists delta,
    trace m' = trace m ++ delta /\
    forall c b r e w,
      EvPickBestAlgorithm c b r ∈ delta ->
      PickBestAlgorithmWithAllocatedBuffer env c b r (world m)
      = (NotOk e, w) ->
      do_conv m = Fail e m' /\
      world m' = w /\
      allocations delta = [] /\
      scratch_used delta = [] /\
      exists conv, runners m' !! runner = Some conv /\
                   ConvRunner.config conv = c.
Proof.
  intros Hfinal. remember (do_conv m) as out eqn:Hout.
  explore_call m Hout; subst out; try discriminate Hfinal;
    injection Hfinal as <-; simpl;
    rewrite <- ?app_assoc;
    (eexists; split; [first [reflexivity | symmetry; apply app_nil_r] |]);
    intros c b r e w Hin Herr; elem_cases Hin;
    injection Hin as -> -> ->;
    pose proof (eq_trans (eq_sym Hpick) Herr) as Heq;
    try discriminate Heq; injection Heq as -> ->;
    repeat split; eauto;
    eexists; split; [apply lookup_insert_eq | done].
Qed.


(** X7.  [DoConv] makes two errors of its own, the one for a search without
    CUDA and the one for a stream that is not ok; every other error that a
    call returns is the error that one of its capabilities reported. *)
Theorem errors_are_passed_on (m m' : Machine World) (e : Status) :
  do_conv m = Fail e m' ->
  (e = autotune_error /\
   ConvBackendConfig.algorithm backend_config = -1 /\
   GOOGLE_CUDA env = false) \/
  (e = stream_error /\ stream_ok env (world m') = false) \/
  (exists d, descriptor = Some d /\ GetGpuConvConfig env d = NotOk e) \/
  (exists c w,
     PickBestAlgorithmWithAllocatedBuffer env c buffers results (world m)
     = (NotOk e, w)) \/
  (exists bytes w w',
     Allocate env (device_ordinal env) bytes w = (NotOk e, w')) \/
  (exists c s k w k',
     RunGpuConv env c buffers results s k w = (Some e, k', world m')).
Proof.
  intros Hcall. symmetry in Hcall.
  explore_call m Hcall; try discriminate Hcall;
    injection Hcall as -> ->; simpl.
  all: try (left; split; [done | split; [by apply Z.eqb_eq | done]]).
  all: try (right; left; split; [reflexivity | done]).
  all: try (right; right; left; eauto; fail).
  all: try (right; right; right; left; eauto; fail).
  all: try (right; right; right; right; left; eauto; fail).
  all: right; right; right; right; right; eauto 10.
Qed.

(** X8.  The buffers that a call hands to the picker and to the primitive
    are the two operands followed by the bias, the side input and the extra
    operands that the call has, in this order, and the result buffers are
    the outputs in their order. *)
Theorem operands_and_results_in_order (m m' : Machine World) :
  final (do_conv m) = Some m' ->
  exists delta,
    trace m' = trace m ++ delta /\
    (forall c b r,
       EvPickBestAlgorithm c b r ∈ delta -> b = buffers /\ r = results) /\
    (forall c b r s reported,
       EvRunGpuConv c b r s reported ∈ delta ->
       b = buffers /\ r = results).
Proof.
  intros Hfinal.
  explore_call m Hfinal; try discriminate Hfinal;
    injection Hfinal as <-; simpl;
    rewrite <- ?app_assoc;
    (eexists; split; [first [reflexivity | symmetry; apply app_nil_r] |]);
    (split; [intros c b r Hin | intros c b r s reported Hin]);
    elem_cases Hin; by injection Hin.
Qed.

(** X9.  A call changes the plans of no other call site, and it never
    removes or rebuilds the plan of its own: the descriptor part of a
    cached configuration stays as it was built, and with an explicit
    algorithm the whole configuration does. *)
Theorem call_keeps_the_plans (m m' : Machine World) :
  final (do_conv m) = Some m' ->
  (forall uid', uid' <> runner -> runners m' !! uid' = runners m !! uid') /\
  (forall conv,
     runners m !! runner = Some conv ->
     exists conv',
       runners m' !! runner = Some conv' /\
       GpuConvConfig.descriptor (ConvRunner.config conv')
       = GpuConvConfig.descriptor (ConvRunner.config conv) /\
       (ConvBackendConfig.algorithm backend_config <> -1 ->
        ConvRunner.config conv' = ConvRunner.config conv)).
Proof.
  intros Hfinal.
  explore_call m Hfinal; try discriminate Hfinal;
    injection Hfinal as <-; simpl;
    (split;
     [intros uid' Hne; by rewrite ?lookup_insert_ne
     | intros conv [= <-]; eexists;
       (split; [first [apply lookup_insert_eq | exact Hslot] |]);
       (split; [done |]);
       intros Hexplicit; first [done | by apply Z.eqb_eq in Hs]]).
Qed.

(** X10.  A build that [GetGpuConvConfig] refuses installs no plan: the
    call returns the error and leaves the call site without a plan, so
    that each of [n] invocations builds the descriptor again and none of
    them searches, allocates or runs. *)
Theorem refused_build_is_retried
    (m : Machine World) (d : GpuConvDescriptor.t) (e : Status) (n : nat) :
  runners m !! runner = None ->
  descriptor = Some d ->
  GetGpuConvConfig env d = NotOk e ->
  do_conv m
  = Fail e (mkMachine (runners m) (world m)
              (trace m ++ [EvGetGpuConvConfig d])) /\
  invocations n do_conv m
  = Some (mkMachine (runners m) (world m)
            (trace m ++ replicate n (EvGetGpuConvConfig d))).
Proof.
  intros Hslot Hdesc Hcfg.
  assert (Hone : forall m0, runners m0 !! runner = None ->
            do_conv m0
            = Fail e (mkMachine (runners m0) (world m0)
                        (trace m0 ++ [EvGetGpuConvConfig d]))).
  { intros m0 H0. rewrite DoConv_unfold, H0, Hdesc. cbv beta zeta.
    by rewrite Hcfg. }
  split; [by apply Hone |].
  clear Hcfg. revert m Hslot.
  induction n as [| n IH]; intros m Hslot; simpl.
  - rewrite app_nil_r. by destruct m.
  - rewrite (Hone m Hslot). simpl. rewrite IH by done. simpl.
    by rewrite <- app_assoc.
Qed.

(** The descriptors, buffers and results in the events of a call. *)
Lemma call_events (m m' : Machine World) :
  final (do_conv m) = Some m' ->
  exists delta,
    trace m' = trace m ++ delta /\
    (forall d, EvGetGpuConvConfig d ∈ delta -> descriptor = Some d) /\
    (forall c b r,
       EvPickBestAlgorithm c b r ∈ delta -> b = buffers /\ r = results) /\
    (forall c b r s reported,
       EvRunGpuConv c b r s reported ∈ delta ->
       b = buffers /\ r = results).
Proof.
  intros Hfinal.
  explore_call m Hfinal; try discriminate Hfinal;
    injection Hfinal as <-; simpl;
    rewrite <- ?app_assoc;
    (eexists; split; [first [reflexivity | symmetry; apply app_nil_r] |]);
    (split; [intros d Hin
            | split; [intros c b r Hin | intros c b r s reported Hin]]);
    elem_cases Hin; first [by injection Hin as -> | by injection Hin].
Qed.

End OneCall.

Lemma call_descriptor_fields
    (kind : CudnnConvKind) (operand0 operand1 : StridedMemrefView.t)
    (outputs : list StridedMemrefView.t) (scratch : FlatMemrefView.t)
    (conv_dims : ConvDimensionNumbers.t)
    (window_strides padding lhs_dilation rhs_dilation window_reversal
       : list Z)
    (backend_config : ConvBackendConfig.t)
    (feature_group_count : Z) (result_scale : double)
    (activation_mode : option ActivationMode)
    (side_input_scale leakyrelu_alpha : option double)
    (serialized_graph : option string) (d : GpuConvDescriptor.t) :
  call_descriptor kind operand0 operand1 outputs scratch conv_dims
    window_strides padding lhs_dilation rhs_dilation window_reversal
    backend_config feature_group_count result_scale activation_mode
    side_input_scale leakyrelu_alpha serialized_graph = Some d ->
  let c := GpuConvDescriptor.backend_config d in
  GpuConvDescriptor.kind d = kind /\
  CudnnConvBackendConfig.activation_mode c = default kNone activation_mode /\
  CudnnConvBackendConfig.side_input_scale c = default 0 side_input_scale /\
  CudnnConvBackendConfig.leakyrelu_alpha c = default 0 leakyrelu_alpha /\
  CudnnConvBackendConfig.serialized_graph c = serialized_graph /\
  exists output0,
    outputs !! 0%nat = Some output0 /\
    GpuConvDescriptor.result_shape d
    = apply_layout output0 (ConvBackendConfig.result_layout backend_config).
Proof.
  unfold call_descriptor, GetConvDescriptor.
  destruct outputs as [| output0 outs]; [done |].
  change (at_index (output0 :: outs) 0) with (Some output0).
  cbn [mbind option_bind].
  destruct (build_window _ _ _) as [ws |]; [| done].
  cbn [mbind option_bind].
  destruct (build_knobs _) as [knobs |]; [| done].
  cbn [mbind option_bind]. intros [= <-].
  assert (Hlayout : ConvBackendConfig.result_layout
                      (pin_algorithm backend_config).1
                    = ConvBackendConfig.result_layout backend_config).
  { unfold pin_algorithm.
    by destruct (ConvBackendConfig.algorithm backend_config =? -1). }
  destruct serialized_graph, activation_mode, side_input_scale,
    leakyrelu_alpha; simpl; rewrite Hlayout; eauto 10.
Qed.

(** ** The custom calls *)

(** X11.  The custom call [Conv<kind>], registered for the forward and the
    two backward convolutions, builds descriptors of its own kind with no
    fused activation, no side input scale, no leaky ReLU slope and no
    serialized graph, laid out for its one output, and hands the primitive
    the two operands and the one output. *)
Theorem Conv_is_a_plain_convolution
    (kind : CudnnConvKind) (operand0 operand1 output : StridedMemrefView.t)
    (scratch : FlatMemrefView.t) (uid : Z)
    (conv_dims : ConvDimensionNumbers.t)
    (window_strides padding lhs_dilation rhs_dilation window_reversal
       : list Z)
    (backend_config : ConvBackendConfig.t)
    (feature_group_count : Z) (result_scale : double)
    (m m' : Machine World) :
  final (Conv env kind operand0 operand1 output scratch uid conv_dims
           window_strides padding lhs_dilation rhs_dilation window_reversal
           backend_config feature_group_count result_scale m) = Some m' ->
  exists delta,
    trace m' = trace m ++ delta /\
    (forall d,
       EvGetGpuConvConfig d ∈ delta ->
       let c := GpuConvDescriptor.backend_config d in
       GpuConvDescriptor.kind d = kind /\
       CudnnConvBackendConfig.activation_mode c = kNone /\
       CudnnConvBackendConfig.side_input_scale c = 0 /\
       CudnnConvBackendConfig.leakyrelu_alpha c = 0 /\
       CudnnConvBackendConfig.serialized_graph c = None /\
       GpuConvDescriptor.result_shape d
       = apply_layout output
           (ConvBackendConfig.result_layout backend_config)) /\
    (forall c b r s reported,
       EvRunGpuConv c b r s reported ∈ delta ->
       b = [GetDeviceAddress env operand0; GetDeviceAddress env operand1] /\
       r = [GetDeviceAddress env output]).
Proof.
  unfold Conv, ConvImpl. intros Hfinal.
  destruct (call_events _ _ _ _ _ _ _ _ _ _ _ _ _ _ _ _ _ _ _ _ _ _ _ _ _
              Hfinal) as (delta & Htr & Hd & _ & Hr).
  exists delta. split; [done |]. split.
  - intros d Hin. apply Hd, call_descriptor_fields in Hin
      as (Hk & Ha & Hs & Hl & Hg & output0 & [= <-] & Hshape). done.
  - intros c b r s reported Hin. by destruct (Hr c b r s reported Hin).
Qed.

(** X12.  The custom call [ConvFused] builds forward-activation descriptors
    that carry its activation mode and its leaky ReLU slope and leave the
    side input scale unset, and hands the primitive the two operands
    followed by the bias. *)
Theorem ConvFused_has_bias_and_no_side_input
    (operand0 operand1 : StridedMemrefView.t) (bias : FlatMemrefView.t)
    (output : StridedMemrefView.t) (scratch : FlatMemrefView.t) (uid : Z)
    (conv_dims : ConvDimensionNumbers.t)
    (window_strides padding lhs_dilation rhs_dilation window_reversal
       : list Z)
    (backend_config : ConvBackendConfig.t)
    (feature_group_count : Z) (result_scale : double)
    (activation_mode : ActivationMode) (leakyrelu_alpha : double)
    (m m' : Machine World) :
  final (ConvFused env operand0 operand1 bias output scratch uid conv_dims
           window_strides padding lhs_dilation rhs_dilation window_reversal
           backend_config feature_group_count result_scale activation_mode
           leakyrelu_alpha m) = Some m' ->
  exists delta,
    trace m' = trace m ++ delta /\
    (forall d,
       EvGetGpuConvConfig d ∈ delta ->
       let c := GpuConvDescriptor.backend_config d in
       GpuConvDescriptor.kind d = kForwardActivation /\
       CudnnConvBackendConfig.activation_mode c = activation_mode /\
       CudnnConvBackendConfig.leakyrelu_alpha c = leakyrelu_alpha /\
       CudnnConvBackendConfig.side_input_scale c = 0 /\
       CudnnConvBackendConfig.serialized_graph c = None) /\
    (forall c b r s reported,
       EvRunGpuConv c b r s reported ∈ delta ->
       b = [GetDeviceAddress env operand0; GetDeviceAddress env operand1;
            GetDeviceAddress_flat bias] /\
       r = [GetDeviceAddress env output]).
Proof.
  unfold ConvFused, ConvImpl. intros Hfinal.
  destruct (call_events _ _ _ _ _ _ _ _ _ _ _ _ _ _ _ _ _ _ _ _ _ _ _ _ _
              Hfinal) as (delta & Htr & Hd & _ & Hr).
  exists delta. split; [done |]. split.
  - intros d Hin. apply Hd, call_descriptor_fields in Hin
      as (Hk & Ha & Hs & Hl & Hg & _). done.
  - intros c b r s reported Hin. by destruct (Hr c b r s reported Hin).
Qed.

(** X13.  The custom call [ConvFusedSideInput] builds forward-activation
    descriptors that carry its activation mode and its side input scale and
    leave the leaky ReLU slope unset, and hands the primitive the two
    operands, the bias and the side input, in this order. *)
Theorem ConvFusedSideInput_has_bias_and_side_input
    (operand0 operand1 : StridedMemrefView.t) (bias : FlatMemrefView.t)
    (side_input output : StridedMemrefView.t) (scratch : FlatMemrefView.t)
    (uid : Z) (conv_dims : ConvDimensionNumbers.t)
    (window_strides padding lhs_dilation rhs_dilation window_reversal
       : list Z)
    (backend_config : ConvBackendConfig.t)
    (feature_group_count : Z) (result_scale : double)
    (activation_mode : ActivationMode) (side_input_scale : double)
    (m m' : Machine World) :
  final (ConvFusedSideInput env operand0 operand1 bias side_input output
           scratch uid conv_dims window_strides padding lhs_dilation
           rhs_dilation window_reversal backend_config feature_group_count
           result_scale activation_mode side_input_scale m) = Some m' ->
  exists delta,
    trace m' = trace m ++ delta /\
    (forall d,
       EvGetGpuConvConfig d ∈ delta ->
       let c := GpuConvDescriptor.backend_config d in
       GpuConvDescriptor.kind d = kForwardActivation /\
       CudnnConvBackendConfig.activation_mode c = activation_mode /\
       CudnnConvBackendConfig.side_input_scale c = side_input_scale /\
       CudnnConvBackendConfig.leakyrelu_alpha c = 0 /\
       CudnnConvBackendConfig.serialized_graph c = None) /\
    (forall c b r s reported,
       EvRunGpuConv c b r s reported ∈ delta ->
       b = [GetDeviceAddress env operand0; GetDeviceAddress env operand1;
            GetDeviceAddress_flat bias; GetDeviceAddress env side_input] /\
       r = [GetDeviceAddress env output]).
Proof.
  unfold ConvFusedSideInput, ConvImpl. intros Hfinal.
  destruct (call_events _ _ _ _ _ _ _ _ _ _ _ _ _ _ _ _ _ _ _ _ _ _ _ _ _
              Hfinal) as (delta & Htr & Hd & _ & Hr).
  exists delta. split; [done |]. split.
  - intros d Hin. apply Hd, call_descriptor_fields in Hin
      as (Hk & Ha & Hs & Hl & Hg & _). done.
  - intros c b r s reported Hin. by destruct (Hr c b r s reported Hin).
Qed.

(** The graph variant is its binding followed by [DoConv]. *)
Lemma ConvGraphImpl_binds
    (kind : CudnnConvKind) (runner : State)
    (operand0 operand1 : StridedMemrefView.t)
    (args : RemainingArgs.t) (uid : Z)
    (conv_dims : ConvDimensionNumbers.t)
    (window_strides padding lhs_dilation rhs_dilation window_reversal
       : list Z)
    (backend_config : ConvBackendConfig.t)
    (feature_group_count : Z) (result_scale : double)
    (n_aux_outputs : Z) (serialized_graph : string) (m : Machine World) :
  0 <= n_aux_outputs <= INT_MAX ->
  Z.of_nat (length args) <= INT_MAX ->
  ConvGraphImpl env kind runner operand0 operand1 args uid conv_dims
    window_strides padding lhs_dilation rhs_dilation window_reversal
    backend_config feature_group_count result_scale n_aux_outputs
    serialized_graph m
  = match graph_binding_spec args n_aux_outputs with
    | OkValue (extra_operands, outputs, scratch) =>
        DoConv env kind runner operand0 operand1 None None outputs scratch
          uid conv_dims window_strides padding lhs_dilation rhs_dilation
          window_reversal backend_config feature_group_count result_scale
          None None None extra_operands (Some serialized_graph) m
    | NotOk e => Fail e m
    end.
Proof.
  intros Haux Hlen. unfold INT_MAX in *.
  set (N := Z.of_nat (length args)) in *.
  unfold ConvGraphImpl, graph_binding_spec, RemainingArgs.size.
  fold N. destruct (Z.ltb_spec N (n_aux_outputs + 2)) as [Hshort | Hlong].
  - rewrite get_memrefs_beyond; [done | | | done |]; fold N;
      unfold to_uint64, INT_MAX; try lia.
    rewrite <- (Z.mod_add _ 1) by lia. rewrite Z.mod_small; lia.
  - rewrite (to_uint64_small (N - n_aux_outputs - 2)) by lia.
    rewrite (to_uint64_small (N - 1)) by lia.
    rewrite to_int32_small by (unfold INT_MAX; lia).
    rewrite get_memrefs_within; fold N; unfold INT_MAX; try lia.
    rewrite Z.sub_0_r. change (Z.to_nat 0) with 0%nat. rewrite drop_0.
    destruct (mapM EncodedArg.as_strided
                (take (Z.to_nat (N - n_aux_outputs - 2)) args))
      as [extra_operands |]; [| done].
    rewrite get_memrefs_within; fold N; unfold INT_MAX; try lia.
    replace (N - 1 - (N - n_aux_outputs - 2)) with (n_aux_outputs + 1)
      by lia.
    destruct (mapM EncodedArg.as_strided _) as [outputs |]; [| done].
    unfold RemainingArgs.get_flat. rewrite at_index_nonneg by lia.
    rewrite last_lookup.
    replace (Z.to_nat (N - 1)) with (pred (length args)) by lia.
    simpl. by destruct (_ ≫= EncodedArg.as_flat).
Qed.

(** X14.  The custom call [ConvForwardGraph] builds forward-graph
    descriptors that carry its serialized graph and no fused attribute, and
    that are laid out for the main result, the first of the outputs; the
    auxiliary outputs only appear among the result buffers.  The primitive
    is handed the two operands followed by the extra operands, never a bias
    or a side input. *)
Theorem ConvForwardGraph_carries_the_graph
    (operand0 operand1 : StridedMemrefView.t) (args : RemainingArgs.t)
    (uid : Z) (conv_dims : ConvDimensionNumbers.t)
    (window_strides padding lhs_dilation rhs_dilation window_reversal
       : list Z)
    (backend_config : ConvBackendConfig.t)
    (feature_group_count : Z) (result_scale : double)
    (n_aux_outputs : Z) (serialized_graph : string)
    (extra_operands outputs : list StridedMemrefView.t)
    (scratch : FlatMemrefView.t) (m m' : Machine World) :
  0 <= n_aux_outputs <= INT_MAX ->
  Z.of_nat (length args) <= INT_MAX ->
  graph_binding_spec args n_aux_outputs
  = OkValue (extra_operands, outputs, scratch) ->
  final (ConvForwardGraph env operand0 operand1 args uid conv_dims
           window_strides padding lhs_dilation rhs_dilation window_reversal
           backend_config feature_group_count result_scale n_aux_outputs
           serialized_graph m) = Some m' ->
  exists delta,
    trace m' = trace m ++ delta /\
    (forall d,
       EvGetGpuConvConfig d ∈ delta ->
       let c := GpuConvDescriptor.backend_config d in
       GpuConvDescriptor.kind d = kForwardGraph /\
       CudnnConvBackendConfig.serialized_graph c = Some serialized_graph /\
       CudnnConvBackendConfig.activation_mode c = kNone /\
       CudnnConvBackendConfig.side_input_scale c = 0 /\
       CudnnConvBackendConfig.leakyrelu_alpha c = 0 /\
       exists main,
         outputs !! 0%nat = Some main /\
         GpuConvDescriptor.result_shape d
         = apply_layout main
             (ConvBackendConfig.result_layout backend_config)) /\
    (forall c b r s reported,
       EvRunGpuConv c b r s reported ∈ delta ->
       b = [GetDeviceAddress env operand0; GetDeviceAddress env operand1]
           ++ (GetDeviceAddress env <$> extra_operands) /\
       r = GetDeviceAddress env <$> outputs).
Proof.
  unfold ConvForwardGraph. intros Haux Hlen Hbind.
  rewrite ConvGraphImpl_binds, Hbind by done. intros Hfinal.
  destruct (call_events _ _ _ _ _ _ _ _ _ _ _ _ _ _ _ _ _ _ _ _ _ _ _ _ _
              Hfinal) as (delta & Htr & Hd & _ & Hr).
  exists delta. split; [done |]. split.
  - intros d Hin. apply Hd, call_descriptor_fields in Hin
      as (Hk & Ha & Hs & Hl & Hg & main & Hmain & Hshape). eauto 10.
  - intros c b r s reported Hin. by destruct (Hr c b r s reported Hin).
Qed.

End MoreSteps.

(** ** The example calls satisfy the hypotheses of the further properties *)

Lemma built_call_site_only_runs_witness :
  exists m',
    final (Example.conv (Example.env true true None 4096)
             (Example.backend 3 (-1)) Example.built) = Some m' /\
    length (trace m') = 1%nat.
Proof.
  destruct (built_call_site_only_runs (Example.env true true None 4096)
              kForward 42 Example.input Example.kernel None None
              [Example.output] Example.scratch 42 Example.conv_dims
              [1; 1] [0; 0] [1; 1] [1; 1] [0; 0] (Example.backend 3 (-1))
              1 0 None None None [] None Example.built Example.plan)
    as (status & cache & w & _ & Hfinal & _).
  - vm_compute. reflexivity.
  - simpl. discriminate.
  - eexists. split; [exact Hfinal |]. reflexivity.
Defined.

Lemma explicit_algorithm_keeps_caller_scratch_witness :
  exists m' delta,
    final (Example.conv (Example.env true true None 4096)
             (Example.backend 3 (-1)) Example.start) = Some m' /\
    trace m' = trace Example.start ++ delta /\ allocations delta = [].
Proof.
  assert (H : exists m',
            final (Example.conv (Example.env true true None 4096)
                     (Example.backend 3 (-1)) Example.start) = Some m').
  { eexists. vm_compute. reflexivity. }
  destruct H as [m' H]. pose proof H as H2.
  eapply explicit_algorithm_keeps_caller_scratch in H2;
    [| simpl; discriminate].
  destruct H2 as (delta & Htr & Halloc & _).
  exists m', delta. split; [exact H |]. split; [exact Htr | exact Halloc].
Defined.

Lemma tuned_call_runs_with_selected_algorithm_witness :
  exists m' delta,
    final (Example.conv (Example.env true true None 4096)
             (Example.backend (-1) (-1)) Example.start) = Some m' /\
    trace m' = trace Example.start ++ delta.
Proof.
  assert (H : exists m',
            final (Example.conv (Example.env true true None 4096)
                     (Example.backend (-1) (-1)) Example.start) = Some m').
  { eexists. vm_compute. reflexivity. }
  destruct H as [m' H]. pose proof H as H2.
  eapply tuned_call_runs_with_selected_algorithm in H2; [| reflexivity].
  destruct H2 as (delta & Htr & _).
  exists m', delta. split; [exact H | exact Htr].
Defined.

Lemma search_error_ends_the_call_witness :
  exists m' c b r,
    EvPickBestAlgorithm c b r ∈ trace m' /\
    PickBestAlgorithmWithAllocatedBuffer Example.failing_search c b r 0%nat
    = (NotOk (mkStatus kNotFound "no algorithm"), 0%nat) /\
    Example.conv Example.failing_search (Example.backend (-1) (-1))
      Example.start
    = Fail (mkStatus kNotFound "no algorithm") m' /\
    allocations (trace m') = [] /\
    scratch_used (trace m') = [] /\
    exists conv,
      runners m' !! 42 = Some conv /\ ConvRunner.config conv = c.
Proof.
  set (call := Example.conv Example.failing_search
                 (Example.backend (-1) (-1))).
  set (m' := default Example.start (final (call Example.start))).
  assert (H : final (call Example.start) = Some m')
    by (vm_compute; reflexivity).
  pose proof H as H2.
  eapply search_error_ends_the_call in H2.
  destruct H2 as (delta & Htr & Hall).
  change (trace m' = delta) in Htr. subst delta.
  assert (Hin : exists c b r,
            EvPickBestAlgorithm c b r ∈ trace m' /\
            PickBestAlgorithmWithAllocatedBuffer Example.failing_search
              c b r 0%nat
            = (NotOk (mkStatus kNotFound "no algorithm"), 0%nat)).
  { do 3 eexists. split; [| reflexivity].
    apply list_elem_of_further, list_elem_of_here. }
  destruct Hin as (c & b & r & Hin & Hpick).
  destruct (Hall c b r _ _ Hin Hpick)
    as (Hfail & _ & Halloc & Hused & Hconv).
  exists m', c, b, r. done.
Defined.

Lemma errors_are_passed_on_witness :
  Example.conv (Example.env false true None 4096)
    (Example.backend (-1) (-1)) Example.built
  = Fail autotune_error Example.built /\
  ((autotune_error = autotune_error /\
    ConvBackendConfig.algorithm (Example.backend (-1) (-1)) = -1 /\
    GOOGLE_CUDA (Example.env false true None 4096) = false) \/
   (autotune_error = stream_error /\
    stream_ok (Example.env false true None 4096) (world Example.built)
    = false) \/
   (exists d,
      call_descriptor kForward Example.input Example.kernel
        [Example.output] Example.scratch Example.conv_dims [1; 1] [0; 0]
        [1; 1] [1; 1] [0; 0] (Example.backend (-1) (-1)) 1 0 None None None
        None = Some d /\
      GetGpuConvConfig (Example.env false true None 4096) d
      = NotOk autotune_error) \/
   (exists c w,
      PickBestAlgorithmWithAllocatedBuffer
        (Example.env false true None 4096) c
        (operand_buffers (Example.env false true None 4096) Example.input
           Example.kernel None None [])
        (GetDeviceAddress (Example.env false true None 4096)
         <$> [Example.output])
        (world Example.built) = (NotOk autotune_error, w)) \/
   (exists bytes w w',
      Allocate (Example.env false true None 4096)
        (device_ordinal (Example.env false true None 4096)) bytes w
      = (NotOk autotune_error, w')) \/
   (exists c s k w k',
      RunGpuConv (Example.env false true None 4096) c
        (operand_buffers (Example.env false true None 4096) Example.input
           Example.kernel None None [])
        (GetDeviceAddress (Example.env false true None 4096)
         <$> [Example.output])
        s k w = (Some autotune_error, k', world Example.built))).
Proof.
  assert (H : Example.conv (Example.env false true None 4096)
                (Example.backend (-1) (-1)) Example.built
              = Fail autotune_error Example.built).
  { vm_compute. reflexivity. }
  split; [exact H |].
  exact (errors_are_passed_on _ _ _ _ _ _ _ _ _ _ _ _ _ _ _ _ _ _ _ _ _ _ _
           _ _ _ _ H).
Defined.

Lemma operands_and_results_in_order_witness :
  exists m' delta,
    final (Example.conv (Example.env true true None 4096)
             (Example.backend 3 (-1)) Example.start) = Some m' /\
    trace m' = trace Example.start ++ delta.
Proof.
  assert (H : exists m',
            final (Example.conv (Example.env true true None 4096)
                     (Example.backend 3 (-1)) Example.start) = Some m').
  { eexists. vm_compute. reflexivity. }
  destruct H as [m' H]. pose proof H as H2.
  eapply operands_and_results_in_order in H2.
  destruct H2 as (delta & Htr & _).
  exists m', delta. split; [exact H | exact Htr].
Defined.

Lemma call_keeps_the_plans_witness :
  exists m',
    final (Example.conv (Example.env true true None 4096)
             (Example.backend 3 (-1)) Example.built) = Some m' /\
    runners m' !! 7 = runners Example.built !! 7.
Proof.
  assert (H : exists m',
            final (Example.conv (Example.env true true None 4096)
                     (Example.backend 3 (-1)) Example.built) = Some m').
  { eexists. vm_compute. reflexivity. }
  destruct H as [m' H]. pose proof H as H2.
  eapply call_keeps_the_plans in H2.
  destruct H2 as (Hframe & _).
  exists m'. split; [exact H |]. apply Hframe. discriminate.
Defined.

Lemma refused_build_is_retried_witness :
  exists m',
    invocations 3 (Example.conv Example.refusing (Example.backend 3 (-1)))
      Example.start = Some m' /\
    runners m' = runners Example.start.
Proof.
  assert (H : exists d,
            call_descriptor kForward Example.input Example.kernel
              [Example.output] Example.scratch Example.conv_dims
              [1; 1] [0; 0] [1; 1] [1; 1] [0; 0] (Example.backend 3 (-1))
              1 0 None None None None = Some d).
  { eexists. vm_compute. reflexivity. }
  destruct H as [d H].
  destruct (refused_build_is_retried Example.refusing kForward 42
              Example.input Example.kernel None None [Example.output]
              Example.scratch 42 Example.conv_dims [1; 1] [0; 0] [1; 1]
              [1; 1] [0; 0] (Example.backend 3 (-1)) 1 0 None None None []
              None Example.start d
              (mkStatus kUnimplemented "unsupported layout") 3
              eq_refl H eq_refl) as [_ Hn].
  eexists. split; [exact Hn | reflexivity].
Defined.

Lemma Conv_is_a_plain_convolution_witness :
  exists m' delta,
    final (Conv (Example.env true true None 4096) kBackwardInput
             Example.input Example.kernel Example.output Example.scratch 42
             Example.conv_dims [1; 1] [0; 0] [1; 1] [1; 1] [0; 0]
             (Example.backend 3 (-1)) 1 0 Example.start) = Some m' /\
    trace m' = trace Example.start ++ delta.
Proof.
  assert (H : exists m',
            final (Conv (Example.env true true None 4096) kBackwardInput
                     Example.input Example.kernel Example.output
                     Example.scratch 42 Example.conv_dims [1; 1] [0; 0]
                     [1; 1] [1; 1] [0; 0] (Example.backend 3 (-1)) 1 0
                     Example.start) = Some m').
  { eexists. vm_compute. reflexivity. }
  destruct H as [m' H]. pose proof H as H2.
  eapply Conv_is_a_plain_convolution in H2.
  destruct H2 as (delta & Htr & _).
  exists m', delta. split; [exact H | exact Htr].
Defined.

Lemma ConvFused_has_bias_and_no_side_input_witness :
  exists m' delta,
    final (ConvFused (Example.env true true None 4096) Example.input
             Example.kernel Example.scratch Example.output Example.scratch
             42 Example.conv_dims [1; 1] [0; 0] [1; 1] [1; 1] [0; 0]
             (Example.backend 3 (-1)) 1 0 kRelu 0 Example.start) = Some m' /\
    trace m' = trace Example.start ++ delta.
Proof.
  assert (H : exists m',
            final (ConvFused (Example.env true true None 4096)
                     Example.input Example.kernel Example.scratch
                     Example.output Example.scratch 42 Example.conv_dims
                     [1; 1] [0; 0] [1; 1] [1; 1] [0; 0]
                     (Example.backend 3 (-1)) 1 0 kRelu 0 Example.start)
            = Some m').
  { eexists. vm_compute. reflexivity. }
  destruct H as [m' H]. pose proof H as H2.
  eapply ConvFused_has_bias_and_no_side_input in H2.
  destruct H2 as (delta & Htr & _).
  exists m', delta. split; [exact H | exact Htr].
Defined.

Lemma ConvFusedSideInput_has_bias_and_side_input_witness :
  exists m' delta,
    final (ConvFusedSideInput (Example.env true true None 4096)
             Example.input Example.kernel Example.scratch Example.output
             Example.output Example.scratch 42 Example.conv_dims [1; 1]
             [0; 0] [1; 1] [1; 1] [0; 0] (Example.backend 3 (-1)) 1 0 kRelu
             0 Example.start) = Some m' /\
    trace m' = trace Example.start ++ delta.
Proof.
  assert (H : exists m',
            final (ConvFusedSideInput (Example.env true true None 4096)
                     Example.input Example.kernel Example.scratch
                     Example.output Example.output Example.scratch 42
                     Example.conv_dims [1; 1] [0; 0] [1; 1] [1; 1] [0; 0]
                     (Example.backend 3 (-1)) 1 0 kRelu 0 Example.start)
            = Some m').
  { eexists. vm_compute. reflexivity. }
  destruct H as [m' H]. pose proof H as H2.
  eapply ConvFusedSideInput_has_bias_and_side_input in H2.
  destruct H2 as (delta & Htr & _).
  exists m', delta. split; [exact H | exact Htr].
Defined.

Lemma ConvForwardGraph_carries_the_graph_witness :
  exists m' delta,
    final (ConvForwardGraph (Example.env true true None 4096)
             Example.input Example.kernel Example.graph_args 42
             Example.conv_dims [1; 1] [0; 0] [1; 1] [1; 1] [0; 0]
             (Example.backend 3 (-1)) 1 0 2 "graph" Example.start)
    = Some m' /\
    trace m' = trace Example.start ++ delta.
Proof.
  assert (H : exists m',
            final (ConvForwardGraph (Example.env true true None 4096)
                     Example.input Example.kernel Example.graph_args 42
                     Example.conv_dims [1; 1] [0; 0] [1; 1] [1; 1] [0; 0]
                     (Example.backend 3 (-1)) 1 0 2 "graph" Example.start)
            = Some m').
  { eexists. vm_compute. reflexivity. }
  destruct H as [m' H].
  destruct (ConvForwardGraph_carries_the_graph
              (Example.env true true None 4096) Example.input
              Example.kernel Example.graph_args 42 Example.conv_dims
              [1; 1] [0; 0] [1; 1] [1; 1] [0; 0] (Example.backend 3 (-1))
              1 0 2 "graph"
              [Example.input; Example.kernel; Example.kernel]
              [Example.output; Example.output; Example.output]
              Example.scratch Example.start m')
    as (delta & Htr & _).
  - unfold INT_MAX. lia.
  - unfold INT_MAX. simpl. lia.
  - reflexivity.
  - exact H.
  - exists m', delta. split; [exact H | exact Htr].
Defined.

(** ** Fetching the runners of an executor *)

(** X15.  [ConvRunners::operator()] only ever adds entries.  After any
    sequence of fetches, an executor that had an entry has it unchanged,
    with its plans; an executor that had none has an empty entry if it was
    fetched and none otherwise; and one more fetch for an executor of the
    sequence changes nothing. *)
Theorem runners_entry_is_made_once
    (es : list StreamExecutor) (runners_ : ConvRunners.t) :
  let rs := foldl (fun rs e => (ConvRunners.call e rs).2) runners_ es in
  (forall e,
     rs !! e = match runners_ !! e with
               | Some plans => Some plans
               | None => if decide (e ∈ es) then Some ∅ else None
               end) /\
  (forall e, e ∈ es -> ConvRunners.call e rs = (e, rs)).
Proof.
  intros rs.
  assert (Hlookup : forall e,
            rs !! e = match runners_ !! e with
                      | Some plans => Some plans
                      | None => if decide (e ∈ es) then Some ∅ else None
                      end).
  { subst rs. revert runners_.
    induction es as [| e0 es IH]; intros runners_ e; simpl.
    - destruct (runners_ !! e); [done |].
      destruct (decide (e ∈ [])) as [Hin | _]; [| done].
      by apply elem_of_nil in Hin.
    - rewrite IH. unfold ConvRunners.call.
      destruct (runners_ !! e0) as [plans0 |] eqn:He0; cbn [snd].
      + destruct (runners_ !! e) as [plans |] eqn:He; [done |].
        destruct (decide (e ∈ es)) as [Hin | Hout];
          destruct (decide (e ∈ e0 :: es)) as [Hin' | Hout']; try done.
        * exfalso. apply Hout'. by apply list_elem_of_further.
        * apply elem_of_cons in Hin' as [-> | Hin']; [congruence | done].
      + destruct (decide (e = e0)) as [-> | Hne].
        * rewrite lookup_insert_eq, He0.
          destruct (decide (e0 ∈ e0 :: es)) as [_ | Hout]; [done |].
          exfalso. apply Hout, list_elem_of_here.
        * rewrite lookup_insert_ne by done.
          destruct (runners_ !! e) as [plans |]; [done |].
          destruct (decide (e ∈ es)) as [Hin | Hout];
            destruct (decide (e ∈ e0 :: es)) as [Hin' | Hout']; try done.
          -- exfalso. apply Hout'. by apply list_elem_of_further.
          -- apply elem_of_cons in Hin' as [-> | Hin']; done. }
  split; [exact Hlookup |].
  intros e Hin. unfold ConvRunners.call. rewrite Hlookup.
  destruct (runners_ !! e); [done |].
  by destruct (decide (e ∈ es)).
Qed.

(** Fetches for the executors 2, 3 and 2 again, in a process in which
    executor 2 has a plan: the entry of 2 is kept, 3 gets an empty entry,
    and 4 gets none. *)
Lemma runners_entry_is_made_once_witness :
  let rs :=
    foldl (fun rs e => (ConvRunners.call e rs).2) Example.tuned [2; 3; 2] in
  rs !! 2 = Example.tuned !! 2 /\
  is_Some (Example.tuned !! 2) /\
  rs !! 3 = Some ∅ /\
  rs !! 4 = None /\
  ConvRunners.call 3 rs = (3, rs).
Proof.
  intros rs.
  destruct (runners_entry_is_made_once [2; 3; 2] Example.tuned)
    as [Hlookup Hfetch].
  fold rs in Hlookup, Hfetch.
  split; [by rewrite Hlookup |].
  split; [by eexists |].
  split; [by rewrite Hlookup |].
  split; [by rewrite Hlookup |].
  apply Hfetch. apply list_elem_of_further, list_elem_of_here.
Defined.

(** ** A negative number of auxiliary outputs *)

Section GraphEdge.
Context {World : Type} (env : Env World).

(** X16.  [ConvGraphImpl] does not check the sign of [n_aux_outputs].  With
    a negative count no argument is bound as an output: the call returns
    one of its three internal errors and leaves the machine as it was, or it
    reaches [DoConv] with an empty vector of outputs, and then a call site
    that has no plan yet reads [outputs[0]] of that empty vector, which is
    undefined behaviour. *)
Theorem negative_aux_count_binds_no_output
    (kind : CudnnConvKind) (runner : State)
    (operand0 operand1 : StridedMemrefView.t)
    (args : RemainingArgs.t) (uid : Z)
    (conv_dims : ConvDimensionNumbers.t)
    (window_strides padding lhs_dilation rhs_dilation window_reversal
       : list Z)
    (backend_config : ConvBackendConfig.t)
    (feature_group_count : Z) (result_scale : double)
    (n_aux_outputs : Z) (serialized_graph : string) (m : Machine World) :
  - 2 ^ 31 <= n_aux_outputs < 0 ->
  Z.of_nat (length args) <= INT_MAX ->
  let call :=
    ConvGraphImpl env kind runner operand0 operand1 args uid conv_dims
      window_strides padding lhs_dilation rhs_dilation window_reversal
      backend_config feature_group_count result_scale n_aux_outputs
      serialized_graph m in
  (exists e,
     call = Fail e m /\
     e ∈ [operand_error; output_error; scratch_error]) \/
  (exists extra_operands scratch,
     call
     = DoConv env kind runner operand0 operand1 None None [] scratch uid
         conv_dims window_strides padding lhs_dilation rhs_dilation
         window_reversal backend_config feature_group_count result_scale
         None None None extra_operands (Some serialized_graph) m /\
     (runners m !! runner = None -> call = Undef)).
Proof.
  intros Haux Hlen call. subst call. unfold INT_MAX in *.
  set (N := Z.of_nat (length args)) in *.
  assert (Hempty : forall scratch extra_operands,
            runners m !! runner = None ->
            DoConv env kind runner operand0 operand1 None None [] scratch uid
              conv_dims window_strides padding lhs_dilation rhs_dilation
              window_reversal backend_config feature_group_count result_scale
              None None None extra_operands (Some serialized_graph) m
            = Undef).
  { intros scratch extra_operands Hslot.
    rewrite DoConv_unfold, Hslot. reflexivity. }
  unfold ConvGraphImpl, RemainingArgs.size. fold N.
  assert (Hcases : N - n_aux_outputs - 2 < 0 \/ N < N - n_aux_outputs - 2 \/
                   (n_aux_outputs = -1 /\ 1 <= N) \/ n_aux_outputs = -2)
    by lia.
  destruct Hcases as [Hneg | [Hbeyond | [[-> Hone] | ->]]].
  - (* -1 with no argument: the bound wraps around *)
    left. exists operand_error. split; [| apply list_elem_of_here].
    rewrite get_memrefs_beyond; [done | | | done |]; fold N;
      unfold to_uint64, INT_MAX; try lia.
    rewrite <- (Z.mod_add _ 1) by lia. rewrite Z.mod_small; lia.
  - (* below -2: the bound of the first loop lies beyond the arguments *)
    left. exists operand_error. split; [| apply list_elem_of_here].
    rewrite get_memrefs_beyond; [done | | | done |]; fold N;
      unfold to_uint64, INT_MAX; try lia.
    rewrite Z.mod_small; lia.
  - (* -1: every argument but the last is an operand *)
    replace (N - -1 - 2) with (N - 1) by lia.
    rewrite (to_uint64_small (N - 1)) by lia.
    rewrite to_int32_small by (unfold INT_MAX; lia).
    rewrite get_memrefs_within; fold N; unfold INT_MAX; try lia.
    rewrite Z.sub_0_r. change (Z.to_nat 0) with 0%nat. rewrite drop_0.
    destruct (mapM EncodedArg.as_strided (take (Z.to_nat (N - 1)) args))
      as [extra_operands |].
    2: { left. exists operand_error. split; [done | apply list_elem_of_here]. }
    rewrite get_memrefs_within; fold N; unfold INT_MAX; try lia.
    rewrite Z.sub_diag. change (Z.to_nat 0) with 0%nat. rewrite take_0.
    cbn [mapM mret option_ret app].
    destruct (RemainingArgs.get_flat args (N - 1)) as [scratch |].
    + right. exists extra_operands, scratch. split; [done |].
      apply Hempty.
    + left. exists scratch_error. split; [done |].
      apply list_elem_of_further, list_elem_of_further, list_elem_of_here.
  - (* -2: every argument is an operand *)
    replace (N - -2 - 2) with N by lia.
    rewrite (to_uint64_small N) by lia.
    rewrite to_int32_small by (unfold INT_MAX; lia).
    rewrite get_memrefs_within; fold N; unfold INT_MAX; try lia.
    rewrite Z.sub_0_r. change (Z.to_nat 0) with 0%nat. rewrite drop_0.
    destruct (mapM EncodedArg.as_strided (take (Z.to_nat N) args))
      as [extra_operands |].
    2: { left. exists operand_error. split; [done | apply list_elem_of_here]. }
    destruct (Z.eq_dec N 0) as [Hzero | Hsome].
    + (* no argument: the bound of the second loop wraps around *)
      left. exists output_error.
      split; [| apply list_elem_of_further, list_elem_of_here].
      rewrite get_memrefs_beyond; [done | | | done |]; fold N;
        unfold to_uint64, INT_MAX; try lia.
      rewrite Hzero. done.
    + cbn [get_memrefs]. rewrite (to_uint64_small N) by lia.
      rewrite (to_uint64_small (N - 1)) by lia.
      destruct (Z.ltb_spec N (N - 1)) as [Hlt | _]; [lia |].
      destruct (RemainingArgs.get_flat args (N - 1)) as [scratch |].
      * right. exists extra_operands, scratch. split; [done |].
        apply Hempty.
      * left. exists scratch_error. split; [done |].
        apply list_elem_of_further, list_elem_of_further, list_elem_of_here.
Qed.

End GraphEdge.

(** An instance: one operand and the scratch buffer, with a count of -1,
    on a call site without a plan. *)
Lemma negative_aux_count_binds_no_output_witness :
  (exists e,
     ConvGraphImpl (Example.env true true None 4096) kForwardGraph 42
       Example.input Example.kernel
       [Example.strided_arg Example.kernel; Example.flat_arg Example.scratch]
       7 Example.conv_dims [1; 1] [0; 0] [1; 1] [1; 1] [0; 0]
       (Example.backend 3 (-1)) 1 0 (-1) "graph" Example.start
     = Fail e Example.start /\
     e ∈ [operand_error; output_error; scratch_error]) \/
  (exists extra_operands scratch,
     ConvGraphImpl (Example.env true true None 4096) kForwardGraph 42
       Example.input Example.kernel
       [Example.strided_arg Example.kernel; Example.flat_arg Example.scratch]
       7 Example.conv_dims [1; 1] [0; 0] [1; 1] [1; 1] [0; 0]
       (Example.backend 3 (-1)) 1 0 (-1) "graph" Example.start
     = DoConv (Example.env true true None 4096) kForwardGraph 42
         Example.input Example.kernel None None [] scratch 7
         Example.conv_dims [1; 1] [0; 0] [1; 1] [1; 1] [0; 0]
         (Example.backend 3 (-1)) 1 0 None None None extra_operands
         (Some "graph") Example.start /\
     (runners Example.start !! 42 = None ->
      ConvGraphImpl (Example.env true true None 4096) kForwardGraph 42
        Example.input Example.kernel
       [Example.strided_arg Example.kernel; Example.flat_arg Example.scratch]
        7 Example.conv_dims [1; 1] [0; 0] [1; 1] [1; 1] [0; 0]
        (Example.backend 3 (-1)) 1 0 (-1) "graph" Example.start
      = Undef)).
Proof.
  apply negative_aux_count_binds_no_output.
  - lia.
  - unfold INT_MAX. simpl. lia.
Defined.
